(** * Werewolf agent SDK: the decision-and-action logic of [sdk/agent.py]

    A shallow embedding of [Agent] (src/sdk/agent.py) and of the records of
    src/sdk/game_types.py, with the properties stated for it.

    - Python [str] values are modelled as [string]: a sequence of the code
      points 0..255 (Latin-1), one per [ascii].  Inside that range the
      character classes are those of CPython: [str.isdigit] accepts the
      ten decimal digits and the superscripts U+00B2, U+00B3, U+00B9,
      [int] accepts only the decimal digits, [str.split] cuts at
      U+0009..U+000D, U+001C..U+0020, U+0085 and U+00A0.
    - The two injected capabilities ([BackendInterface], [AIClient]) and
      [random.choice] are external: a method is a tree of calls ([prog]),
      run against an arbitrary stateful [World].
    - Exceptions are the instances of [Exception]; every [try]/[except] of
      the source is a [try_catch] here.  What a method assigned before it
      raised stays assigned.
    - [logger.error] writes to the log and nothing else: it is left out.
    - [int] is the conversion of CPython 3.11 with its default settings: a
      text that starts with more than 4300 decimal digits
      ([sys.int_info.default_max_str_digits]) is refused with a
      [ValueError], like a text that is not a decimal number.  Writing a
      number ([str], an f-string) is total here: ids and rounds are
      numbers of at most 4300 digits. *)

From stdpp Require Import gmap strings list.
From Stdlib Require Import ZArith Ascii String Bool Lia DecimalString DecimalPos.

Local Open Scope Z_scope.

(** ** Python string primitives *)

Module PyStr.

Definition ord (c : ascii) : N := N_of_ascii c.

(** [str.isdecimal] on one character. *)
Definition isdecimal_char (c : ascii) : bool :=
  ((48 <=? ord c) && (ord c <=? 57))%N.

(** [str.isdigit] on one character: decimal digits and the superscript
    digits two, three and one. *)
Definition isdigit_char (c : ascii) : bool :=
  (isdecimal_char c || (ord c =? 178) || (ord c =? 179) || (ord c =? 185))%N.

(** [str.isspace] on one character (the separators of [str.split()]). *)
Definition isspace_char (c : ascii) : bool :=
  (((9 <=? ord c) && (ord c <=? 13)) || ((28 <=? ord c) && (ord c <=? 32))
   || (ord c =? 133) || (ord c =? 160))%N.

(** [str.lower] on one character: A-Z and the accented capitals
    U+00C0..U+00DE (the multiplication sign U+00D7 apart) move up by 32. *)
Definition lower_char (c : ascii) : ascii :=
  if (((65 <=? ord c) && (ord c <=? 90))
      || ((192 <=? ord c) && (ord c <=? 222) && negb (ord c =? 215)))%N
  then ascii_of_N (ord c + 32)
  else c.

Fixpoint lower (s : string) : string :=
  match s with
  | EmptyString => EmptyString
  | String c s' => String (lower_char c) (lower s')
  end.

Fixpoint all_chars (p : ascii -> bool) (s : string) : bool :=
  match s with
  | EmptyString => true
  | String c s' => p c && all_chars p s'
  end.

(** [s.isdigit()]: at least one character, and all of them digits. *)
Definition isdigit (s : string) : bool :=
  match s with
  | EmptyString => false
  | _ => all_chars isdigit_char s
  end.

Definition isdecimal (s : string) : bool :=
  match s with
  | EmptyString => false
  | _ => all_chars isdecimal_char s
  end.

(** [needle in hay]. *)
Fixpoint contains (needle hay : string) : bool :=
  String.prefix needle hay ||
  match hay with
  | EmptyString => false
  | String _ hay' => contains needle hay'
  end.

(** [s.split()]: the maximal runs of non-whitespace characters.  [cur] is
    the run being read, in reverse. *)
Definition flush (cur : list ascii) (acc : list string) : list string :=
  match cur with
  | [] => acc
  | _ => string_of_list_ascii (rev cur) :: acc
  end.

Fixpoint split_go (s : string) (cur : list ascii) : list string :=
  match s with
  | EmptyString => flush cur []
  | String c s' =>
      if isspace_char c then flush cur (split_go s' [])
      else split_go s' (c :: cur)
  end.

Definition split (s : string) : list string := split_go s [].

(** Value of a string of decimal digits, most significant first. *)
Fixpoint digits_value (s : string) (acc : Z) : Z :=
  match s with
  | EmptyString => acc
  | String c s' => digits_value s' (10 * acc + (Z.of_N (ord c) - 48))
  end.

(** [sys.int_info.default_max_str_digits]: the longest run of digits that
    [int] converts. *)
Definition max_str_digits : nat := 4300.

(** The number of decimal digits a string starts with: what [int] counts
    before it converts. *)
Fixpoint leading_decimals (s : string) : nat :=
  match s with
  | EmptyString => O
  | String c s' => if isdecimal_char c then S (leading_decimals s') else O
  end.

(** [str(n)] for an [int]. *)
Definition str_of_Z (n : Z) : string := NilZero.string_of_int (Z.to_int n).

(** [str(l)] for a list of [int]: [[1, 2, 3]]. *)
Fixpoint join (sep : string) (l : list string) : string :=
  match l with
  | [] => EmptyString
  | [x] => x
  | x :: l' => x +:+ sep +:+ join sep l'
  end.

Definition str_of_list_Z (l : list Z) : string :=
  "[" +:+ join ", " (map str_of_Z l) +:+ "]".

(** [str(x)] for an optional string: [None] prints as [None]. *)
Definition str_of_opt_string (o : option string) : string :=
  match o with Some s => s | None => "None" end.

Definition str_of_opt_Z (o : option Z) : string :=
  match o with Some n => str_of_Z n | None => "None" end.

(** The superscript two, U+00B2. *)
Definition superscript_two : string := String (ascii_of_N 178) EmptyString.

End PyStr.

(** ** Data model (sdk/game_types.py) *)

Inductive Role : Type := VILLAGER | WEREWOLF | WITCH | SEER | HUNTER.

(** [Role.value] *)
Definition role_value (r : Role) : string :=
  match r with
  | VILLAGER => "villager"
  | WEREWOLF => "werewolf"
  | WITCH => "witch"
  | SEER => "seer"
  | HUNTER => "hunter"
  end.

Record SpeechRecord : Type := mkSpeechRecord {
  sp_player_id : Z;
  sp_content : string;
  sp_round : Z;
  sp_phase : string }.

Record DeathInfo : Type := mkDeathInfo {
  di_player_id : Z;
  di_round : Z;
  di_cause : string }.

(** [GameState] is a [TypedDict] with [total=False]: every key may be
    absent. *)
Record GameState : Type := mkGameState {
  gs_phase : option string;
  gs_round : option Z;
  gs_alive_players : option (list Z);
  gs_death_info : option (list DeathInfo) }.

(** A value of type [Any], as far as the status dictionary needs it. *)
Inductive pyval : Type :=
| PyNone
| PyBool (b : bool)
| PyInt (n : Z)
| PyStr (s : string).

(** Truth value of a Python object. *)
Definition truthy (v : pyval) : bool :=
  match v with
  | PyNone => false
  | PyBool b => b
  | PyInt n => negb (n =? 0)
  | PyStr s => negb (String.eqb s EmptyString)
  end.

(** The knowledge base is a dict: [__init__] creates five keys, and
    ["alive_players"] only exists once [get_current_state] has stored it. *)
Record KnowledgeBase : Type := mkKnowledgeBase {
  kb_game_phase : option string;
  kb_current_round : Z;
  kb_history_speeches : list SpeechRecord;
  kb_vote_history : list (gmap string pyval);
  kb_death_info : list DeathInfo;
  kb_alive_players : option (list Z) }.

Record SkillParams : Type := mkSkillParams {
  sk_action : option string;
  sk_target_id : option Z }.

Record SkillResult : Type := mkSkillResult {
  sr_success : bool;
  sr_message : string;
  sr_target_id : option Z;
  sr_check_result : option string }.

Record ActionResult : Type := mkActionResult {
  ar_action_type : string;
  ar_success : bool;
  ar_message : option string;
  ar_content : option string;
  ar_vote_target : option Z }.

(** Handle of an injected [AIClient] object. *)
Definition AIClient : Type := nat.

(** The attributes of an [Agent].  [is_alive] and [skill_used] are only
    ever read through a truth test, so the slots hold the truth value of
    what was assigned. *)
Record Agent : Type := mkAgent {
  player_id : Z;
  role : Role;
  api_client : option AIClient;
  is_alive : bool;
  vote_target : option Z;
  skill_used : bool;
  knowledge_base : KnowledgeBase }.

(** [Agent.__init__] *)
Definition new_agent (pid : Z) (r : Role) (client : option AIClient) : Agent :=
  {| player_id := pid; role := r; api_client := client;
     is_alive := true; vote_target := None; skill_used := false;
     knowledge_base :=
       {| kb_game_phase := None; kb_current_round := 0;
          kb_history_speeches := []; kb_vote_history := [];
          kb_death_info := []; kb_alive_players := None |} |}.

Definition set_is_alive (b : bool) (a : Agent) : Agent :=
  mkAgent (player_id a) (role a) (api_client a) b (vote_target a)
          (skill_used a) (knowledge_base a).

Definition set_skill_used (b : bool) (a : Agent) : Agent :=
  mkAgent (player_id a) (role a) (api_client a) (is_alive a) (vote_target a)
          b (knowledge_base a).

Definition set_vote_target (t : option Z) (a : Agent) : Agent :=
  mkAgent (player_id a) (role a) (api_client a) (is_alive a) t
          (skill_used a) (knowledge_base a).

Definition set_knowledge_base (kb : KnowledgeBase) (a : Agent) : Agent :=
  mkAgent (player_id a) (role a) (api_client a) (is_alive a) (vote_target a)
          (skill_used a) kb.

Definition kb_set_history (h : list SpeechRecord) (kb : KnowledgeBase) : KnowledgeBase :=
  mkKnowledgeBase (kb_game_phase kb) (kb_current_round kb) h
                  (kb_vote_history kb) (kb_death_info kb) (kb_alive_players kb).

Definition kb_set_game_phase (p : option string) (kb : KnowledgeBase) : KnowledgeBase :=
  mkKnowledgeBase p (kb_current_round kb) (kb_history_speeches kb)
                  (kb_vote_history kb) (kb_death_info kb) (kb_alive_players kb).

Definition kb_set_current_round (n : Z) (kb : KnowledgeBase) : KnowledgeBase :=
  mkKnowledgeBase (kb_game_phase kb) n (kb_history_speeches kb)
                  (kb_vote_history kb) (kb_death_info kb) (kb_alive_players kb).

Definition kb_set_alive_players (l : list Z) (kb : KnowledgeBase) : KnowledgeBase :=
  mkKnowledgeBase (kb_game_phase kb) (kb_current_round kb) (kb_history_speeches kb)
                  (kb_vote_history kb) (kb_death_info kb) (Some l).

Definition kb_set_death_info (d : list DeathInfo) (kb : KnowledgeBase) : KnowledgeBase :=
  mkKnowledgeBase (kb_game_phase kb) (kb_current_round kb) (kb_history_speeches kb)
                  (kb_vote_history kb) d (kb_alive_players kb).

(** The context dict handed to [interact_with_ai].  The three call sites
    fill different keys; a key a call site leaves out is [None] here. *)
Record Context : Type := mkContext {
  ctx_player_id : Z;
  ctx_role : string;
  ctx_game_phase : option (option string);
  ctx_speech_type : option string;
  ctx_history : list SpeechRecord;
  ctx_alive_players : option (list Z);
  ctx_death_info : option (list DeathInfo) }.

(** ** Effects: external calls, exceptions, the agent's attributes *)

Inductive exn_kind : Type := ValueError | KeyError | OtherException.

(** An exception: its class, as far as an [except] clause of agent.py
    tells classes apart, and [str(e)]. *)
Record exn : Type := mkExn { exn_class : exn_kind; exn_msg : string }.

Definition is_value_error (e : exn) : bool :=
  match exn_class e with ValueError => true | _ => false end.

(** The methods of [BackendInterface], and [AIClient.generate]. *)
Inductive call : Type :=
| GetSpeechHistory (pid : Z)
| GetGameState (pid : Z)
| SubmitSpeech (pid : Z) (content : string)
| SubmitVote (pid : Z) (target : Z)
| UpdateAgentAction (pid : Z) (result : ActionResult)
| WerewolfKill (pid : Z) (target : Z)
| WitchSave (pid : Z) (target : option Z)
| WitchPoison (pid : Z) (target : option Z)
| SeerCheck (pid : Z) (target : Z)
| HunterShoot (pid : Z) (target : Z)
| Generate (client : AIClient) (prompt : string).

(** What a call returns when it does not raise. *)
Definition resp (c : call) : Type :=
  match c with
  | GetSpeechHistory _ => list SpeechRecord
  | GetGameState _ => GameState
  | SeerCheck _ _ => string
  | Generate _ _ => string
  | _ => unit
  end.

Definition is_backend_call (c : call) : bool :=
  match c with Generate _ _ => false | _ => true end.

Definition is_hunter_shoot (c : call) : bool :=
  match c with HunterShoot _ _ => true | _ => false end.

(** A computation: it returns, or makes an external call and goes on with
    what the call returned or raised, or draws [random.randrange(n)]. *)
Inductive prog (A : Type) : Type :=
| Ret (a : A)
| Call (c : call) (k : exn + resp c -> prog A)
| Draw (n : nat) (k : nat -> prog A).

Arguments Ret {A} a.
Arguments Call {A} c k.
Arguments Draw {A} n k.

Fixpoint pbind {A B : Type} (p : prog A) (f : A -> prog B) : prog B :=
  match p with
  | Ret a => f a
  | Call c k => Call c (fun r => pbind (k r) f)
  | Draw n k => Draw n (fun i => pbind (k i) f)
  end.

Inductive outcome (A : Type) : Type :=
| Returned (v : A)
| Raised (e : exn).

Arguments Returned {A} v.
Arguments Raised {A} e.

(** A method body over the mutable state [S] (the agent, or the agent and
    a local variable): state in, outcome and state out. *)
Definition M (S A : Type) : Type := S -> prog (outcome A * S).

Definition ret {S A : Type} (v : A) : M S A := fun s => Ret (Returned v, s).

Definition raise {S A : Type} (e : exn) : M S A := fun s => Ret (Raised e, s).

Definition bind {S A B : Type} (m : M S A) (f : A -> M S B) : M S B :=
  fun s => pbind (m s) (fun r =>
    match fst r with
    | Returned v => f v (snd r)
    | Raised e => Ret (Raised e, snd r)
    end).

(** [try: body except Exception as e: handler] *)
Definition try_catch {S A : Type} (body : M S A) (handler : exn -> M S A) : M S A :=
  fun s => pbind (body s) (fun r =>
    match fst r with
    | Returned v => Ret (Returned v, snd r)
    | Raised e => handler e (snd r)
    end).

(** [try: body except ValueError: handler] *)
Definition try_catch_value_error {S A : Type} (body : M S A) (handler : M S A) : M S A :=
  fun s => pbind (body s) (fun r =>
    match fst r with
    | Returned v => Ret (Returned v, snd r)
    | Raised e => if is_value_error e then handler (snd r) else Ret (Raised e, snd r)
    end).

Definition perform {S : Type} (c : call) : M S (resp c) :=
  fun s => Call c (fun r =>
    match r with
    | inl e => Ret (Raised e, s)
    | inr v => Ret (Returned v, s)
    end).

Definition gets {S A : Type} (f : S -> A) : M S A := fun s => Ret (Returned (f s), s).

Definition modify {S : Type} (f : S -> S) : M S unit := fun s => Ret (Returned tt, f s).

(** [random.choice(l)] on a non-empty list: the element at the index
    drawn below [len(l)].  The world answers a draw with any number, which
    is reduced below [len(l)] here. *)
Definition random_choice {S : Type} (l : list Z) : M S Z :=
  fun s => Draw (List.length l)
    (fun i => Ret (Returned (nth (i mod List.length l)%nat l 0), s)).

(** A local variable [L] next to the agent: [with_local] opens its scope,
    [lift] runs an agent method inside it. *)
Definition lift {L A : Type} (m : M Agent A) : M (Agent * L) A :=
  fun s => pbind (m (fst s)) (fun r => Ret (fst r, (snd r, snd s))).

Definition with_local {L A : Type} (init : L) (m : M (Agent * L) A) : M Agent A :=
  fun a => pbind (m (a, init)) (fun r => Ret (fst r, fst (snd r))).

Declare Scope agent_scope.
Delimit Scope agent_scope with agent.
Notation "'let!' x ':=' m 'in' k" := (bind m (fun x => k))
  (at level 10, x name, m at level 100, k at level 200, only parsing) : agent_scope.

(** ** Running a computation against a world *)

(** The backend, the generator and the random source: a state, and an
    answer to every call and every draw. *)
Record World : Type := mkWorld {
  wstate : Type;
  answer_call : wstate -> forall c : call, (exn + resp c) * wstate;
  answer_draw : wstate -> nat -> nat * wstate }.

(** The value computed, the world afterwards and the external calls that
    were made, in order. *)
Fixpoint run {A : Type} (W : World) (p : prog A) (w : wstate W)
  : A * wstate W * list call :=
  match p with
  | Ret a => (a, w, [])
  | Call c k =>
      let r := answer_call W w c in
      let t := run W (k (fst r)) (snd r) in
      (fst (fst t), snd (fst t), c :: snd t)
  | Draw n k =>
      let r := answer_draw W w n in
      run W (k (fst r)) (snd r)
  end.

(** ** The agent (sdk/agent.py) *)

Local Open Scope agent_scope.

Definition nl : string := String (ascii_of_N 10) EmptyString.

(** [l[-n:]] *)
Definition lastn {A : Type} (n : nat) (l : list A) : list A :=
  skipn (List.length l - n) l.

(** [list(range(1, 10))] *)
Definition default_roster : list Z := [1; 2; 3; 4; 5; 6; 7; 8; 9].

(** [[p for p in alive_players if p != self.player_id]] *)
Definition other_players_of (pid : Z) (alive_players : list Z) : list Z :=
  List.filter (fun p => negb (p =? pid)) alive_players.

Definition empty_game_state : GameState := mkGameState None None None None.

Definition empty_skill_params : SkillParams := mkSkillParams None None.

(** [d[key]] on a key that may be missing. *)
Definition index_key {A : Type} (key : string) (o : option A) : M Agent A :=
  match o with
  | Some v => ret v
  | None => raise (mkExn KeyError ("'" +:+ key +:+ "'"))
  end.

(** [int(s)], for the tokens that passed [s.isdigit()]: the digits are
    counted first, and more than [max_str_digits] of them are refused;
    then the text is converted if it is a decimal number. *)
Definition int_of_digits (s : string) : outcome Z :=
  if (PyStr.max_str_digits <? PyStr.leading_decimals s)%nat then
    Raised (mkExn ValueError
              ("Exceeds the limit ("
               +:+ PyStr.str_of_Z (Z.of_nat PyStr.max_str_digits)
               +:+ " digits) for integer string conversion: value has "
               +:+ PyStr.str_of_Z (Z.of_nat (PyStr.leading_decimals s))
               +:+ " digits; use sys.set_int_max_str_digits() to increase the limit"))
  else if PyStr.isdecimal s then Returned (PyStr.digits_value s 0)
  else Raised (mkExn ValueError
                 ("invalid literal for int() with base 10: '" +:+ s +:+ "'")).

Definition py_int (s : string) : M Agent Z :=
  match int_of_digits s with
  | Returned n => ret n
  | Raised e => raise e
  end.

(** [[int(s) for s in tokens if s.isdigit()]] *)
Fixpoint int_tokens (tokens : list string) : M Agent (list Z) :=
  match tokens with
  | [] => ret []
  | s :: rest =>
      if PyStr.isdigit s then
        let! n := py_int s in
        let! ns := int_tokens rest in
        ret (n :: ns)
      else int_tokens rest
  end.

Definition role_description (role_name : string) : string :=
  if String.eqb role_name "villager" then
    "You are a villager, you need to find the werewolves"
  else if String.eqb role_name "werewolf" then
    "You are a werewolf, disguise as a good player and protect your teammates"
  else if String.eqb role_name "witch" then
    "You are a witch, guide the good faction with your speech"
  else if String.eqb role_name "seer" then
    "You are a seer, carefully reveal check information"
  else if String.eqb role_name "hunter" then
    "You are a hunter, speak cautiously to avoid being pushed out"
  else role_name.

Definition _format_speech_history (history : list SpeechRecord) : string :=
  PyStr.join nl
    (map (fun speech =>
            "Player " +:+ PyStr.str_of_Z (sp_player_id speech) +:+ ": "
            +:+ sp_content speech)
         history).

Definition werewolf_prompt : string :=
  "As a werewolf, choose a player to kill tonight. Return only the player ID number:".

Definition witch_prompt : string :=
  "As a witch, decide whether to use antidote or poison. Return 'save X' or 'poison X' or 'abstain':".

Definition seer_prompt : string :=
  "As a seer, choose a player to check. Return only the player ID number:".

Definition hunter_prompt : string :=
  "As a hunter, choose a player to shoot. Return only the player ID number (or 0 to not shoot):".

Definition speech_response (pid : Z) (r : Role) : string :=
  "I am player " +:+ PyStr.str_of_Z pid +:+ ", as a " +:+ role_value r
  +:+ ", I think we need to carefully analyze the current situation.".

Definition skill_response : string :=
  "Based on the current situation, I choose to act.".

Definition cannot_use_skill : SkillResult :=
  mkSkillResult false "Cannot use skill" None None.

(** The keyword arguments [act] looks at. *)
Record Kwargs : Type := mkKwargs {
  kw_speech_type : option string;
  kw_target_id : option Z;
  kw_skill_params : option SkillParams }.

Definition ar_set_success (b : bool) (r : ActionResult) : ActionResult :=
  mkActionResult (ar_action_type r) b (ar_message r) (ar_content r) (ar_vote_target r).

Definition ar_set_message (m : string) (r : ActionResult) : ActionResult :=
  mkActionResult (ar_action_type r) (ar_success r) (Some m) (ar_content r)
                 (ar_vote_target r).

Definition ar_set_content (c : string) (r : ActionResult) : ActionResult :=
  mkActionResult (ar_action_type r) (ar_success r) (ar_message r) (Some c)
                 (ar_vote_target r).

Definition ar_set_vote_target (t : Z) (r : ActionResult) : ActionResult :=
  mkActionResult (ar_action_type r) (ar_success r) (ar_message r) (ar_content r)
                 (Some t).

(** [result[...] = ...] on the local dict of [act]. *)
Definition update_result (f : ActionResult -> ActionResult)
  : M (Agent * ActionResult) unit :=
  modify (fun s => (fst s, f (snd s))).

Section AgentMethods.

(** [json.dumps(full_context, ensure_ascii=False)] of the dict made of
    the role, the player id, a copy of the knowledge base and the
    context.  The text only travels to the generator, so the serializer
    is left open. *)
Variable json_dumps : string -> Z -> KnowledgeBase -> Context -> string.

Definition _construct_full_prompt (prompt : string) (context : Context)
  : M Agent string :=
  let! r := gets role in
  let! pid := gets player_id in
  let! kb := gets knowledge_base in
  ret ("Context: " +:+ json_dumps (role_value r) pid kb context
       +:+ nl +:+ nl +:+ "Question: " +:+ prompt).

(** The dict of canned responses is built in full before the prompt is
    looked at, so [random.choice] is drawn whenever there is an
    opponent. *)
Definition _simulate_ai_response (prompt : string) (context : Context)
  : M Agent string :=
  let alive_players := default default_roster (ctx_alive_players context) in
  let! pid := gets player_id in
  let other_players := other_players_of pid alive_players in
  let! r := gets role in
  let speech := speech_response pid r in
  let! vote_text :=
    match other_players with
    | [] => ret (PyStr.str_of_Z 1)
    | _ => let! p := random_choice other_players in ret (PyStr.str_of_Z p)
    end in
  let prompt_lower := PyStr.lower prompt in
  if PyStr.contains "speech" prompt_lower || PyStr.contains "speak" prompt_lower
  then ret speech
  else if PyStr.contains "vote" prompt_lower then ret vote_text
  else ret skill_response.

Definition interact_with_ai (prompt : string) (context : Context)
  : M Agent string :=
  let! client := gets api_client in
  match client with
  | None => _simulate_ai_response prompt context
  | Some cl =>
      try_catch
        (let! full_prompt := _construct_full_prompt prompt context in
         let! response := perform (Generate cl full_prompt) in
         ret response)
        (fun e => _simulate_ai_response prompt context)
  end.

Definition get_history_speeches : M Agent (list SpeechRecord) :=
  try_catch
    (let! pid := gets player_id in
     let! history := perform (GetSpeechHistory pid) in
     let! _ := modify (fun a =>
        set_knowledge_base (kb_set_history history (knowledge_base a)) a) in
     ret history)
    (fun e => ret []).

Definition get_current_state : M Agent GameState :=
  try_catch
    (let! pid := gets player_id in
     let! state := perform (GetGameState pid) in
     let! _ := modify (fun a =>
        set_knowledge_base (kb_set_game_phase (gs_phase state) (knowledge_base a)) a) in
     let! _ := modify (fun a =>
        set_knowledge_base
          (kb_set_current_round (default 0 (gs_round state)) (knowledge_base a)) a) in
     let! _ := modify (fun a =>
        set_knowledge_base
          (kb_set_alive_players (default [] (gs_alive_players state)) (knowledge_base a)) a) in
     let! _ := modify (fun a =>
        set_knowledge_base
          (kb_set_death_info (default [] (gs_death_info state)) (knowledge_base a)) a) in
     ret state)
    (fun e => ret empty_game_state).

Definition _construct_speech_prompt (context : Context) : M Agent string :=
  let role_desc := role_description (ctx_role context) in
  let! pid := gets player_id in
  let! game_phase := index_key "game_phase" (ctx_game_phase context) in
  let! alive_players := index_key "alive_players" (ctx_alive_players context) in
  let! speech_type := index_key "speech_type" (ctx_speech_type context) in
  ret (nl +:+ "You are playing a Werewolf game." +:+ nl
       +:+ "Your role: " +:+ role_desc +:+ nl
       +:+ "Player ID: " +:+ PyStr.str_of_Z pid +:+ nl
       +:+ "Game phase: " +:+ PyStr.str_of_opt_string game_phase +:+ nl
       +:+ "Alive players: " +:+ PyStr.str_of_list_Z alive_players +:+ nl
       +:+ "Speech type: " +:+ speech_type +:+ nl
       +:+ nl
       +:+ "Recent speech history:" +:+ nl
       +:+ _format_speech_history (ctx_history context) +:+ nl
       +:+ nl
       +:+ "Please make a speech based on the above information. Requirements:" +:+ nl
       +:+ "1. Stay consistent with your role identity" +:+ nl
       +:+ "2. Analyze the situation and provide reasonable deductions" +:+ nl
       +:+ "3. Speak naturally like a human player" +:+ nl
       +:+ "4. Keep the length between 50-150 words" +:+ nl
       +:+ nl
       +:+ "Your speech:" +:+ nl).

Definition _construct_vote_prompt (context : Context) : M Agent string :=
  let! pid := gets player_id in
  let! alive_players := index_key "alive_players" (ctx_alive_players context) in
  let! game_phase := index_key "game_phase" (ctx_game_phase context) in
  ret (nl +:+ "As a " +:+ ctx_role context
       +:+ " (Player " +:+ PyStr.str_of_Z pid
       +:+ "), decide who to vote for based on the current situation." +:+ nl
       +:+ "Alive players: " +:+ PyStr.str_of_list_Z alive_players +:+ nl
       +:+ "Game phase: " +:+ PyStr.str_of_opt_string game_phase +:+ nl
       +:+ nl
       +:+ "Analyze and return only the player ID number you want to vote for." +:+ nl
       +:+ "Vote target:" +:+ nl).

Definition _get_skill_context : M Agent Context :=
  let! pid := gets player_id in
  let! r := gets role in
  let! kb := gets knowledge_base in
  ret {| ctx_player_id := pid;
         ctx_role := role_value r;
         ctx_game_phase := None;
         ctx_speech_type := None;
         ctx_history := lastn 5 (kb_history_speeches kb);
         ctx_alive_players := Some (default [] (kb_alive_players kb));
         ctx_death_info := Some (kb_death_info kb) |}.

Definition _parse_vote_decision (ai_response : string) : M Agent Z :=
  let! found :=
    try_catch_value_error
      (let! numbers := int_tokens (PyStr.split ai_response) in
       ret (head numbers))
      (ret None) in
  match found with
  | Some n => ret n
  | None =>
      let! kb := gets knowledge_base in
      let alive_players := default default_roster (kb_alive_players kb) in
      let! pid := gets player_id in
      match other_players_of pid alive_players with
      | [] => ret (-1)
      | other_players => random_choice other_players
      end
  end.

Definition _parse_number_from_response (response : string) : M Agent Z :=
  try_catch_value_error
    (let! numbers := int_tokens (PyStr.split response) in
     ret (default 0 (head numbers)))
    (ret 0).

Definition _parse_witch_decision (response : string) : M Agent (string * Z) :=
  let response_lower := PyStr.lower response in
  if PyStr.contains "save" response_lower then
    let! numbers := int_tokens (PyStr.split response) in
    ret ("save"%string, default 0 (head numbers))
  else if PyStr.contains "poison" response_lower then
    let! numbers := int_tokens (PyStr.split response) in
    ret ("poison"%string, default 0 (head numbers))
  else ret ("abstain"%string, 0).

Definition speak (speech_type : string) : M Agent string :=
  let! alive := gets is_alive in
  if negb alive then ret EmptyString
  else
    let! _ := get_current_state in
    let! history := get_history_speeches in
    let! pid := gets player_id in
    let! r := gets role in
    let! kb := gets knowledge_base in
    let context :=
      {| ctx_player_id := pid;
         ctx_role := role_value r;
         ctx_game_phase := Some (kb_game_phase kb);
         ctx_speech_type := Some speech_type;
         ctx_history := lastn 10 history;
         ctx_alive_players := Some (default [] (kb_alive_players kb));
         ctx_death_info := None |} in
    let! prompt := _construct_speech_prompt context in
    let! speech_content := interact_with_ai prompt context in
    try_catch
      (let! _ := perform (SubmitSpeech pid speech_content) in
       ret speech_content)
      (fun e => ret speech_content).

Definition vote (target_id : option Z) : M Agent Z :=
  let! alive := gets is_alive in
  if negb alive then ret (-1)
  else
    let! target :=
      match target_id with
      | Some t => ret t
      | None =>
          let! pid := gets player_id in
          let! r := gets role in
          let! kb := gets knowledge_base in
          let context :=
            {| ctx_player_id := pid;
               ctx_role := role_value r;
               ctx_game_phase := Some (kb_game_phase kb);
               ctx_speech_type := None;
               ctx_history := lastn 5 (kb_history_speeches kb);
               ctx_alive_players := Some (default [] (kb_alive_players kb));
               ctx_death_info := None |} in
          let! prompt := _construct_vote_prompt context in
          let! ai_response := interact_with_ai prompt context in
          _parse_vote_decision ai_response
      end in
    let! _ := modify (set_vote_target (Some target)) in
    let! pid := gets player_id in
    try_catch
      (let! _ := perform (SubmitVote pid target) in ret target)
      (fun e => ret target).

(** Lines shared by the werewolf, seer and hunter handlers: the target
    of [skill_params], or else the number read in the generator's reply. *)
Definition resolve_target (skill_params : SkillParams) (prompt : string)
  : M Agent Z :=
  match sk_target_id skill_params with
  | Some t => ret t
  | None =>
      let! context := _get_skill_context in
      let! ai_response := interact_with_ai prompt context in
      _parse_number_from_response ai_response
  end.

Definition _use_werewolf_skill (skill_params : SkillParams) : M Agent SkillResult :=
  let! target_id := resolve_target skill_params werewolf_prompt in
  let! pid := gets player_id in
  try_catch
    (let! _ := perform (WerewolfKill pid target_id) in
     ret (mkSkillResult true
            ("Werewolf chose to kill player " +:+ PyStr.str_of_Z target_id)
            (Some target_id) None))
    (fun e => ret (mkSkillResult false ("Werewolf kill failed: " +:+ exn_msg e)
                     None None)).

Definition _use_witch_skill (skill_params : SkillParams) : M Agent SkillResult :=
  let! context := _get_skill_context in
  let! decision :=
    match sk_action skill_params with
    | Some action => ret (action, sk_target_id skill_params)
    | None =>
        let! ai_response := interact_with_ai witch_prompt context in
        let! parsed := _parse_witch_decision ai_response in
        ret (fst parsed, Some (snd parsed))
    end in
  let action := fst decision in
  let target_id := snd decision in
  let! pid := gets player_id in
  try_catch
    (if String.eqb action "save" then
       let! _ := perform (WitchSave pid target_id) in
       ret (mkSkillResult true
              ("Witch used antidote to save player " +:+ PyStr.str_of_opt_Z target_id)
              None None)
     else if String.eqb action "poison" then
       let! _ := perform (WitchPoison pid target_id) in
       ret (mkSkillResult true
              ("Witch used poison on player " +:+ PyStr.str_of_opt_Z target_id)
              None None)
     else ret (mkSkillResult true "Witch chose not to use skill" None None))
    (fun e => ret (mkSkillResult false ("Witch skill failed: " +:+ exn_msg e)
                     None None)).

Definition _use_seer_skill (skill_params : SkillParams) : M Agent SkillResult :=
  let! target_id := resolve_target skill_params seer_prompt in
  let! pid := gets player_id in
  try_catch
    (let! check_result := perform (SeerCheck pid target_id) in
     ret (mkSkillResult true
            ("Seer checked player " +:+ PyStr.str_of_Z target_id
             +:+ ", result is " +:+ check_result)
            None (Some check_result)))
    (fun e => ret (mkSkillResult false ("Seer check failed: " +:+ exn_msg e)
                     None None)).

(** The part of the hunter handler that follows the choice of target. *)
Definition hunter_shoot_at (target_id : Z) : M Agent SkillResult :=
  if target_id =? 0 then
    ret (mkSkillResult true "Hunter chose not to shoot" None None)
  else
    let! pid := gets player_id in
    try_catch
      (let! _ := perform (HunterShoot pid target_id) in
       ret (mkSkillResult true
              ("Hunter shot player " +:+ PyStr.str_of_Z target_id)
              (Some target_id) None))
      (fun e => ret (mkSkillResult false ("Hunter shoot failed: " +:+ exn_msg e)
                       None None)).

Definition _use_hunter_skill (skill_params : SkillParams) : M Agent SkillResult :=
  let! target_id := resolve_target skill_params hunter_prompt in
  hunter_shoot_at target_id.

Definition use_skill (skill_params : option SkillParams) : M Agent SkillResult :=
  let! alive := gets is_alive in
  let! used := gets skill_used in
  if negb alive || used then ret cannot_use_skill
  else
    let skill_params := default empty_skill_params skill_params in
    let! r := gets role in
    let! skill_result :=
      match r with
      | WEREWOLF => _use_werewolf_skill skill_params
      | WITCH => _use_witch_skill skill_params
      | SEER => _use_seer_skill skill_params
      | HUNTER => _use_hunter_skill skill_params
      | VILLAGER => ret (mkSkillResult false EmptyString None None)
      end in
    let! _ := if sr_success skill_result then modify (set_skill_used true)
              else ret tt in
    ret skill_result.

Definition act (action_type : string) (kwargs : Kwargs) : M Agent ActionResult :=
  with_local (mkActionResult action_type false None None None)
    (let! _ :=
       try_catch
         (let! _ :=
            if String.eqb action_type "speak" then
              let speech_type := default "normal"%string (kw_speech_type kwargs) in
              let! content := lift (speak speech_type) in
              let! _ := update_result (ar_set_success true) in
              update_result (ar_set_content content)
            else if String.eqb action_type "vote" then
              let target_id := kw_target_id kwargs in
              let! target := lift (vote target_id) in
              let! _ := update_result (ar_set_success true) in
              update_result (ar_set_vote_target target)
            else if String.eqb action_type "use_skill" then
              let skill_params := default empty_skill_params (kw_skill_params kwargs) in
              let! skill_result := lift (use_skill (Some skill_params)) in
              let! _ := update_result (ar_set_success (sr_success skill_result)) in
              update_result (ar_set_message (sr_message skill_result))
            else ret tt in
          let! pid := gets (fun s => player_id (fst s)) in
          let! result := gets snd in
          let! _ := perform (UpdateAgentAction pid result) in
          ret tt)
         (fun e => update_result (ar_set_message ("Action failed: " +:+ exn_msg e))) in
     gets snd).

Definition update_status (new_status : gmap string pyval) : M Agent unit :=
  let! _ :=
    match new_status !! "is_alive"%string with
    | Some v => modify (set_is_alive (truthy v))
    | None => ret tt
    end in
  match new_status !! "skill_used"%string with
  | Some v => modify (set_skill_used (truthy v))
  | None => ret tt
  end.

End AgentMethods.

(** ** Reasoning about computations *)

(** Which answers the outside world may give to a call. *)
Definition reply_ok : Type := forall c : call, (exn + resp c)%type -> Prop.

Definition any_reply : reply_ok := fun _ _ => True.

Definition raised {A : Type} (r : (exn + A)%type) : bool :=
  match r with inl _ => true | inr _ => false end.

(** Every call to the generator raises. *)
Definition generator_raises : reply_ok :=
  fun c r => is_backend_call c = false -> raised r = true.

Definition is_returned {A : Type} (o : outcome A) : Prop :=
  match o with Returned _ => True | Raised _ => False end.

(** [P] holds of every value the computation can end with, whatever the
    admissible answers and the draws. *)
Fixpoint leaves {A : Type} (ok : reply_ok) (P : A -> Prop) (p : prog A) : Prop :=
  match p with
  | Ret a => P a
  | Call c k => forall r, ok c r -> leaves ok P (k r)
  | Draw n k => forall i, leaves ok P (k i)
  end.

(** The world only gives admissible answers. *)
Definition world_obeys (ok : reply_ok) (W : World) : Prop :=
  forall (w : wstate W) (c : call), ok c (fst (answer_call W w c)).

Definition triple {S A : Type} (ok : reply_ok) (P : S -> Prop) (m : M S A)
  (Q : outcome A -> S -> Prop) : Prop :=
  forall s, P s -> leaves ok (fun r => Q (fst r) (snd r)) (m s).

(** [m] keeps the invariant [I], whether it returns or raises. *)
Definition keeps {S A : Type} (ok : reply_ok) (I : S -> Prop) (m : M S A) : Prop :=
  triple ok I m (fun _ s => I s).

(** [m] keeps [I] and returns. *)
Definition safe {S A : Type} (ok : reply_ok) (I : S -> Prop) (m : M S A) : Prop :=
  triple ok I m (fun o s => I s /\ is_returned o).

(** What the run of a computation yields. *)
Definition result_of {A S W} (t : (outcome A * S) * W * list call) : outcome A :=
  fst (fst (fst t)).

Definition agent_after {A S W} (t : (outcome A * S) * W * list call) : S :=
  snd (fst (fst t)).

Definition world_after {A W} (t : A * W * list call) : W := snd (fst t).

Definition calls_of {A W} (t : A * W * list call) : list call := snd t.

(** ** Sample worlds and agents *)

(** A serializer to run the methods with. *)
Definition sample_json_dumps (role_name : string) (pid : Z) (kb : KnowledgeBase)
  (context : Context) : string :=
  "{role: " +:+ role_name +:+ ", player_id: " +:+ PyStr.str_of_Z pid +:+ "}".

(** A backend where every call succeeds, and a generator that answers
    with the empty string. *)
Definition quiet_answer (c : call) : (exn + resp c)%type :=
  match c return (exn + resp c)%type with
  | GetSpeechHistory _ => inr []
  | GetGameState _ => inr empty_game_state
  | SubmitSpeech _ _ => inr tt
  | SubmitVote _ _ => inr tt
  | UpdateAgentAction _ _ => inr tt
  | WerewolfKill _ _ => inr tt
  | WitchSave _ _ => inr tt
  | WitchPoison _ _ => inr tt
  | SeerCheck _ _ => inr "good"%string
  | HunterShoot _ _ => inr tt
  | Generate _ _ => inr EmptyString
  end.

(** A world without memory: the same answer to the same call, and the
    first element at every draw. *)
Definition fixed_world (answer : forall c : call, (exn + resp c)%type) : World :=
  {| wstate := unit;
     answer_call := fun w c => (answer c, w);
     answer_draw := fun w n => (0%nat, w) |}.

Definition quiet_world : World := fixed_world quiet_answer.

Definition boom : exn := mkExn OtherException "boom".

(** The backend accepts everything but the report of the action result. *)
Definition report_fails_answer (c : call) : (exn + resp c)%type :=
  match c return (exn + resp c)%type with
  | UpdateAgentAction _ _ => inl boom
  | c' => quiet_answer c'
  end.

Definition report_fails_world : World := fixed_world report_fails_answer.

(** The generator answers with a fixed reply. *)
Definition replying_answer (reply : string) (c : call) : (exn + resp c)%type :=
  match c return (exn + resp c)%type with
  | Generate _ _ => inr reply
  | c' => quiet_answer c'
  end.

Definition replying_world (reply : string) : World := fixed_world (replying_answer reply).

(** The generator is down. *)
Definition generator_down_answer (c : call) : (exn + resp c)%type :=
  match c return (exn + resp c)%type with
  | Generate _ _ => inl boom
  | c' => quiet_answer c'
  end.

Definition generator_down_world : World := fixed_world generator_down_answer.

(** The backend reports a fixed game state. *)
Definition state_answer (state : GameState) (c : call) : (exn + resp c)%type :=
  match c return (exn + resp c)%type with
  | GetGameState _ => inr state
  | c' => quiet_answer c'
  end.

Definition state_world (state : GameState) : World := fixed_world (state_answer state).

Definition sample_state : GameState :=
  mkGameState (Some "night"%string) (Some 2) (Some [1; 2; 3; 5]) None.

(** [n] copies of the digit 1. *)
Fixpoint ones (n : nat) : string :=
  match n with
  | O => EmptyString
  | S n' => String "1" (ones n')
  end.

Definition with_roster (alive_players : list Z) (a : Agent) : Agent :=
  set_knowledge_base (kb_set_alive_players alive_players (knowledge_base a)) a.

Definition with_round (n : Z) (a : Agent) : Agent :=
  set_knowledge_base (kb_set_current_round n (knowledge_base a)) a.

(** ** Notions used in the statements *)

(** The knowledge base after a state fetch that returned [state]. *)
Definition refreshed (state : GameState) (kb : KnowledgeBase) : KnowledgeBase :=
  {| kb_game_phase := gs_phase state;
     kb_current_round := default 0 (gs_round state);
     kb_history_speeches := kb_history_speeches kb;
     kb_vote_history := kb_vote_history kb;
     kb_death_info := default [] (gs_death_info state);
     kb_alive_players := Some (default [] (gs_alive_players state)) |}.

(** "Only values actually fetched overwrite knowledge-base fields; an
    absent optional field leaves the corresponding entry untouched beyond
    defaulting": an entry of [kb'] that differs from the one of [kb] is
    the field of [state], or the entry's default ([None], [0], [[]],
    [[]]) when [state] lacks the field. *)
Definition only_fetched_values_overwrite (kb kb' : KnowledgeBase) (state : GameState)
  : Prop :=
  (kb_game_phase kb' <> kb_game_phase kb ->
     (exists v, gs_phase state = Some v /\ kb_game_phase kb' = Some v) \/
     (gs_phase state = None /\ kb_game_phase kb' = None)) /\
  (kb_current_round kb' <> kb_current_round kb ->
     gs_round state = Some (kb_current_round kb') \/
     (gs_round state = None /\ kb_current_round kb' = 0)) /\
  (kb_alive_players kb' <> kb_alive_players kb ->
     gs_alive_players state = kb_alive_players kb' \/
     (gs_alive_players state = None /\ kb_alive_players kb' = Some [])) /\
  (kb_death_info kb' <> kb_death_info kb ->
     gs_death_info state = Some (kb_death_info kb') \/
     (gs_death_info state = None /\ kb_death_info kb' = [])).

(** What [[int(s) for s in tokens if s.isdigit()]] evaluates to: the list
    of numbers, or the [ValueError] of the first token that [isdigit]
    accepts and [int] rejects. *)
Fixpoint parsed_tokens (tokens : list string) : outcome (list Z) :=
  match tokens with
  | [] => Returned []
  | s :: rest =>
      if PyStr.isdigit s then
        match int_of_digits s with
        | Returned n =>
            match parsed_tokens rest with
            | Returned ns => Returned (n :: ns)
            | Raised e => Raised e
            end
        | Raised e => Raised e
        end
      else parsed_tokens rest
  end.

(** The first all-digit token of a reply, read as a number; 0 if there is
    none. *)
Definition first_number (reply : string) : Z :=
  default 0 (head (map (fun s => PyStr.digits_value s 0)
                       (List.filter PyStr.isdigit (PyStr.split reply)))).

(** The texts that [int] converts, among those that [isdigit] accepts:
    decimal digits only, and no more than [max_str_digits] of them. *)
Definition int_accepts (s : string) : bool :=
  PyStr.isdecimal s && (String.length s <=? PyStr.max_str_digits)%nat.

(** Every token that [isdigit] accepts is one that [int] converts. *)
Definition digit_tokens_convert (reply : string) : bool :=
  forallb (fun s => implb (PyStr.isdigit s) (int_accepts s)) (PyStr.split reply).


(** The candidates of the vote fallback: the cached roster, or the ids 1
    to 9 when no roster has been cached, without the agent's own id. *)
Definition vote_candidates (a : Agent) : list Z :=
  other_players_of (player_id a)
    (default default_roster (kb_alive_players (knowledge_base a))).

(** The candidates of the vote fallback as the specification words them:
    the cached roster without the agent's own id, and the ids 1 to 9
    without it when the cached roster is empty. *)
Definition vote_candidates_as_claimed (a : Agent) : list Z :=
  match default [] (kb_alive_players (knowledge_base a)) with
  | [] => other_players_of (player_id a) default_roster
  | alive_players => other_players_of (player_id a) alive_players
  end.

(** Every call the computation can make satisfies [allowed]. *)
Fixpoint calls_within {A : Type} (allowed : call -> bool) (p : prog A) : Prop :=
  match p with
  | Ret _ => True
  | Call c k => allowed c = true /\ forall r, calls_within allowed (k r)
  | Draw n k => forall i, calls_within allowed (k i)
  end.

Definition is_generator_call (c : call) : bool := negb (is_backend_call c).

(** A method body all of whose calls satisfy [allowed]. *)
Definition quiet {S A : Type} (allowed : call -> bool) (m : M S A) : Prop :=
  forall s, calls_within allowed (m s).

(** An invariant of the agent that the assignments made during play
    respect: to the knowledge base, to the vote target, and of [True] to
    [skill_used]. *)
Definition stable (I : Agent -> Prop) : Prop :=
  (forall kb a, I a -> I (set_knowledge_base kb a)) /\
  (forall t a, I a -> I (set_vote_target t a)) /\
  (forall a, I a -> I (set_skill_used true a)).

(** One step of normal play: any method of the agent but
    [update_status]. *)
Inductive play : Type :=
| PlaySpeak (speech_type : string)
| PlayVote (target_id : option Z)
| PlayUseSkill (skill_params : option SkillParams)
| PlayAct (action_type : string) (kwargs : Kwargs)
| PlayRefreshState
| PlayRefreshHistory
| PlayAsk (prompt : string) (context : Context).

Definition play_one (json_dumps : string -> Z -> KnowledgeBase -> Context -> string)
  (p : play) : M Agent unit :=
  match p with
  | PlaySpeak speech_type =>
      (let! _ := speak json_dumps speech_type in ret tt)
  | PlayVote target_id =>
      (let! _ := vote json_dumps target_id in ret tt)
  | PlayUseSkill skill_params =>
      (let! _ := use_skill json_dumps skill_params in ret tt)
  | PlayAct action_type kwargs =>
      (let! _ := act json_dumps action_type kwargs in ret tt)
  | PlayRefreshState =>
      (let! _ := get_current_state in ret tt)
  | PlayRefreshHistory =>
      (let! _ := get_history_speeches in ret tt)
  | PlayAsk prompt context =>
      (let! _ := interact_with_ai json_dumps prompt context in ret tt)
  end.

(** A driver that plays the steps in order and goes on when one of them
    raises. *)
Fixpoint session (json_dumps : string -> Z -> KnowledgeBase -> Context -> string)
  (plays : list play) : M Agent unit :=
  match plays with
  | [] => ret tt
  | p :: rest =>
      let! _ := try_catch (play_one json_dumps p) (fun _ => ret tt) in
      session json_dumps rest
  end.

(** The reply that stands in for the generator's: the canned sentence
    for a prompt that mentions "speech" or "speak", in any case; else, for
    a prompt that mentions "vote", the id of one of the other players of
    the context's roster, or the text [1] when there is none; else the
    canned acting statement. *)
Definition is_simulated (a : Agent) (prompt : string) (context : Context)
  (reply : string) : Prop :=
  let other_players :=
    other_players_of (player_id a)
      (default default_roster (ctx_alive_players context)) in
  if PyStr.contains "speech" (PyStr.lower prompt)
     || PyStr.contains "speak" (PyStr.lower prompt)
  then reply = speech_response (player_id a) (role a)
  else if PyStr.contains "vote" (PyStr.lower prompt)
       then match other_players with
            | [] => reply = PyStr.str_of_Z 1
            | _ => exists p, In p other_players /\ reply = PyStr.str_of_Z p
            end
       else reply = skill_response.

(** The simulated vote as the specification words it: the id of an alive
    opponent, as text. *)
Definition simulated_vote_as_claimed (a : Agent) (context : Context)
  (reply : string) : Prop :=
  exists p,
    In p (other_players_of (player_id a)
            (default default_roster (ctx_alive_players context))) /\
    reply = PyStr.str_of_Z p.

(** [P] holds of the calls made and of the value, for every way the
    computation can end. *)
Fixpoint traced {A : Type} (ok : reply_ok) (P : list call -> A -> Prop) (p : prog A)
  : Prop :=
  match p with
  | Ret a => P [] a
  | Call c k => forall r, ok c r -> traced ok (fun tr => P (c :: tr)) (k r)
  | Draw n k => forall i, traced ok P (k i)
  end.

(** The agent is [a] up to its knowledge base. *)
Definition same_but_knowledge (a s : Agent) : Prop :=
  s = set_knowledge_base (knowledge_base s) a.

(** The calls to the generator that one question can make: none, or one
    to the configured client. *)
Definition asks_at_most_once (a : Agent) (asked : list call) : Prop :=
  asked = [] \/ exists cl full_prompt,
                  api_client a = Some cl /\ asked = [Generate cl full_prompt].

Definition is_report (c : call) : bool :=
  match c with UpdateAgentAction _ _ => true | _ => false end.

Definition not_report (c : call) : bool := negb (is_report c).

(** What [act] returns when the report of [reported] went through, or
    raised [e]. *)
Definition after_report (reported : ActionResult) (r : ActionResult) : Prop :=
  r = reported \/
  exists e : exn, r = ar_set_message ("Action failed: " +:+ exn_msg e) reported.

(** What a run of [act] amounts to once its method has run as [t]: the
    report of [reported] for player [a] is added to the calls, and the
    result is [reported], with the message of the exception when the
    report raised. *)
Definition reported_run {A : Type} (W : World) (a : Agent)
  (t : (outcome A * Agent) * wstate W * list call) (reported : ActionResult)
  : (outcome ActionResult * Agent) * wstate W * list call :=
  let answer :=
    answer_call W (world_after t) (UpdateAgentAction (player_id a) reported) in
  ((Returned (match fst answer with
              | inl e => ar_set_message ("Action failed: " +:+ exn_msg e) reported
              | inr _ => reported
              end), agent_after t),
   snd answer, calls_of t ++ [UpdateAgentAction (player_id a) reported]).

(** An alive roster is cached. *)
Definition has_roster (s : Agent) : Prop :=
  kb_alive_players (knowledge_base s) <> None.

(** * Properties *)

(** ** Computations and their runs *)

Lemma leaves_mono {A : Type} (ok : reply_ok) (P Q : A -> Prop) (p : prog A) :
  (forall a, P a -> Q a) -> leaves ok P p -> leaves ok Q p.
Proof.
  intros HPQ. induction p as [a | c k IH | n k IH]; simpl.
  - apply HPQ.
  - intros Hk r Hr. apply IH, Hk, Hr.
  - intros Hk i. apply IH, Hk.
Qed.

Lemma leaves_pbind {A B : Type} (ok : reply_ok) (Q : B -> Prop)
  (p : prog A) (f : A -> prog B) :
  leaves ok (fun a => leaves ok Q (f a)) p -> leaves ok Q (pbind p f).
Proof.
  induction p as [a | c k IH | n k IH]; simpl.
  - trivial.
  - intros Hk r Hr. apply IH, Hk, Hr.
  - intros Hk i. apply IH, Hk.
Qed.

Lemma leaves_weaken {A : Type} (ok ok' : reply_ok) (P : A -> Prop) (p : prog A) :
  (forall c r, ok' c r -> ok c r) -> leaves ok P p -> leaves ok' P p.
Proof.
  intros Hok. induction p as [a | c k IH | n k IH]; simpl.
  - trivial.
  - intros Hk r Hr. apply IH, Hk, Hok, Hr.
  - intros Hk i. apply IH, Hk.
Qed.

Lemma run_leaves {A : Type} (ok : reply_ok) (W : World) (P : A -> Prop) (p : prog A) :
  world_obeys ok W -> leaves ok P p -> forall w, P (fst (fst (run W p w))).
Proof.
  intros HW. induction p as [a | c k IH | n k IH]; simpl; intros Hp w.
  - exact Hp.
  - apply IH, Hp, HW.
  - apply IH, Hp.
Qed.

Lemma world_obeys_any (W : World) : world_obeys any_reply W.
Proof. intros w c. exact I. Qed.

Lemma run_pbind {A B : Type} (W : World) (p : prog A) (f : A -> prog B) (w : wstate W) :
  run W (pbind p f) w =
  (fst (fst (run W (f (fst (fst (run W p w)))) (snd (fst (run W p w))))),
   snd (fst (run W (f (fst (fst (run W p w)))) (snd (fst (run W p w))))),
   snd (run W p w) ++ snd (run W (f (fst (fst (run W p w)))) (snd (fst (run W p w))))).
Proof.
  revert w. induction p as [a | c k IH | n k IH]; intros w; simpl.
  - destruct (run W (f a) w) as [[b w'] tr]. reflexivity.
  - rewrite IH. reflexivity.
  - rewrite IH. reflexivity.
Qed.

(** ** Rules for method bodies *)

Section Rules.

Context {S : Type} (ok : reply_ok).

Lemma triple_conseq {A : Type} (P P' : S -> Prop) (Q Q' : outcome A -> S -> Prop)
  (m : M S A) :
  (forall s, P' s -> P s) -> (forall o s, Q o s -> Q' o s) ->
  triple ok P m Q -> triple ok P' m Q'.
Proof.
  intros HP HQ Hm s Hs. eapply leaves_mono; [ | apply Hm, HP, Hs ].
  intros r. apply HQ.
Qed.

Lemma triple_ret {A : Type} (P : S -> Prop) (Q : outcome A -> S -> Prop) (v : A) :
  (forall s, P s -> Q (Returned v) s) -> triple ok P (ret v) Q.
Proof. intros H s Hs. simpl. apply H, Hs. Qed.

Lemma triple_raise {A : Type} (P : S -> Prop) (Q : outcome A -> S -> Prop) (e : exn) :
  (forall s, P s -> Q (Raised e) s) -> triple ok P (raise e) Q.
Proof. intros H s Hs. simpl. apply H, Hs. Qed.

Lemma triple_gets {A : Type} (P : S -> Prop) (Q : outcome A -> S -> Prop) (f : S -> A) :
  (forall s, P s -> Q (Returned (f s)) s) -> triple ok P (gets f) Q.
Proof. intros H s Hs. simpl. apply H, Hs. Qed.

Lemma triple_modify (P : S -> Prop) (Q : outcome unit -> S -> Prop) (f : S -> S) :
  (forall s, P s -> Q (Returned tt) (f s)) -> triple ok P (modify f) Q.
Proof. intros H s Hs. simpl. apply H, Hs. Qed.

Lemma triple_perform (P : S -> Prop) (c : call) (Q : outcome (resp c) -> S -> Prop) :
  (forall s r, P s -> ok c r ->
     match r with inl e => Q (Raised e) s | inr v => Q (Returned v) s end) ->
  triple ok P (perform c) Q.
Proof.
  intros H s Hs. simpl. intros r Hr. specialize (H s r Hs Hr).
  destruct r; simpl; exact H.
Qed.

Lemma triple_random_choice (P : S -> Prop) (Q : outcome Z -> S -> Prop) (l : list Z) :
  (forall s i, P s -> Q (Returned (nth (i mod List.length l)%nat l 0)) s) ->
  triple ok P (random_choice l) Q.
Proof. intros H s Hs. simpl. intros i. apply H, Hs. Qed.

Lemma triple_bind {A B : Type} (P : S -> Prop) (R : A -> S -> Prop)
  (Q : outcome B -> S -> Prop) (m : M S A) (f : A -> M S B) :
  triple ok P m (fun o s => match o with
                            | Returned v => R v s
                            | Raised e => Q (Raised e) s
                            end) ->
  (forall v, triple ok (R v) (f v) Q) ->
  triple ok P (bind m f) Q.
Proof.
  intros Hm Hf s Hs. unfold bind. apply leaves_pbind.
  eapply leaves_mono; [ | apply Hm, Hs ].
  intros [o s'] Ho. simpl in *. destruct o as [v | e].
  - apply Hf, Ho.
  - simpl. exact Ho.
Qed.

Lemma triple_try_catch {A : Type} (P : S -> Prop) (R : exn -> S -> Prop)
  (Q : outcome A -> S -> Prop) (body : M S A) (handler : exn -> M S A) :
  triple ok P body (fun o s => match o with
                               | Returned v => Q (Returned v) s
                               | Raised e => R e s
                               end) ->
  (forall e, triple ok (R e) (handler e) Q) ->
  triple ok P (try_catch body handler) Q.
Proof.
  intros Hm Hh s Hs. unfold try_catch. apply leaves_pbind.
  eapply leaves_mono; [ | apply Hm, Hs ].
  intros [o s'] Ho. simpl in *. destruct o as [v | e].
  - simpl. exact Ho.
  - apply Hh, Ho.
Qed.

(** *** Keeping an invariant *)

Variable I : S -> Prop.

Lemma keeps_ret {A : Type} (v : A) : keeps ok I (ret v).
Proof. apply triple_ret. auto. Qed.

Lemma keeps_raise {A : Type} (e : exn) : keeps ok I (@raise S A e).
Proof. apply triple_raise. auto. Qed.

Lemma keeps_gets {A : Type} (f : S -> A) : keeps ok I (gets f).
Proof. apply triple_gets. auto. Qed.

Lemma keeps_perform (c : call) : keeps ok I (perform c).
Proof. apply triple_perform. intros s [e | v]; auto. Qed.

Lemma keeps_random_choice (l : list Z) : keeps ok I (random_choice l).
Proof. apply triple_random_choice. auto. Qed.

Lemma keeps_modify (f : S -> S) : (forall s, I s -> I (f s)) -> keeps ok I (modify f).
Proof. intros H. apply triple_modify. exact H. Qed.

Lemma keeps_bind {A B : Type} (m : M S A) (f : A -> M S B) :
  keeps ok I m -> (forall v, keeps ok I (f v)) -> keeps ok I (bind m f).
Proof.
  intros Hm Hf. apply triple_bind with (R := fun _ s => I s).
  - eapply triple_conseq; [ | | exact Hm ]; auto. intros [v | e] s; auto.
  - exact Hf.
Qed.

Lemma keeps_try_catch {A : Type} (body : M S A) (handler : exn -> M S A) :
  keeps ok I body -> (forall e, keeps ok I (handler e)) ->
  keeps ok I (try_catch body handler).
Proof.
  intros Hm Hh. apply triple_try_catch with (R := fun _ s => I s).
  - eapply triple_conseq; [ | | exact Hm ]; auto. intros [v | e] s; auto.
  - exact Hh.
Qed.

Lemma keeps_try_catch_value_error {A : Type} (body handler : M S A) :
  keeps ok I body -> keeps ok I handler ->
  keeps ok I (try_catch_value_error body handler).
Proof.
  intros Hm Hh s Hs. unfold try_catch_value_error. apply leaves_pbind.
  eapply leaves_mono; [ | apply Hm, Hs ].
  intros [o s'] Ho. simpl in *. destruct o as [v | e]; simpl; [ exact Ho | ].
  destruct (is_value_error e); simpl; [ apply Hh, Ho | exact Ho ].
Qed.

(** *** Keeping an invariant and returning *)

Lemma safe_keeps {A : Type} (m : M S A) : safe ok I m -> keeps ok I m.
Proof. apply triple_conseq; auto. intros o s [H _]. exact H. Qed.

Lemma safe_ret {A : Type} (v : A) : safe ok I (ret v).
Proof. apply triple_ret. simpl. auto. Qed.

Lemma safe_gets {A : Type} (f : S -> A) : safe ok I (gets f).
Proof. apply triple_gets. simpl. auto. Qed.

Lemma safe_random_choice (l : list Z) : safe ok I (random_choice l).
Proof. apply triple_random_choice. simpl. auto. Qed.

Lemma safe_modify (f : S -> S) : (forall s, I s -> I (f s)) -> safe ok I (modify f).
Proof. intros H. apply triple_modify. simpl. auto. Qed.

Lemma safe_bind {A B : Type} (m : M S A) (f : A -> M S B) :
  safe ok I m -> (forall v, safe ok I (f v)) -> safe ok I (bind m f).
Proof.
  intros Hm Hf. apply triple_bind with (R := fun _ s => I s).
  - eapply triple_conseq; [ | | exact Hm ]; auto.
    intros [v | e] s [H1 H2]; simpl in *; tauto.
  - exact Hf.
Qed.

Lemma safe_try_catch {A : Type} (body : M S A) (handler : exn -> M S A) :
  keeps ok I body -> (forall e, safe ok I (handler e)) ->
  safe ok I (try_catch body handler).
Proof.
  intros Hm Hh. apply triple_try_catch with (R := fun _ s => I s).
  - eapply triple_conseq; [ | | exact Hm ]; auto.
    intros [v | e] s H; simpl; auto.
  - exact Hh.
Qed.

End Rules.

(** ** Dead agents *)

(** C1. For every agent with [is_alive = false], whatever its role, the
    parameters, the backend and the generator: [speak] returns the empty
    string, [vote] returns [-1], [use_skill] returns a result with
    [success = false], and none of the three makes a call to the backend or
    to the generator (the list of calls is empty and the world is as it
    was). *)
Theorem dead_agent_is_silent
  (json_dumps : string -> Z -> KnowledgeBase -> Context -> string)
  (W : World) (w : wstate W) (a : Agent)
  (speech_type : string) (target_id : option Z) (skill_params : option SkillParams) :
  is_alive a = false ->
  run W (speak json_dumps speech_type a) w = ((Returned EmptyString, a), w, []) /\
  run W (vote json_dumps target_id a) w = ((Returned (-1), a), w, []) /\
  exists r : SkillResult,
    run W (use_skill json_dumps skill_params a) w = ((Returned r, a), w, []) /\
    sr_success r = false.
Proof.
  intros Hdead. repeat split.
  - unfold speak, bind, gets. cbn [pbind fst snd]. rewrite Hdead. reflexivity.
  - unfold vote, bind, gets. cbn [pbind fst snd]. rewrite Hdead. reflexivity.
  - exists cannot_use_skill. split; [ | reflexivity ].
    unfold use_skill, bind, gets. cbn [pbind fst snd]. rewrite Hdead. reflexivity.
Qed.

Lemma dead_agent_is_silent_witness :
  let a := set_is_alive false (new_agent 3 SEER (Some 0%nat)) in
  is_alive a = false /\
  run quiet_world (speak sample_json_dumps "normal" a) tt = ((Returned EmptyString, a), tt, []) /\
  run quiet_world (vote sample_json_dumps None a) tt = ((Returned (-1), a), tt, []) /\
  exists r : SkillResult,
    run quiet_world (use_skill sample_json_dumps None a) tt = ((Returned r, a), tt, []) /\
    sr_success r = false.
Proof.
  split; [ reflexivity | ].
  apply (dead_agent_is_silent sample_json_dumps quiet_world tt
           (set_is_alive false (new_agent 3 SEER (Some 0%nat)))).
  reflexivity.
Defined.

(** ** Status updates *)

Lemma update_status_run (a : Agent) (new_status : gmap string pyval) :
  update_status new_status a =
  Ret (Returned tt,
       mkAgent (player_id a) (role a) (api_client a)
         (from_option truthy (is_alive a) (new_status !! "is_alive"%string))
         (vote_target a)
         (from_option truthy (skill_used a) (new_status !! "skill_used"%string))
         (knowledge_base a)).
Proof.
  unfold update_status, bind.
  destruct (new_status !! "is_alive"%string) as [v1 | ];
    destruct (new_status !! "skill_used"%string) as [v2 | ];
    destruct a; reflexivity.
Qed.

(** C10. [update_status] changes at most [is_alive] and [skill_used]:
    the player id, the role, the vote target, the generator client and the
    knowledge base stay as they are, no call is made, and two status
    dictionaries that agree on the keys [is_alive] and [skill_used] have
    the same effect, so every other key is ignored. *)
Theorem update_status_frame (a : Agent) (new_status other_status : gmap string pyval) :
  new_status !! "is_alive"%string = other_status !! "is_alive"%string ->
  new_status !! "skill_used"%string = other_status !! "skill_used"%string ->
  exists a' : Agent,
    update_status new_status a = Ret (Returned tt, a') /\
    update_status other_status a = Ret (Returned tt, a') /\
    player_id a' = player_id a /\
    role a' = role a /\
    vote_target a' = vote_target a /\
    api_client a' = api_client a /\
    knowledge_base a' = knowledge_base a /\
    is_alive a' = from_option truthy (is_alive a) (new_status !! "is_alive"%string) /\
    skill_used a' = from_option truthy (skill_used a) (new_status !! "skill_used"%string).
Proof.
  intros Halive Hused. eexists. split; [ apply update_status_run | ].
  split; [ rewrite update_status_run, Halive, Hused; reflexivity | ].
  simpl. repeat split.
Qed.

Lemma update_status_frame_witness :
  let a := new_agent 4 WITCH None in
  let new_status : gmap string pyval :=
    <["is_alive"%string := PyBool false]>
      (<["vote_target"%string := PyInt 7]> (<["role"%string := PyStr "seer"]> ∅)) in
  let other_status : gmap string pyval := <["is_alive"%string := PyBool false]> ∅ in
  (new_status !! "is_alive"%string = other_status !! "is_alive"%string /\
   new_status !! "skill_used"%string = other_status !! "skill_used"%string) /\
  exists a' : Agent,
    update_status new_status a = Ret (Returned tt, a') /\
    update_status other_status a = Ret (Returned tt, a') /\
    player_id a' = 4 /\ role a' = WITCH /\ vote_target a' = None /\
    api_client a' = None /\ knowledge_base a' = knowledge_base a.
Proof.
  intros a new_status other_status.
  assert (Halive : new_status !! "is_alive"%string = other_status !! "is_alive"%string)
    by (vm_compute; reflexivity).
  assert (Hused : new_status !! "skill_used"%string = other_status !! "skill_used"%string)
    by (vm_compute; reflexivity).
  split; [ split; assumption | ].
  destruct (update_status_frame a new_status other_status Halive Hused)
    as (a' & H1 & H2 & H3 & H4 & H5 & H6 & H7 & _).
  exists a'. repeat split; assumption.
Defined.

(** ** State refresh *)

Lemma get_current_state_run (W : World) (w : wstate W) (a : Agent) :
  run W (get_current_state a) w =
  match fst (answer_call W w (GetGameState (player_id a))) with
  | inr state =>
      ((Returned state, set_knowledge_base (refreshed state (knowledge_base a)) a),
       snd (answer_call W w (GetGameState (player_id a))),
       [GetGameState (player_id a)])
  | inl e =>
      ((Returned empty_game_state, a),
       snd (answer_call W w (GetGameState (player_id a))),
       [GetGameState (player_id a)])
  end.
Proof.
  unfold get_current_state, try_catch, bind, gets, perform. cbn [pbind fst snd run].
  destruct (answer_call W w (GetGameState (player_id a))) as [[e | state] w'];
    reflexivity.
Qed.

(** C5.  A state fetch makes one call.  When it succeeds, the four
    entries [game_phase], [current_round], [alive_players] and
    [death_info] are written together, each with the fetched value where
    the state has the field and with its default ([None], [0], [[]],
    [[]]) where the field is absent; so an entry changes only to a value
    that was fetched or, for an absent field, to its default.
    [history_speeches] and [vote_history] are never touched, nor is the
    rest of the agent.  When the fetch fails, none of the entries is
    written: the agent, and with it every cached value, stays as it was,
    and the method returns the empty state instead of raising. *)
Theorem state_fetch_overwrites_as_a_group (W : World) (w : wstate W) (a : Agent) :
  let t := run W (get_current_state a) w in
  let kb := knowledge_base a in
  let kb' := knowledge_base (agent_after t) in
  calls_of t = [GetGameState (player_id a)] /\
  kb_history_speeches kb' = kb_history_speeches kb /\
  kb_vote_history kb' = kb_vote_history kb /\
  match fst (answer_call W w (GetGameState (player_id a))) with
  | inr state =>
      result_of t = Returned state /\
      kb_game_phase kb' = gs_phase state /\
      kb_current_round kb' = default 0 (gs_round state) /\
      kb_alive_players kb' = Some (default [] (gs_alive_players state)) /\
      kb_death_info kb' = default [] (gs_death_info state) /\
      only_fetched_values_overwrite kb kb' state /\
      agent_after t = set_knowledge_base kb' a
  | inl e =>
      result_of t = Returned empty_game_state /\ agent_after t = a
  end.
Proof.
  cbv zeta. rewrite get_current_state_run.
  destruct (answer_call W w (GetGameState (player_id a))) as [[e | state] w'];
    cbn [fst snd agent_after calls_of result_of knowledge_base set_knowledge_base
         refreshed kb_game_phase kb_current_round kb_history_speeches
         kb_vote_history kb_death_info kb_alive_players];
    [ repeat split | ].
  repeat match goal with |- _ /\ _ => split end; try reflexivity.
  unfold only_fetched_values_overwrite.
  cbn [kb_game_phase kb_current_round kb_death_info kb_alive_players].
  destruct state as [[phase | ] [round | ] [alive_players | ] [death_info | ]];
    cbn; repeat split; intros _; solve [ left; eauto | right; split; reflexivity ].
Qed.

(** C9. Two state fetches in a row against a backend that returns the
    same state both times leave the knowledge base (and the whole agent)
    as the first fetch left it. *)
Theorem state_fetch_idempotent (W : World) (w w1 w2 : wstate W) (a : Agent)
  (state : GameState) :
  answer_call W w (GetGameState (player_id a)) = (inr state, w1) ->
  answer_call W w1 (GetGameState (player_id a)) = (inr state, w2) ->
  let first := run W (get_current_state a) w in
  let second := run W (get_current_state (agent_after first)) (world_after first) in
  result_of first = Returned state /\
  result_of second = Returned state /\
  knowledge_base (agent_after second) = knowledge_base (agent_after first) /\
  agent_after second = agent_after first.
Proof.
  intros H1 H2. cbv zeta.
  unfold agent_after, world_after, result_of.
  rewrite (get_current_state_run W w a), H1. cbn [fst snd].
  rewrite get_current_state_run. cbn [player_id set_knowledge_base].
  rewrite H2. cbn [fst snd].
  repeat split; destruct a; reflexivity.
Qed.

Lemma state_fetch_idempotent_witness :
  let a := with_round 3 (new_agent 5 SEER None) in
  let W := state_world sample_state in
  let first := run W (get_current_state a) tt in
  let second := run W (get_current_state (agent_after first)) (world_after first) in
  (answer_call W tt (GetGameState (player_id a)) = (inr sample_state, tt) /\
   answer_call W tt (GetGameState (player_id a)) = (inr sample_state, tt)) /\
  result_of first = Returned sample_state /\
  result_of second = Returned sample_state /\
  knowledge_base (agent_after second) = knowledge_base (agent_after first) /\
  agent_after second = agent_after first.
Proof.
  split; [ split; reflexivity | ].
  apply (state_fetch_idempotent (state_world sample_state) tt tt tt
           (with_round 3 (new_agent 5 SEER None)) sample_state); reflexivity.
Defined.

(** ** Reading numbers in a reply *)

Lemma py_int_run (s : string) (a : Agent) :
  py_int s a = Ret (int_of_digits s, a).
Proof. unfold py_int. destruct (int_of_digits s); reflexivity. Qed.

Lemma int_tokens_run (tokens : list string) (a : Agent) :
  int_tokens tokens a = Ret (parsed_tokens tokens, a).
Proof.
  induction tokens as [ | s rest IH]; simpl; [ reflexivity | ].
  destruct (PyStr.isdigit s); [ | exact IH ].
  unfold bind. rewrite py_int_run. cbn [pbind fst snd].
  destruct (int_of_digits s) as [n | e]; [ | reflexivity ].
  rewrite IH. simpl. destruct (parsed_tokens rest); reflexivity.
Qed.

Lemma parsed_tokens_no_digit (tokens : list string) :
  existsb PyStr.isdigit tokens = false -> parsed_tokens tokens = Returned [].
Proof.
  induction tokens as [ | s rest IH]; simpl; [ reflexivity | ].
  destruct (PyStr.isdigit s); simpl; [ discriminate | exact IH ].
Qed.

Lemma leading_decimals_all (s : string) :
  PyStr.all_chars PyStr.isdecimal_char s = true ->
  PyStr.leading_decimals s = String.length s.
Proof.
  induction s as [ | c s IH]; simpl; [ reflexivity | ].
  intros H. apply andb_prop in H. destruct H as [Hc Hs].
  rewrite Hc, (IH Hs). reflexivity.
Qed.

Lemma isdecimal_all_chars (s : string) :
  PyStr.isdecimal s = true -> PyStr.all_chars PyStr.isdecimal_char s = true.
Proof. destruct s; [ discriminate | trivial ]. Qed.

Lemma int_of_digits_accepted (s : string) :
  int_accepts s = true -> int_of_digits s = Returned (PyStr.digits_value s 0).
Proof.
  unfold int_accepts, int_of_digits. intros H. apply andb_prop in H.
  destruct H as [Hdec Hlen]. apply Nat.leb_le in Hlen.
  rewrite (leading_decimals_all s (isdecimal_all_chars s Hdec)), Hdec.
  destruct (Nat.ltb_spec PyStr.max_str_digits (String.length s)) as [Hlt | _];
    [ | reflexivity ].
  exfalso. exact (Nat.lt_irrefl _ (Nat.le_lt_trans _ _ _ Hlen Hlt)).
Qed.

Lemma int_of_digits_returned (s : string) (n : Z) :
  int_of_digits s = Returned n -> int_accepts s = true.
Proof.
  unfold int_accepts, int_of_digits.
  destruct (Nat.ltb_spec PyStr.max_str_digits (PyStr.leading_decimals s)) as [ | Hle];
    [ discriminate | ].
  destruct (PyStr.isdecimal s) eqn:Hdec; [ intros _ | discriminate ].
  rewrite (leading_decimals_all s (isdecimal_all_chars s Hdec)) in Hle.
  apply Nat.leb_le in Hle. rewrite Hle. reflexivity.
Qed.

Lemma int_of_digits_value_error (s : string) (e : exn) :
  int_of_digits s = Raised e -> is_value_error e = true.
Proof.
  unfold int_of_digits.
  destruct (PyStr.max_str_digits <? PyStr.leading_decimals s)%nat;
    [ intros H; injection H as <-; reflexivity | ].
  destruct (PyStr.isdecimal s); [ discriminate | ].
  intros H. injection H as <-. reflexivity.
Qed.

Lemma parsed_tokens_convert (tokens : list string) :
  forallb (fun s => implb (PyStr.isdigit s) (int_accepts s)) tokens = true ->
  parsed_tokens tokens =
  Returned (map (fun s => PyStr.digits_value s 0) (List.filter PyStr.isdigit tokens)).
Proof.
  induction tokens as [ | s rest IH]; simpl; [ reflexivity | ].
  intros H. apply andb_prop in H. destruct H as [Hs Hrest].
  destruct (PyStr.isdigit s); simpl in *; [ | apply IH, Hrest ].
  rewrite (int_of_digits_accepted s Hs), (IH Hrest). reflexivity.
Qed.

Lemma parsed_tokens_returned_convert (tokens : list string) (numbers : list Z) :
  parsed_tokens tokens = Returned numbers ->
  forallb (fun s => implb (PyStr.isdigit s) (int_accepts s)) tokens = true.
Proof.
  revert numbers. induction tokens as [ | s rest IH]; simpl; intros numbers H;
    [ reflexivity | ].
  destruct (PyStr.isdigit s); simpl; [ | eapply IH, H ].
  destruct (int_of_digits s) as [n | e] eqn:Hs; [ | discriminate ].
  rewrite (int_of_digits_returned s n Hs).
  destruct (parsed_tokens rest) as [ns | e]; [ | discriminate ].
  simpl. eapply IH. reflexivity.
Qed.

Lemma parsed_tokens_value_error (tokens : list string) (e : exn) :
  parsed_tokens tokens = Raised e -> is_value_error e = true.
Proof.
  induction tokens as [ | s rest IH]; simpl; [ discriminate | ].
  destruct (PyStr.isdigit s); [ | exact IH ].
  destruct (int_of_digits s) as [n | e'] eqn:E.
  - destruct (parsed_tokens rest) as [ns | e'']; [ discriminate | ].
    intros H. injection H as <-. apply IH. reflexivity.
  - intros H. injection H as <-. exact (int_of_digits_value_error s e' E).
Qed.

Lemma _parse_number_from_response_run (response : string) (a : Agent) :
  _parse_number_from_response response a =
  Ret (Returned (match parsed_tokens (PyStr.split response) with
                 | Returned numbers => default 0 (head numbers)
                 | Raised _ => 0
                 end), a).
Proof.
  unfold _parse_number_from_response, try_catch_value_error, bind.
  rewrite int_tokens_run. cbn [pbind fst snd].
  destruct (parsed_tokens (PyStr.split response)) as [numbers | e] eqn:E;
    cbn [pbind fst snd ret]; [ reflexivity | ].
  rewrite (parsed_tokens_value_error _ _ E). reflexivity.
Qed.

Lemma nth_mod_In (l : list Z) (i : nat) :
  l <> [] -> In (nth (i mod List.length l)%nat l 0) l.
Proof.
  intros Hl. apply nth_In. apply Nat.mod_upper_bound.
  destruct l; [ congruence | simpl; lia ].
Qed.

(** ** The vote fallback *)

(** C4, as amended.  When no whitespace-delimited token of the reply is
    all digits, the vote parse makes no external call and leaves the agent
    as it is.  Its candidates are the cached alive roster without the
    agent's own id, and the ids 1 to 9 without the agent's own id when no
    roster has been cached at all.  With no candidate it returns [-1]
    without drawing; otherwise it draws an index below the number of
    candidates and returns the candidate at that index, so each position
    of the list is chosen by exactly the draws that name it. *)
Theorem vote_fallback (W : World) (w : wstate W) (a : Agent) (reply : string) :
  existsb PyStr.isdigit (PyStr.split reply) = false ->
  let t := run W (_parse_vote_decision reply a) w in
  let candidates := vote_candidates a in
  agent_after t = a /\ calls_of t = [] /\
  (kb_alive_players (knowledge_base a) = None ->
     candidates = other_players_of (player_id a) [1; 2; 3; 4; 5; 6; 7; 8; 9]) /\
  (forall alive_players, kb_alive_players (knowledge_base a) = Some alive_players ->
     candidates = other_players_of (player_id a) alive_players) /\
  (candidates = [] -> result_of t = Returned (-1) /\ world_after t = w) /\
  (candidates <> [] ->
     let draw := answer_draw W w (List.length candidates) in
     result_of t = Returned (nth (fst draw mod List.length candidates)%nat candidates 0) /\
     world_after t = snd draw /\
     exists n, result_of t = Returned n /\ In n candidates).
Proof.
  intros Hno. cbv zeta.
  unfold _parse_vote_decision, try_catch_value_error, bind.
  rewrite int_tokens_run, (parsed_tokens_no_digit _ Hno).
  cbn [pbind fst snd ret gets head].
  fold (vote_candidates a).
  unfold vote_candidates at 3 4. unfold agent_after, calls_of, result_of, world_after.
  destruct (vote_candidates a) as [ | p l] eqn:E.
  - cbn. repeat split; try congruence.
    + intros HN. rewrite HN. reflexivity.
    + intros al HS. rewrite HS. reflexivity.
  - cbn [random_choice run fst snd]. repeat split; try congruence.
    + intros HN. rewrite HN. reflexivity.
    + intros al HS. rewrite HS. reflexivity.
    + eexists. split; [ reflexivity | ]. apply nth_mod_In. discriminate.
Qed.

Lemma vote_fallback_witness :
  let a := with_roster [2; 5; 7] (new_agent 5 SEER None) in
  let t := run quiet_world (_parse_vote_decision "no numbers here" a) tt in
  existsb PyStr.isdigit (PyStr.split "no numbers here") = false /\
  vote_candidates a = [2; 7] /\
  agent_after t = a /\ calls_of t = [] /\ result_of t = Returned 2.
Proof.
  intros a t.
  assert (Hno : existsb PyStr.isdigit (PyStr.split "no numbers here") = false)
    by reflexivity.
  destruct (vote_fallback quiet_world tt a "no numbers here" Hno)
    as (Hagent & Hcalls & _ & _ & _ & Hdraw).
  assert (Hcand : vote_candidates a <> []) by discriminate.
  destruct (Hdraw Hcand) as (Hresult & _ & _).
  split; [ exact Hno | ]. split; [ reflexivity | ].
  split; [ exact Hagent | ]. split; [ exact Hcalls | exact Hresult ].
Defined.

(** C4, counterexample.  The cached roster is the empty list: the parse
    returns [-1] although the ids 1 to 9 without the agent's own id are
    there to fall back on. *)
Lemma empty_roster_votes_minus_one :
  let a := with_roster [] (new_agent 5 SEER None) in
  let t := run quiet_world (_parse_vote_decision "no numbers here" a) tt in
  kb_alive_players (knowledge_base a) = Some [] /\
  result_of t = Returned (-1) /\
  vote_candidates_as_claimed a = [1; 2; 3; 4; 6; 7; 8; 9] /\
  ~ (exists n, result_of t = Returned n /\ In n (vote_candidates_as_claimed a)).
Proof.
  cbv zeta. repeat split.
  intros (n & Hn & Hin). vm_compute in Hn. injection Hn as <-.
  vm_compute in Hin. intuition discriminate.
Qed.

(** ** The witch's decision *)

Lemma _parse_witch_decision_run (response : string) (a : Agent) :
  _parse_witch_decision response a =
  Ret (if PyStr.contains "save" (PyStr.lower response) then
         match parsed_tokens (PyStr.split response) with
         | Returned numbers => Returned ("save"%string, default 0 (head numbers))
         | Raised e => Raised e
         end
       else if PyStr.contains "poison" (PyStr.lower response) then
         match parsed_tokens (PyStr.split response) with
         | Returned numbers => Returned ("poison"%string, default 0 (head numbers))
         | Raised e => Raised e
         end
       else Returned ("abstain"%string, 0), a).
Proof.
  unfold _parse_witch_decision, bind.
  destruct (PyStr.contains "save" (PyStr.lower response)).
  - rewrite int_tokens_run. cbn [pbind fst snd].
    destruct (parsed_tokens (PyStr.split response)); reflexivity.
  - destruct (PyStr.contains "poison" (PyStr.lower response)); [ | reflexivity ].
    rewrite int_tokens_run. cbn [pbind fst snd].
    destruct (parsed_tokens (PyStr.split response)); reflexivity.
Qed.

(** X25. The part of C7 that the code meets.  On a reply whose all-digit
    tokens are all ones that [int] converts (decimal digits only, at most
    4300 of them), the keyword ["save"] is looked for first, then
    ["poison"], without regard to case, and the action is paired with the
    first all-digit token read as a number, 0 if there is none; without
    either keyword the decision is to abstain.  On a reply that has one
    of the keywords and an all-digit token that [int] refuses, the parse
    raises a [ValueError] instead. *)
Lemma witch_decision_on_decimal_tokens (response : string) (a : Agent) :
  (digit_tokens_convert response = true ->
   _parse_witch_decision response a =
   Ret (Returned
          (if PyStr.contains "save" (PyStr.lower response)
           then ("save"%string, first_number response)
           else if PyStr.contains "poison" (PyStr.lower response)
                then ("poison"%string, first_number response)
                else ("abstain"%string, 0)), a)) /\
  (digit_tokens_convert response = false ->
   PyStr.contains "save" (PyStr.lower response)
   || PyStr.contains "poison" (PyStr.lower response) = true ->
   exists e : exn,
     _parse_witch_decision response a = Ret (Raised e, a) /\
     is_value_error e = true).
Proof.
  rewrite _parse_witch_decision_run. unfold digit_tokens_convert. split.
  - intros Hdec. rewrite (parsed_tokens_convert _ Hdec). fold (first_number response).
    destruct (PyStr.contains "save" (PyStr.lower response)); [ reflexivity | ].
    destruct (PyStr.contains "poison" (PyStr.lower response)); reflexivity.
  - intros Hdec Hkey.
    destruct (parsed_tokens (PyStr.split response)) as [numbers | e] eqn:E.
    + rewrite (parsed_tokens_returned_convert _ _ E) in Hdec. discriminate Hdec.
    + exists e. split; [ | exact (parsed_tokens_value_error _ _ E) ].
      destruct (PyStr.contains "save" (PyStr.lower response)); [ reflexivity | ].
      destruct (PyStr.contains "poison" (PyStr.lower response));
        [ reflexivity | discriminate Hkey ].
Qed.

Lemma witch_decision_without_keyword (response : string) (a : Agent) :
  PyStr.contains "save" (PyStr.lower response) = false ->
  PyStr.contains "poison" (PyStr.lower response) = false ->
  _parse_witch_decision response a = Ret (Returned ("abstain"%string, 0), a).
Proof.
  intros Hsave Hpoison. rewrite _parse_witch_decision_run, Hsave, Hpoison. reflexivity.
Qed.

Example witch_decision_examples (a : Agent) :
  _parse_witch_decision "save 4" a = Ret (Returned ("save"%string, 4), a) /\
  _parse_witch_decision "poison 2 please" a = Ret (Returned ("poison"%string, 2), a) /\
  _parse_witch_decision "I'll abstain" a = Ret (Returned ("abstain"%string, 0), a) /\
  _parse_witch_decision "save or poison?" a = Ret (Returned ("save"%string, 0), a) /\
  _parse_witch_decision "POISON 12, then SAVE 3" a = Ret (Returned ("save"%string, 3), a).
Proof. repeat split. Qed.

(** C7, the failing input.  The reply is ["save "] followed by the
    superscript two (U+00B2).  [str.isdigit] accepts that token and [int]
    rejects it: the witch parse raises [ValueError] where the claim
    promises the pair [("save", 0)], and the exception leaves [use_skill].
    [_parse_number_from_response], which reads numbers the same way inside
    a [try], returns 0 on the same reply. *)
Theorem witch_parse_raises_on_superscript_digit
  (json_dumps : string -> Z -> KnowledgeBase -> Context -> string) (a : Agent) :
  let reply := ("save " +:+ PyStr.superscript_two)%string in
  let error :=
    mkExn ValueError
      ("invalid literal for int() with base 10: '" +:+ PyStr.superscript_two +:+ "'") in
  PyStr.contains "save" (PyStr.lower reply) = true /\
  PyStr.split reply = ["save"%string; PyStr.superscript_two] /\
  PyStr.isdecimal PyStr.superscript_two = false /\
  _parse_witch_decision reply a = Ret (Raised error, a) /\
  _parse_number_from_response reply a = Ret (Returned 0, a) /\
  result_of (run (replying_world reply)
               (use_skill json_dumps None (new_agent 4 WITCH (Some 0%nat))) tt)
  = Raised error.
Proof. cbv zeta. repeat split. Qed.

(** ** Calls made by a computation *)

Lemma calls_within_pbind {A B : Type} (allowed : call -> bool)
  (p : prog A) (f : A -> prog B) :
  calls_within allowed p -> (forall a, calls_within allowed (f a)) ->
  calls_within allowed (pbind p f).
Proof.
  intros Hp Hf. induction p as [a | c k IH | n k IH]; simpl in *.
  - apply Hf.
  - destruct Hp as [Hc Hk]. split; [ exact Hc | ]. intros r. apply IH, Hk.
  - intros i. apply IH, Hp.
Qed.

Lemma run_calls_within {A : Type} (allowed : call -> bool) (W : World)
  (p : prog A) (w : wstate W) :
  calls_within allowed p -> forallb allowed (calls_of (run W p w)) = true.
Proof.
  revert w. induction p as [a | c k IH | n k IH]; intros w Hp; simpl in *.
  - reflexivity.
  - destruct Hp as [Hc Hk]. unfold calls_of in *. simpl. rewrite Hc. apply IH, Hk.
  - apply IH, Hp.
Qed.

Lemma run_bind {S A B : Type} (W : World) (m : M S A) (f : A -> M S B)
  (s : S) (w : wstate W) :
  run W (bind m f s) w =
  match result_of (run W (m s) w) with
  | Returned v =>
      (fst (fst (run W (f v (agent_after (run W (m s) w))) (world_after (run W (m s) w)))),
       world_after (run W (f v (agent_after (run W (m s) w))) (world_after (run W (m s) w))),
       calls_of (run W (m s) w)
       ++ calls_of (run W (f v (agent_after (run W (m s) w))) (world_after (run W (m s) w))))
  | Raised e =>
      ((Raised e, agent_after (run W (m s) w)), world_after (run W (m s) w),
       calls_of (run W (m s) w))
  end.
Proof.
  unfold bind. rewrite run_pbind.
  unfold result_of, agent_after, world_after, calls_of.
  destruct (run W (m s) w) as [[[o s1] w1] tr1]. cbn [fst snd].
  destruct o as [v | e]; [ reflexivity | ].
  cbn. rewrite app_nil_r. reflexivity.
Qed.

Section QuietRules.

Context {S : Type} (allowed : call -> bool).

Lemma quiet_ret {A : Type} (v : A) : quiet allowed (@ret S A v).
Proof. intros s. exact I. Qed.

Lemma quiet_raise {A : Type} (e : exn) : quiet allowed (@raise S A e).
Proof. intros s. exact I. Qed.

Lemma quiet_gets {A : Type} (f : S -> A) : quiet allowed (gets f).
Proof. intros s. exact I. Qed.

Lemma quiet_modify (f : S -> S) : quiet allowed (modify f).
Proof. intros s. exact I. Qed.

Lemma quiet_random_choice (l : list Z) : quiet allowed (@random_choice S l).
Proof. intros s i. exact I. Qed.

Lemma quiet_perform (c : call) : allowed c = true -> quiet allowed (@perform S c).
Proof. intros Hc s. split; [ exact Hc | ]. intros [e | v]; exact I. Qed.

Lemma quiet_bind {A B : Type} (m : M S A) (f : A -> M S B) :
  quiet allowed m -> (forall v, quiet allowed (f v)) -> quiet allowed (bind m f).
Proof.
  intros Hm Hf s. unfold bind. apply calls_within_pbind; [ apply Hm | ].
  intros [[v | e] s']; cbn [fst snd]; [ apply Hf | exact I ].
Qed.

Lemma quiet_try_catch {A : Type} (body : M S A) (handler : exn -> M S A) :
  quiet allowed body -> (forall e, quiet allowed (handler e)) ->
  quiet allowed (try_catch body handler).
Proof.
  intros Hm Hh s. unfold try_catch. apply calls_within_pbind; [ apply Hm | ].
  intros [[v | e] s']; cbn [fst snd]; [ exact I | apply Hh ].
Qed.

Lemma quiet_try_catch_value_error {A : Type} (body handler : M S A) :
  quiet allowed body -> quiet allowed handler ->
  quiet allowed (try_catch_value_error body handler).
Proof.
  intros Hm Hh s. unfold try_catch_value_error.
  apply calls_within_pbind; [ apply Hm | ].
  intros [[v | e] s']; cbn [fst snd]; [ exact I | ].
  destruct (is_value_error e); [ apply Hh | exact I ].
Qed.

End QuietRules.

Lemma quiet_int_tokens (allowed : call -> bool) (tokens : list string) :
  quiet allowed (int_tokens tokens).
Proof. intros a. rewrite int_tokens_run. exact I. Qed.

Create HintDb quiet.

#[export] Hint Resolve quiet_ret quiet_raise quiet_gets quiet_modify
  quiet_random_choice quiet_int_tokens : quiet.

(** Walks down a method body, one rule per construct. *)
Ltac quiet_step :=
  match goal with
  | |- quiet _ (bind _ _) => apply quiet_bind; [ | intros ? ]
  | |- quiet _ (try_catch _ _) => apply quiet_try_catch; [ | intros ? ]
  | |- quiet _ (try_catch_value_error _ _) => apply quiet_try_catch_value_error
  | |- quiet _ (perform _) => apply quiet_perform; reflexivity
  | |- quiet _ (match ?x with _ => _ end) => destruct x
  | |- quiet _ _ => solve [ auto with quiet ]
  end.

Lemma _simulate_ai_response_calls (allowed : call -> bool)
  (prompt : string) (context : Context) :
  quiet allowed (_simulate_ai_response prompt context).
Proof. unfold _simulate_ai_response. repeat quiet_step. Qed.

Lemma _parse_number_from_response_calls (allowed : call -> bool) (response : string) :
  quiet allowed (_parse_number_from_response response).
Proof. unfold _parse_number_from_response. repeat quiet_step. Qed.

Lemma interact_with_ai_calls
  (json_dumps : string -> Z -> KnowledgeBase -> Context -> string)
  (prompt : string) (context : Context) :
  quiet is_generator_call (interact_with_ai json_dumps prompt context).
Proof.
  pose proof (_simulate_ai_response_calls is_generator_call prompt context).
  unfold interact_with_ai, _construct_full_prompt. repeat quiet_step; assumption.
Qed.

Lemma resolve_target_calls
  (json_dumps : string -> Z -> KnowledgeBase -> Context -> string)
  (skill_params : SkillParams) (prompt : string) (a : Agent) :
  calls_within is_generator_call (resolve_target json_dumps skill_params prompt a).
Proof.
  revert a. change (quiet is_generator_call (resolve_target json_dumps skill_params prompt)).
  unfold resolve_target, _get_skill_context. repeat quiet_step.
  - apply interact_with_ai_calls.
  - apply _parse_number_from_response_calls.
Qed.

Lemma generator_calls_are_not_backend_calls (calls : list call) :
  forallb is_generator_call calls = true ->
  existsb is_backend_call calls = false /\ existsb is_hunter_shoot calls = false.
Proof.
  induction calls as [ | c rest IH]; simpl; [ auto | ].
  intros H. apply andb_prop in H. destruct H as [Hc Hrest].
  destruct (IH Hrest) as [H1 H2]. rewrite H1, H2.
  destruct c; simpl in *; auto; discriminate.
Qed.

(** ** The hunter's skill *)

Lemma use_skill_ready
  (json_dumps : string -> Z -> KnowledgeBase -> Context -> string)
  (skill_params : option SkillParams) (a : Agent) :
  is_alive a = true -> skill_used a = false ->
  use_skill json_dumps skill_params a =
  bind (match role a with
        | WEREWOLF => _use_werewolf_skill json_dumps (default empty_skill_params skill_params)
        | WITCH => _use_witch_skill json_dumps (default empty_skill_params skill_params)
        | SEER => _use_seer_skill json_dumps (default empty_skill_params skill_params)
        | HUNTER => _use_hunter_skill json_dumps (default empty_skill_params skill_params)
        | VILLAGER => ret (mkSkillResult false EmptyString None None)
        end)
       (fun skill_result =>
          bind (if sr_success skill_result then modify (set_skill_used true) else ret tt)
               (fun _ => ret skill_result)) a.
Proof.
  intros Halive Hused. unfold use_skill. unfold bind at 1 2 3, gets.
  cbn [pbind fst snd]. rewrite Halive, Hused. reflexivity.
Qed.

(** C8. An alive hunter whose skill is unused and whose target resolves
    to 0, from [skill_params] or from the number read in the generator's
    reply, gets [success = true]: [use_skill] makes the calls of the
    resolution and no other, none of them to the backend, so
    [hunter_shoot] is not called; the skill is then marked as used. *)
Theorem hunter_zero_target_never_shoots
  (json_dumps : string -> Z -> KnowledgeBase -> Context -> string)
  (W : World) (w : wstate W) (a : Agent) (skill_params : option SkillParams) :
  is_alive a = true -> skill_used a = false -> role a = HUNTER ->
  let choice :=
    run W (resolve_target json_dumps (default empty_skill_params skill_params)
             hunter_prompt a) w in
  result_of choice = Returned 0 ->
  let t := run W (use_skill json_dumps skill_params a) w in
  result_of t = Returned (mkSkillResult true "Hunter chose not to shoot" None None) /\
  calls_of t = calls_of choice /\
  existsb is_backend_call (calls_of t) = false /\
  existsb is_hunter_shoot (calls_of t) = false /\
  agent_after t = set_skill_used true (agent_after choice) /\
  world_after t = world_after choice.
Proof.
  intros Halive Hused Hrole choice Hchoice t.
  assert (Hcalls : forallb is_generator_call (calls_of choice) = true)
    by apply run_calls_within, resolve_target_calls.
  assert (Ht : t = ((Returned (mkSkillResult true "Hunter chose not to shoot" None None),
                     set_skill_used true (agent_after choice)),
                    world_after choice, calls_of choice)).
  { subst t. rewrite use_skill_ready by assumption. rewrite Hrole.
    rewrite run_bind. unfold _use_hunter_skill. rewrite run_bind.
    fold choice. rewrite Hchoice.
    unfold result_of, agent_after, world_after, calls_of.
    destruct choice as [[[o a1] w1] tr1]. cbn. rewrite !app_nil_r. reflexivity. }
  rewrite Ht. unfold result_of, agent_after, world_after, calls_of. cbn [fst snd].
  destruct (generator_calls_are_not_backend_calls _ Hcalls) as [H1 H2].
  repeat split; assumption.
Qed.

Lemma hunter_zero_target_never_shoots_witness :
  let a := new_agent 6 HUNTER (Some 0%nat) in
  let W := replying_world "I will keep my bullet: 0 it is" in
  let choice := run W (resolve_target sample_json_dumps empty_skill_params hunter_prompt a) tt in
  let t := run W (use_skill sample_json_dumps None a) tt in
  (is_alive a = true /\ skill_used a = false /\ role a = HUNTER /\
   result_of choice = Returned 0) /\
  result_of t = Returned (mkSkillResult true "Hunter chose not to shoot" None None) /\
  calls_of t = calls_of choice /\
  existsb is_backend_call (calls_of t) = false /\
  existsb is_hunter_shoot (calls_of t) = false /\
  agent_after t = set_skill_used true (agent_after choice) /\
  world_after t = world_after choice.
Proof.
  split; [ repeat split | ].
  apply (hunter_zero_target_never_shoots sample_json_dumps
           (replying_world "I will keep my bullet: 0 it is") tt
           (new_agent 6 HUNTER (Some 0%nat)) None); reflexivity.
Defined.

Lemma hunter_explicit_zero_target
  (json_dumps : string -> Z -> KnowledgeBase -> Context -> string) (a : Agent) :
  is_alive a = true -> skill_used a = false -> role a = HUNTER ->
  use_skill json_dumps (Some (mkSkillParams None (Some 0))) a =
  Ret (Returned (mkSkillResult true "Hunter chose not to shoot" None None),
       set_skill_used true a).
Proof.
  intros Halive Hused Hrole. rewrite use_skill_ready by assumption.
  rewrite Hrole. reflexivity.
Qed.

(** ** Invariants of normal play *)

Lemma leaves_trivial {A : Type} (ok : reply_ok) (P : A -> Prop) (p : prog A) :
  (forall a, P a) -> leaves ok P p.
Proof.
  intros HP. induction p as [a | c k IH | n k IH]; simpl; auto.
Qed.

Lemma keeps_lift {L A : Type} (ok : reply_ok) (I : Agent -> Prop) (m : M Agent A) :
  keeps ok I m -> keeps ok (fun s : Agent * L => I (fst s)) (lift m).
Proof.
  intros Hm [a l] Ha. unfold lift. apply leaves_pbind. cbn [fst snd] in *.
  eapply leaves_mono; [ | apply Hm, Ha ]. intros [o a'] H. exact H.
Qed.

Lemma keeps_with_local {L A : Type} (ok : reply_ok) (I : Agent -> Prop)
  (init : L) (m : M (Agent * L) A) :
  keeps ok (fun s : Agent * L => I (fst s)) m -> keeps ok I (with_local init m).
Proof.
  intros Hm a Ha. unfold with_local. apply leaves_pbind.
  eapply leaves_mono; [ | apply (Hm (a, init)), Ha ]. intros [o [a' l]] H. exact H.
Qed.

Lemma keeps_update_result (ok : reply_ok) (I : Agent -> Prop)
  (f : ActionResult -> ActionResult) :
  keeps ok (fun s : Agent * ActionResult => I (fst s)) (update_result f).
Proof. apply keeps_modify. intros [a r] H. exact H. Qed.

Lemma keeps_int_tokens (ok : reply_ok) (I : Agent -> Prop) (tokens : list string) :
  keeps ok I (int_tokens tokens).
Proof. intros a Ha. rewrite int_tokens_run. exact Ha. Qed.

Lemma keeps_index_key {A : Type} (ok : reply_ok) (I : Agent -> Prop)
  (key : string) (o : option A) :
  keeps ok I (index_key key o).
Proof. destruct o; [ apply keeps_ret | apply keeps_raise ]. Qed.

Create HintDb keeps.

#[export] Hint Resolve keeps_ret keeps_raise keeps_gets keeps_perform
  keeps_random_choice keeps_int_tokens keeps_index_key keeps_update_result : keeps.

Ltac keeps_step :=
  match goal with
  | |- keeps _ _ (bind _ _) => apply keeps_bind; [ | intros ? ]
  | |- keeps _ _ (try_catch _ _) => apply keeps_try_catch; [ | intros ? ]
  | |- keeps _ _ (try_catch_value_error _ _) => apply keeps_try_catch_value_error
  | |- keeps _ _ (lift _) => apply keeps_lift
  | |- keeps _ _ (with_local _ _) => apply keeps_with_local
  | |- keeps _ _ (modify _) => apply keeps_modify; solve [ auto ]
  | |- keeps _ _ (match ?x with _ => _ end) => destruct x
  | |- keeps _ _ _ => solve [ auto with keeps ]
  end.

Section PlayKeeps.

Variable json_dumps : string -> Z -> KnowledgeBase -> Context -> string.
Variable ok : reply_ok.
Variable I : Agent -> Prop.
Hypothesis I_stable : stable I.

Lemma keeps_get_current_state : keeps ok I get_current_state.
Proof using I_stable.
  destruct I_stable as (I_kb & I_vote & I_latch).
  unfold get_current_state. repeat keeps_step.
Qed.

Lemma keeps_get_history_speeches : keeps ok I get_history_speeches.
Proof using I_stable.
  destruct I_stable as (I_kb & I_vote & I_latch).
  unfold get_history_speeches. repeat keeps_step.
Qed.

Lemma keeps__simulate_ai_response (prompt : string) (context : Context) :
  keeps ok I (_simulate_ai_response prompt context).
Proof. unfold _simulate_ai_response. repeat keeps_step. Qed.

Lemma keeps_interact_with_ai (prompt : string) (context : Context) :
  keeps ok I (interact_with_ai json_dumps prompt context).
Proof.
  pose proof (keeps__simulate_ai_response prompt context).
  unfold interact_with_ai, _construct_full_prompt. repeat keeps_step; assumption.
Qed.

Lemma keeps__parse_vote_decision (response : string) :
  keeps ok I (_parse_vote_decision response).
Proof. unfold _parse_vote_decision. repeat keeps_step. Qed.

Lemma keeps__parse_number_from_response (response : string) :
  keeps ok I (_parse_number_from_response response).
Proof. unfold _parse_number_from_response. repeat keeps_step. Qed.

Lemma keeps__parse_witch_decision (response : string) :
  keeps ok I (_parse_witch_decision response).
Proof. unfold _parse_witch_decision. repeat keeps_step. Qed.

Lemma keeps_speak (speech_type : string) : keeps ok I (speak json_dumps speech_type).
Proof using I_stable.
  destruct I_stable as (I_kb & I_vote & I_latch).
  pose proof keeps_get_current_state. pose proof keeps_get_history_speeches.
  unfold speak, _construct_speech_prompt.
  repeat keeps_step; try assumption; apply keeps_interact_with_ai.
Qed.

Lemma keeps_vote (target_id : option Z) : keeps ok I (vote json_dumps target_id).
Proof using I_stable.
  destruct I_stable as (I_kb & I_vote & I_latch).
  unfold vote, _construct_vote_prompt.
  repeat keeps_step;
    first [ apply keeps_interact_with_ai | apply keeps__parse_vote_decision ].
Qed.

Lemma keeps_resolve_target (skill_params : SkillParams) (prompt : string) :
  keeps ok I (resolve_target json_dumps skill_params prompt).
Proof.
  unfold resolve_target, _get_skill_context.
  repeat keeps_step;
    first [ apply keeps_interact_with_ai | apply keeps__parse_number_from_response ].
Qed.

Lemma keeps_use_skill (skill_params : option SkillParams) :
  keeps ok I (use_skill json_dumps skill_params).
Proof using I_stable.
  destruct I_stable as (I_kb & I_vote & I_latch).
  unfold use_skill, _use_werewolf_skill, _use_witch_skill, _use_seer_skill,
    _use_hunter_skill, hunter_shoot_at, _get_skill_context.
  repeat keeps_step;
    first [ apply keeps_resolve_target | apply keeps_interact_with_ai
          | apply keeps__parse_witch_decision ].
Qed.

Lemma keeps_act (action_type : string) (kwargs : Kwargs) :
  keeps ok I (act json_dumps action_type kwargs).
Proof using I_stable.
  destruct I_stable as (I_kb & I_vote & I_latch).
  unfold act.
  repeat keeps_step;
    first [ apply keeps_speak | apply keeps_vote | apply keeps_use_skill ].
Qed.

Lemma keeps_play_one (p : play) : keeps ok I (play_one json_dumps p).
Proof using I_stable.
  destruct I_stable as (I_kb & I_vote & I_latch).
  destruct p; unfold play_one; repeat keeps_step;
    first [ apply keeps_speak | apply keeps_vote | apply keeps_use_skill
          | apply keeps_act | apply keeps_get_current_state
          | apply keeps_get_history_speeches | apply keeps_interact_with_ai ].
Qed.

Lemma keeps_session (plays : list play) : keeps ok I (session json_dumps plays).
Proof using I_stable.
  destruct I_stable as (I_kb & I_vote & I_latch).
  induction plays as [ | p rest IH]; simpl.
  - apply keeps_ret.
  - apply keeps_bind; [ | intros _; exact IH ].
    apply keeps_try_catch; [ apply keeps_play_one | intros e; apply keeps_ret ].
Qed.

End PlayKeeps.

Lemma skill_used_stable : stable (fun a => skill_used a = true).
Proof. repeat split; intros; assumption. Qed.

(** ** The skill latch *)

Lemma triple_trivial {S A : Type} (ok : reply_ok) (P : S -> Prop) (m : M S A) :
  triple ok P m (fun _ _ => True).
Proof. intros s _. apply leaves_trivial. auto. Qed.

Lemma use_skill_spent
  (json_dumps : string -> Z -> KnowledgeBase -> Context -> string)
  (skill_params : option SkillParams) (a : Agent) :
  skill_used a = true ->
  use_skill json_dumps skill_params a = Ret (Returned cannot_use_skill, a).
Proof.
  intros Hused. unfold use_skill, bind, gets. cbn [pbind fst snd].
  rewrite Hused, orb_true_r. reflexivity.
Qed.

Lemma use_skill_latches
  (json_dumps : string -> Z -> KnowledgeBase -> Context -> string)
  (ok : reply_ok) (skill_params : option SkillParams) :
  triple ok (fun _ => True) (use_skill json_dumps skill_params)
    (fun o a => match o with
                | Returned r => sr_success r = true -> skill_used a = true
                | Raised _ => True
                end).
Proof.
  unfold use_skill.
  apply triple_bind with (R := fun _ _ => True); [ apply triple_gets; auto | ].
  intros alive.
  apply triple_bind with (R := fun _ _ => True); [ apply triple_gets; auto | ].
  intros used. destruct (negb alive || used).
  { apply triple_ret. intros a _. discriminate. }
  apply triple_bind with (R := fun _ _ => True); [ apply triple_gets; auto | ].
  intros r.
  apply triple_bind with (R := fun _ _ => True).
  { intros a _. apply leaves_trivial. intros [[v | e] a']; exact I. }
  intros skill_result.
  apply triple_bind
    with (R := fun _ a => sr_success skill_result = true -> skill_used a = true).
  - destruct (sr_success skill_result).
    + apply triple_modify. intros a _ _. reflexivity.
    + apply triple_ret. intros a _. discriminate.
  - intros _. apply triple_ret. auto.
Qed.

(** C2. An agent whose skill is used gets [success = false] from
    [use_skill], whatever its role, the parameters, the backend and the
    generator, and no call is made.  When a call of [use_skill] returns
    [success = true], [skill_used] is true afterwards; it stays true
    through any sequence of plays (every method but [update_status], in
    any world), and [use_skill] after them returns [success = false]. *)
Theorem skill_latch
  (json_dumps : string -> Z -> KnowledgeBase -> Context -> string)
  (W : World) (w : wstate W) (a : Agent) (skill_params : option SkillParams) :
  (skill_used a = true ->
     run W (use_skill json_dumps skill_params a) w = ((Returned cannot_use_skill, a), w, []) /\
     sr_success cannot_use_skill = false) /\
  (forall r : SkillResult,
     result_of (run W (use_skill json_dumps skill_params a) w) = Returned r ->
     sr_success r = true ->
     let a1 := agent_after (run W (use_skill json_dumps skill_params a) w) in
     skill_used a1 = true /\
     forall (W' : World) (w' : wstate W') (plays : list play)
            (later_params : option SkillParams),
       let later := run W' (session json_dumps plays a1) w' in
       skill_used (agent_after later) = true /\
       run W' (use_skill json_dumps later_params (agent_after later)) (world_after later)
       = ((Returned cannot_use_skill, agent_after later), world_after later, [])).
Proof.
  split.
  - intros Hused. rewrite use_skill_spent by assumption. split; reflexivity.
  - intros r Hr Hsuccess a1.
    assert (Hlatched : skill_used a1 = true).
    { pose proof (run_leaves any_reply W _ _ (world_obeys_any W)
                    (use_skill_latches json_dumps any_reply skill_params a Logic.I) w)
        as H.
      cbn beta in H. unfold result_of in Hr. rewrite Hr in H. apply H, Hsuccess. }
    split; [ exact Hlatched | ].
    intros W' w' plays later_params later.
    assert (Hlater : skill_used (agent_after later) = true).
    { exact (run_leaves any_reply W' _ _ (world_obeys_any W')
               (keeps_session json_dumps any_reply _ skill_used_stable plays a1 Hlatched)
               w'). }
    split; [ exact Hlater | ].
    rewrite use_skill_spent by assumption. reflexivity.
Qed.

Lemma skill_latch_witness :
  let a := new_agent 7 HUNTER None in
  let first := run quiet_world
                 (use_skill sample_json_dumps (Some (mkSkillParams None (Some 0))) a) tt in
  let plays := [PlaySpeak "normal"; PlayUseSkill None; PlayAct "use_skill" (mkKwargs None None None)] in
  let later := run generator_down_world (session sample_json_dumps plays (agent_after first)) tt in
  (exists r, result_of first = Returned r /\ sr_success r = true) /\
  skill_used (agent_after first) = true /\
  skill_used (agent_after later) = true /\
  run generator_down_world (use_skill sample_json_dumps None (agent_after later))
    (world_after later)
  = ((Returned cannot_use_skill, agent_after later), world_after later, []).
Proof.
  intros a first plays later.
  destruct (skill_latch sample_json_dumps quiet_world tt a
              (Some (mkSkillParams None (Some 0)))) as [_ Hlatch].
  destruct (Hlatch (mkSkillResult true "Hunter chose not to shoot" None None)
              eq_refl eq_refl) as [Hfirst Hlater].
  destruct (Hlater generator_down_world tt plays None) as [Hused Hspent].
  split; [ eexists; split; reflexivity | ].
  split; [ exact Hfirst | ]. split; [ exact Hused | exact Hspent ].
Defined.

(** ** The umbrella dispatcher *)

Lemma act_never_raises
  (json_dumps : string -> Z -> KnowledgeBase -> Context -> string)
  (W : World) (w : wstate W) (a : Agent) (action_type : string) (kwargs : Kwargs) :
  is_returned (result_of (run W (act json_dumps action_type kwargs a) w)).
Proof.
  apply (run_leaves any_reply W (fun r => is_returned (fst r)) _ (world_obeys_any W)).
  unfold act, with_local. apply leaves_pbind.
  match goal with
  | |- leaves _ _ (bind ?m ?f _) =>
      assert (Hsafe : safe any_reply (fun _ => True) (bind m f))
  end.
  { apply safe_bind; [ | intros _; apply safe_gets ].
    apply safe_try_catch.
    - apply triple_trivial.
    - intros e. apply safe_modify. auto. }
  eapply leaves_mono; [ | apply Hsafe; exact I ].
  intros [o s] [_ Ho]. exact Ho.
Qed.

(** Whatever the backend and the agent: when [act] votes for an explicit
    target and the report of the result raises, the result keeps
    [success = true] next to the message of the exception. *)
Lemma act_vote_report_failure
  (json_dumps : string -> Z -> KnowledgeBase -> Context -> string)
  (W : World) (w w' : wstate W) (a : Agent) (target : Z) (e : exn) :
  is_alive a = true ->
  answer_call W (snd (answer_call W w (SubmitVote (player_id a) target)))
    (UpdateAgentAction (player_id a)
       (mkActionResult "vote" true None None (Some target)))
  = (inl e, w') ->
  result_of (run W (act json_dumps "vote" (mkKwargs None (Some target) None) a) w)
  = Returned (mkActionResult "vote" true (Some ("Action failed: " +:+ exn_msg e))
                None (Some target)).
Proof.
  intros Halive Hreport.
  unfold act, with_local, update_result, lift, vote, try_catch, bind, gets, modify,
    perform, ret, result_of.
  cbn. rewrite Halive. cbn.
  destruct (answer_call W w (SubmitVote (player_id a) target)) as [[e0 | []] w1];
    unfold ar_set_vote_target, ar_set_success; cbn in *; rewrite Hreport; reflexivity.
Qed.

(** C3, the failing input.  An alive villager with no generator speaks
    through [act] while the backend refuses the report of the result:
    the speech is made and submitted, [update_agent_action] raises, and
    [act] returns a result that carries the message of the exception with
    [success = true], not the failure result the claim describes. *)
Theorem act_keeps_success_when_report_fails
  (json_dumps : string -> Z -> KnowledgeBase -> Context -> string) :
  let a := new_agent 2 VILLAGER None in
  let t := run report_fails_world (act json_dumps "speak" (mkKwargs None None None) a) tt in
  let speech := "I am player 2, as a villager, I think we need to carefully analyze the current situation."%string in
  result_of t =
    Returned (mkActionResult "speak" true (Some "Action failed: boom"%string)
                (Some speech) None) /\
  calls_of t =
    [GetGameState 2; GetSpeechHistory 2;
     SubmitSpeech 2 speech;
     UpdateAgentAction 2 (mkActionResult "speak" true None (Some speech) None)].
Proof. cbv zeta. split; vm_compute; reflexivity. Qed.

(** ** The simulated fallback *)

Lemma _simulate_ai_response_spec (ok : reply_ok) (prompt : string)
  (context : Context) (a : Agent) :
  leaves ok (fun r => snd r = a /\
                      exists reply, fst r = Returned reply /\
                                    is_simulated a prompt context reply)
    (_simulate_ai_response prompt context a).
Proof.
  unfold _simulate_ai_response, is_simulated, bind, gets. cbn [pbind fst snd].
  destruct (other_players_of (player_id a)
              (default default_roster (ctx_alive_players context)))
    as [ | p others] eqn:E;
    destruct (PyStr.contains "speech" (PyStr.lower prompt)
              || PyStr.contains "speak" (PyStr.lower prompt));
    destruct (PyStr.contains "vote" (PyStr.lower prompt));
    cbn; try intros i; (split; [ reflexivity | ]); eexists; (split; [ reflexivity | ]);
    try reflexivity.
  all: eexists; split; [ | reflexivity ].
  all: apply (nth_mod_In (p :: others) i); discriminate.
Qed.

Lemma plain_prompts :
  (PyStr.contains "speech" (PyStr.lower werewolf_prompt)
   || PyStr.contains "speak" (PyStr.lower werewolf_prompt) = false /\
   PyStr.contains "vote" (PyStr.lower werewolf_prompt) = false) /\
  (PyStr.contains "speech" (PyStr.lower witch_prompt)
   || PyStr.contains "speak" (PyStr.lower witch_prompt) = false /\
   PyStr.contains "vote" (PyStr.lower witch_prompt) = false) /\
  (PyStr.contains "speech" (PyStr.lower seer_prompt)
   || PyStr.contains "speak" (PyStr.lower seer_prompt) = false /\
   PyStr.contains "vote" (PyStr.lower seer_prompt) = false) /\
  (PyStr.contains "speech" (PyStr.lower hunter_prompt)
   || PyStr.contains "speak" (PyStr.lower hunter_prompt) = false /\
   PyStr.contains "vote" (PyStr.lower hunter_prompt) = false).
Proof. repeat split; vm_compute; reflexivity. Qed.

Lemma witch_abstains_on_skill_response (a : Agent) :
  _parse_witch_decision skill_response a = Ret (Returned ("abstain"%string, 0), a).
Proof. apply witch_decision_without_keyword; vm_compute; reflexivity. Qed.

Lemma safe_index_key {A : Type} (ok : reply_ok) (I : Agent -> Prop)
  (key : string) (v : A) :
  safe ok I (index_key key (Some v)).
Proof. apply safe_ret. Qed.

Lemma safe_read_numbers {A : Type} (ok : reply_ok) (I : Agent -> Prop)
  (tokens : list string) (g : list Z -> A) (d : A) :
  safe ok I (try_catch_value_error
               (bind (int_tokens tokens) (fun numbers => ret (g numbers)))
               (ret d)).
Proof.
  intros a Ha. unfold try_catch_value_error, bind. rewrite int_tokens_run.
  cbn [pbind fst snd].
  destruct (parsed_tokens tokens) as [numbers | e] eqn:E; cbn [pbind fst snd ret leaves].
  - split; [ exact Ha | exact Logic.I ].
  - rewrite (parsed_tokens_value_error _ _ E). cbn. split; [ exact Ha | exact Logic.I ].
Qed.

Create HintDb safe.

#[export] Hint Resolve safe_ret safe_gets safe_random_choice safe_index_key
  safe_read_numbers : safe.

Ltac safe_step :=
  match goal with
  | |- safe _ _ (bind _ _) => apply safe_bind; [ | intros ? ]
  | |- safe _ _ (try_catch_value_error _ _) => solve [ apply safe_read_numbers ]
  | |- safe _ _ (try_catch _ _) =>
      apply safe_try_catch; [ repeat keeps_step | intros ? ]
  | |- safe _ _ (modify _) => apply safe_modify; solve [ auto ]
  | |- safe _ _ (match ?x with _ => _ end) => destruct x
  | |- safe _ _ _ => solve [ auto with safe ]
  end.

Section Fallback.

Variable json_dumps : string -> Z -> KnowledgeBase -> Context -> string.
Variable ok : reply_ok.
Variable I : Agent -> Prop.
Hypothesis I_stable : stable I.

(** No generator is configured, or every call to it raises. *)
Hypothesis generator_unavailable :
  forall a cl prompt r,
    I a -> api_client a = Some cl -> ok (Generate cl prompt) r -> raised r = true.

Lemma interact_with_ai_simulated (prompt : string) (context : Context) (a : Agent) :
  I a ->
  leaves ok (fun r => snd r = a /\
                      exists reply, fst r = Returned reply /\
                                    is_simulated a prompt context reply)
    (interact_with_ai json_dumps prompt context a).
Proof using generator_unavailable.
  intros Ha. unfold interact_with_ai, bind, gets. cbn [pbind fst snd].
  destruct (api_client a) as [cl | ] eqn:E; [ | apply _simulate_ai_response_spec ].
  unfold try_catch, _construct_full_prompt, bind, gets, perform, ret.
  cbn [pbind fst snd leaves]. intros r Hr.
  pose proof (generator_unavailable a cl _ r Ha E Hr) as Hraised.
  destruct r as [e | reply]; [ | discriminate Hraised ].
  cbn [pbind fst snd]. apply _simulate_ai_response_spec.
Qed.

Lemma safe_interact_with_ai (prompt : string) (context : Context) :
  safe ok I (interact_with_ai json_dumps prompt context).
Proof using generator_unavailable.
  intros a Ha. eapply leaves_mono; [ | apply interact_with_ai_simulated, Ha ].
  intros [o a'] (Ha' & reply & Ho & _). cbn [fst snd] in *. subst. split; [ exact Ha | exact Logic.I ].
Qed.

Lemma safe_get_current_state : safe ok I get_current_state.
Proof using I_stable.
  destruct I_stable as (I_kb & I_vote & I_latch).
  unfold get_current_state. repeat safe_step.
Qed.

Lemma safe_get_history_speeches : safe ok I get_history_speeches.
Proof using I_stable.
  destruct I_stable as (I_kb & I_vote & I_latch).
  unfold get_history_speeches. repeat safe_step.
Qed.

Lemma safe__parse_vote_decision (response : string) :
  safe ok I (_parse_vote_decision response).
Proof. unfold _parse_vote_decision. repeat safe_step. Qed.

Lemma safe__parse_number_from_response (response : string) :
  safe ok I (_parse_number_from_response response).
Proof. unfold _parse_number_from_response. repeat safe_step. Qed.

Lemma safe_speak (speech_type : string) : safe ok I (speak json_dumps speech_type).
Proof using I_stable generator_unavailable.
  destruct I_stable as (I_kb & I_vote & I_latch).
  pose proof safe_get_current_state. pose proof safe_get_history_speeches.
  unfold speak, _construct_speech_prompt.
  cbn [ctx_game_phase ctx_alive_players ctx_speech_type].
  repeat safe_step; try assumption; apply safe_interact_with_ai.
Qed.

Lemma safe_vote (target_id : option Z) : safe ok I (vote json_dumps target_id).
Proof using I_stable generator_unavailable.
  destruct I_stable as (I_kb & I_vote & I_latch).
  unfold vote, _construct_vote_prompt.
  cbn [ctx_game_phase ctx_alive_players ctx_speech_type].
  repeat safe_step;
    first [ apply safe_interact_with_ai | apply safe__parse_vote_decision ].
Qed.

Lemma safe_resolve_target (skill_params : SkillParams) (prompt : string) :
  safe ok I (resolve_target json_dumps skill_params prompt).
Proof using generator_unavailable.
  unfold resolve_target, _get_skill_context.
  repeat safe_step;
    first [ apply safe_interact_with_ai | apply safe__parse_number_from_response ].
Qed.

(** The witch: the simulated reply to her prompt is the acting
    statement, which names neither potion, so she abstains. *)
Lemma witch_decision_simulated (context : Context) :
  safe ok I (let! ai_response := interact_with_ai json_dumps witch_prompt context in
             let! parsed := _parse_witch_decision ai_response in
             ret (fst parsed, Some (snd parsed))).
Proof using generator_unavailable.
  intros a Ha. unfold bind at 1. apply leaves_pbind.
  eapply leaves_mono; [ | apply interact_with_ai_simulated, Ha ].
  intros [o a'] (Ha' & reply & Ho & Hreply). cbn [fst snd] in *. subst a' o.
  unfold is_simulated in Hreply.
  destruct plain_prompts as (_ & (Hs & Hv) & _). rewrite Hs, Hv in Hreply.
  subst reply. cbn [fst snd]. unfold bind.
  rewrite witch_abstains_on_skill_response.
  cbn [pbind fst snd ret leaves]. split; [ exact Ha | exact Logic.I ].
Qed.

Lemma safe_use_skill (skill_params : option SkillParams) :
  safe ok I (use_skill json_dumps skill_params).
Proof using I_stable generator_unavailable.
  destruct I_stable as (I_kb & I_vote & I_latch).
  unfold use_skill, _use_werewolf_skill, _use_witch_skill, _use_seer_skill,
    _use_hunter_skill, hunter_shoot_at, _get_skill_context.
  repeat first [ apply witch_decision_simulated | apply safe_resolve_target
               | safe_step ].
Qed.

End Fallback.

Lemma no_client_stable : stable (fun a => api_client a = None).
Proof. repeat split; intros; assumption. Qed.

Lemma anything_stable : stable (fun _ => True).
Proof. repeat split. Qed.

Lemma generator_down_world_obeys : world_obeys generator_raises generator_down_world.
Proof. intros w c H. destruct c; try discriminate H. reflexivity. Qed.




(** ** Python string primitives, on examples *)

Example split_example :
  PyStr.split "  poison 2   please " = ["poison"; "2"; "please"]%string.
Proof. reflexivity. Qed.

Example str_of_list_example : PyStr.str_of_list_Z [1; 2; -3] = "[1, 2, -3]"%string.
Proof. reflexivity. Qed.

Example isdigit_superscript :
  PyStr.isdigit PyStr.superscript_two = true /\
  PyStr.isdecimal PyStr.superscript_two = false.
Proof. split; reflexivity. Qed.

Example lower_example : PyStr.lower "I will SAVE 4" = "i will save 4"%string.
Proof. reflexivity. Qed.

(** The numeric extraction of the skill handlers. *)
Example number_examples (a : Agent) :
  _parse_number_from_response "I choose 3" a = Ret (Returned 3, a) /\
  _parse_number_from_response "no numbers here" a = Ret (Returned 0, a) /\
  _parse_number_from_response "7 or 8" a = Ret (Returned 7, a) /\
  _parse_number_from_response "player 012 then 4" a = Ret (Returned 12, a).
Proof. repeat split. Qed.

(** * Further properties of the agent *)

(** ** Fetching the speech history *)

(** X1. A history fetch makes one call.  When it succeeds the history is
    returned and replaces the cached one, and no other entry of the
    knowledge base changes.  When it fails the method returns the empty
    list, not the cached history, and the agent stays as it was. *)
Theorem history_fetch_caches_or_keeps (W : World) (w : wstate W) (a : Agent) :
  let t := run W (get_history_speeches a) w in
  let kb := knowledge_base a in
  let kb' := knowledge_base (agent_after t) in
  calls_of t = [GetSpeechHistory (player_id a)] /\
  kb_game_phase kb' = kb_game_phase kb /\
  kb_current_round kb' = kb_current_round kb /\
  kb_vote_history kb' = kb_vote_history kb /\
  kb_death_info kb' = kb_death_info kb /\
  kb_alive_players kb' = kb_alive_players kb /\
  match fst (answer_call W w (GetSpeechHistory (player_id a))) with
  | inr history =>
      result_of t = Returned history /\
      kb_history_speeches kb' = history /\
      agent_after t = set_knowledge_base kb' a
  | inl e =>
      result_of t = Returned [] /\ agent_after t = a
  end.
Proof.
  cbv zeta. unfold get_history_speeches, try_catch, bind, gets, perform, modify, ret,
    result_of, agent_after, calls_of.
  cbn [pbind fst snd run].
  destruct (answer_call W w (GetSpeechHistory (player_id a))) as [[e | history] w'];
    cbn; repeat split.
Qed.

(** ** Asking a configured generator *)



(** ** Skills with an explicit target *)









(** ** What [use_skill] does to the agent *)

Lemma skill_handlers_keep_agent
  (json_dumps : string -> Z -> KnowledgeBase -> Context -> string)
  (ok : reply_ok) (a : Agent) (r : Role) (skill_params : SkillParams) :
  keeps ok (fun s => s = a)
    (match r with
     | WEREWOLF => _use_werewolf_skill json_dumps skill_params
     | WITCH => _use_witch_skill json_dumps skill_params
     | SEER => _use_seer_skill json_dumps skill_params
     | HUNTER => _use_hunter_skill json_dumps skill_params
     | VILLAGER => ret (mkSkillResult false EmptyString None None)
     end).
Proof.
  unfold _use_werewolf_skill, _use_witch_skill, _use_seer_skill,
    _use_hunter_skill, hunter_shoot_at, _get_skill_context.
  repeat keeps_step;
    first [ apply keeps_resolve_target | apply keeps_interact_with_ai
          | apply keeps__parse_witch_decision ].
Qed.

(** X12. [use_skill] changes nothing in the agent but [skill_used], and
    sets it exactly when it returns a success: after a failure result or
    an exception the agent is as before, so a skill that failed at the
    backend can be tried again. *)
Theorem use_skill_only_sets_the_latch
  (json_dumps : string -> Z -> KnowledgeBase -> Context -> string)
  (W : World) (w : wstate W) (a : Agent) (skill_params : option SkillParams) :
  let t := run W (use_skill json_dumps skill_params a) w in
  match result_of t with
  | Returned r => agent_after t = if sr_success r then set_skill_used true a else a
  | Raised _ => agent_after t = a
  end.
Proof.
  cbv zeta.
  apply (run_leaves any_reply W
           (fun r => match fst r with
                     | Returned res =>
                         snd r = if sr_success res then set_skill_used true a else a
                     | Raised _ => snd r = a
                     end) _ (world_obeys_any W)).
  unfold use_skill, bind, gets. cbn [pbind fst snd].
  destruct (negb (is_alive a) || skill_used a); [ reflexivity | ].
  apply leaves_pbind.
  eapply leaves_mono;
    [ | apply (skill_handlers_keep_agent json_dumps any_reply a); reflexivity ].
  intros [[res | e] s] Hs; cbn [fst snd] in *; subst s; [ | reflexivity ].
  destruct (sr_success res) eqn:E; cbn; rewrite E; reflexivity.
Qed.

(** ** [act] on the edges *)

(** X16. A dead agent still goes through [act]: the backend receives one
    report.  Speaking is reported as a success with empty content and
    voting as a success with target [-1]; only the skill is reported as a
    failure.  When the report raises, the message of the exception is
    added to the result. *)
Theorem act_on_dead_agent
  (json_dumps : string -> Z -> KnowledgeBase -> Context -> string)
  (W : World) (w : wstate W) (a : Agent) (kwargs : Kwargs) :
  is_alive a = false ->
  let report r := answer_call W w (UpdateAgentAction (player_id a) r) in
  let failure r :=
    match fst (report r) with
    | inl e => Some ("Action failed: " +:+ exn_msg e)%string
    | inr _ => ar_message r
    end in
  let spoken := mkActionResult "speak" true None (Some EmptyString) None in
  let voted := mkActionResult "vote" true None None (Some (-1)) in
  let skipped := mkActionResult "use_skill" false (Some "Cannot use skill"%string) None None in
  run W (act json_dumps "speak" kwargs a) w =
    ((Returned (mkActionResult "speak" true (failure spoken) (Some EmptyString) None), a),
     snd (report spoken), [UpdateAgentAction (player_id a) spoken]) /\
  run W (act json_dumps "vote" kwargs a) w =
    ((Returned (mkActionResult "vote" true (failure voted) None (Some (-1))), a),
     snd (report voted), [UpdateAgentAction (player_id a) voted]) /\
  run W (act json_dumps "use_skill" kwargs a) w =
    ((Returned (mkActionResult "use_skill" false (failure skipped) None None), a),
     snd (report skipped), [UpdateAgentAction (player_id a) skipped]).
Proof.
  intros Hdead. cbv zeta.
  unfold act, with_local, update_result, lift, try_catch, bind, gets, modify, perform, ret.
  repeat split.
  - change (String.eqb "speak" "speak") with true. cbv iota.
    unfold speak, bind, gets. cbn [pbind fst snd]. rewrite Hdead.
    cbn [negb ret pbind fst snd run ar_set_success ar_set_content ar_action_type
         ar_success ar_message ar_content ar_vote_target].
    destruct (answer_call W w _) as [[e | []] w']; reflexivity.
  - change (String.eqb "vote" "speak") with false.
    change (String.eqb "vote" "vote") with true. cbv iota.
    unfold vote, bind, gets. cbn [pbind fst snd]. rewrite Hdead.
    cbn [negb ret pbind fst snd run ar_set_success ar_set_vote_target ar_action_type
         ar_success ar_message ar_content ar_vote_target].
    destruct (answer_call W w _) as [[e | []] w']; reflexivity.
  - change (String.eqb "use_skill" "speak") with false.
    change (String.eqb "use_skill" "vote") with false.
    change (String.eqb "use_skill" "use_skill") with true. cbv iota.
    unfold use_skill, bind, gets. cbn [pbind fst snd]. rewrite Hdead.
    cbn [negb orb ret pbind fst snd run ar_set_success ar_set_message ar_action_type
         ar_success ar_message ar_content ar_vote_target cannot_use_skill
         sr_success sr_message].
    destruct (answer_call W w _) as [[e | []] w']; reflexivity.
Qed.

Lemma act_on_dead_agent_witness :
  let a := set_is_alive false (new_agent 8 VILLAGER None) in
  is_alive a = false /\
  run report_fails_world (act sample_json_dumps "speak" (mkKwargs None None None) a) tt =
    ((Returned (mkActionResult "speak" true (Some "Action failed: boom"%string)
                  (Some EmptyString) None), a),
     tt, [UpdateAgentAction 8 (mkActionResult "speak" true None (Some EmptyString) None)]).
Proof.
  split; [ reflexivity | ].
  exact (proj1 (act_on_dead_agent sample_json_dumps report_fails_world tt
                  (set_is_alive false (new_agent 8 VILLAGER None))
                  (mkKwargs None None None) eq_refl)).
Defined.

(** X17. An action type other than ["speak"], ["vote"] and ["use_skill"] is
    not rejected: [act] calls no method of the agent, reports a result
    with [success = false] and no message to the backend, and returns it,
    with the message of the exception when the report raises. *)
Theorem act_on_unknown_action
  (json_dumps : string -> Z -> KnowledgeBase -> Context -> string)
  (W : World) (w : wstate W) (a : Agent) (action_type : string) (kwargs : Kwargs) :
  action_type <> "speak"%string -> action_type <> "vote"%string ->
  action_type <> "use_skill"%string ->
  let blank := mkActionResult action_type false None None None in
  let report := answer_call W w (UpdateAgentAction (player_id a) blank) in
  run W (act json_dumps action_type kwargs a) w =
  ((Returned (mkActionResult action_type false
                (match fst report with
                 | inl e => Some ("Action failed: " +:+ exn_msg e)%string
                 | inr _ => None
                 end) None None), a),
   snd report, [UpdateAgentAction (player_id a) blank]).
Proof.
  intros Hspeak Hvote Hskill. cbv zeta.
  apply String.eqb_neq in Hspeak, Hvote, Hskill.
  unfold act, with_local, update_result, lift, try_catch, bind, gets, modify, perform, ret.
  rewrite Hspeak, Hvote, Hskill.
  cbn [pbind fst snd run ar_set_message ar_action_type ar_success ar_message
       ar_content ar_vote_target].
  destruct (answer_call W w _) as [[e | []] w']; reflexivity.
Qed.

Lemma act_on_unknown_action_witness :
  let a := new_agent 8 VILLAGER None in
  ("dance" <> "speak" /\ "dance" <> "vote" /\ "dance" <> "use_skill")%string /\
  run quiet_world (act sample_json_dumps "dance" (mkKwargs None None None) a) tt =
  ((Returned (mkActionResult "dance" false None None None), a),
   tt, [UpdateAgentAction 8 (mkActionResult "dance" false None None None)]).
Proof.
  split; [ repeat split; discriminate | ].
  apply (act_on_unknown_action sample_json_dumps quiet_world tt
           (new_agent 8 VILLAGER None) "dance" (mkKwargs None None None));
    discriminate.
Defined.

(** ** Numbers read in a reply *)

Lemma decimal_char_value (c : ascii) :
  PyStr.isdecimal_char c = true -> 0 <= Z.of_N (PyStr.ord c) - 48 <= 9.
Proof.
  unfold PyStr.isdecimal_char. intros H. apply andb_prop in H. destruct H as [Hlo Hhi].
  apply N.leb_le in Hlo. apply N.leb_le in Hhi. lia.
Qed.

Lemma digits_value_bounds (s : string) (acc : Z) :
  PyStr.all_chars PyStr.isdecimal_char s = true -> 0 <= acc ->
  acc * 10 ^ Z.of_nat (String.length s) <= PyStr.digits_value s acc
  < (acc + 1) * 10 ^ Z.of_nat (String.length s).
Proof.
  revert acc. induction s as [ | c s IH]; intros acc Hs Hacc.
  - cbn [String.length PyStr.digits_value]. change (10 ^ Z.of_nat 0) with 1. lia.
  - cbn [PyStr.all_chars] in Hs. apply andb_prop in Hs. destruct Hs as [Hc Hs].
    pose proof (decimal_char_value c Hc) as Hd.
    cbn [String.length PyStr.digits_value].
    rewrite Nat2Z.inj_succ, Z.pow_succ_r by lia.
    assert (Hacc' : 0 <= 10 * acc + (Z.of_N (PyStr.ord c) - 48)) by lia.
    pose proof (IH _ Hs Hacc') as Hrec.
    assert (Hpow : 0 < 10 ^ Z.of_nat (String.length s))
      by (apply Z.pow_pos_nonneg; lia).
    nia.
Qed.

Lemma int_accepts_bounds (s : string) :
  int_accepts s = true ->
  0 <= PyStr.digits_value s 0 < 10 ^ Z.of_nat PyStr.max_str_digits.
Proof.
  unfold int_accepts. intros H. apply andb_prop in H. destruct H as [Hdec Hlen].
  apply Nat.leb_le in Hlen.
  pose proof (digits_value_bounds s 0 (isdecimal_all_chars s Hdec) (Z.le_refl 0)) as Hb.
  assert (Hpow : 10 ^ Z.of_nat (String.length s) <= 10 ^ Z.of_nat PyStr.max_str_digits)
    by (apply Z.pow_le_mono_r; lia).
  lia.
Qed.

Lemma parsed_tokens_bounds (tokens : list string) (numbers : list Z) :
  parsed_tokens tokens = Returned numbers ->
  Forall (fun n => 0 <= n < 10 ^ Z.of_nat PyStr.max_str_digits) numbers.
Proof.
  revert numbers. induction tokens as [ | s rest IH]; simpl; intros numbers H.
  - injection H as <-. constructor.
  - destruct (PyStr.isdigit s); [ | apply IH, H ].
    destruct (int_of_digits s) as [n | e] eqn:Hs; [ | discriminate ].
    destruct (parsed_tokens rest) as [ns | e]; [ | discriminate ].
    injection H as <-. constructor; [ | apply IH; reflexivity ].
    pose proof (int_of_digits_returned s n Hs) as Hok.
    rewrite (int_of_digits_accepted s Hok) in Hs. injection Hs as <-.
    exact (int_accepts_bounds s Hok).
Qed.

(** X18. The number a skill handler reads in a reply: the parse makes no
    call, does not raise and does not change the agent, and the target it
    gives is never negative and has at most 4300 digits.  When every
    token that [isdigit] accepts is one that [int] converts, the target is
    the first of them (0 if there is none); it is 0 as soon as one such
    token is refused by [int], because it is not a decimal number or
    because it has more than 4300 digits, even if a number came before
    it. *)
Theorem skill_target_is_never_negative (response : string) (a : Agent) :
  exists n : Z,
    _parse_number_from_response response a = Ret (Returned n, a) /\
    0 <= n < 10 ^ Z.of_nat PyStr.max_str_digits /\
    (digit_tokens_convert response = true -> n = first_number response) /\
    (digit_tokens_convert response = false -> n = 0).
Proof.
  rewrite _parse_number_from_response_run. eexists. split; [ reflexivity | ].
  assert (Hzero : 0 <= 0 < 10 ^ Z.of_nat PyStr.max_str_digits)
    by (split; [ lia | apply Z.pow_pos_nonneg; lia ]).
  unfold digit_tokens_convert, first_number.
  destruct (parsed_tokens (PyStr.split response)) as [numbers | e] eqn:E.
  - pose proof (parsed_tokens_bounds _ _ E) as Hpos. split; [ | split ].
    + destruct Hpos; simpl; [ exact Hzero | assumption ].
    + intros Hdec. rewrite (parsed_tokens_convert _ Hdec) in E.
      injection E as <-. reflexivity.
    + intros Hdec.
      rewrite (parsed_tokens_returned_convert _ _ E) in Hdec. discriminate.
  - split; [ exact Hzero | ]. split; [ | reflexivity ].
    intros Hdec. rewrite (parsed_tokens_convert _ Hdec) in E. discriminate.
Qed.

Lemma skill_target_is_never_negative_witness :
  let a := new_agent 6 HUNTER None in
  let reply := ("shoot 4 " +:+ PyStr.superscript_two)%string in
  let long_reply := ("shoot 4 " +:+ ones 4301)%string in
  (digit_tokens_convert "shoot 4 or 2" = true /\
   _parse_number_from_response "shoot 4 or 2" a = Ret (Returned 4, a)) /\
  (digit_tokens_convert reply = false /\
   _parse_number_from_response reply a = Ret (Returned 0, a)) /\
  (digit_tokens_convert long_reply = false /\
   _parse_number_from_response long_reply a = Ret (Returned 0, a)).
Proof.
  intros a reply long_reply.
  assert (H1 : digit_tokens_convert "shoot 4 or 2" = true) by (vm_compute; reflexivity).
  assert (H2 : digit_tokens_convert reply = false) by (vm_compute; reflexivity).
  assert (H3 : digit_tokens_convert long_reply = false) by (vm_compute; reflexivity).
  split; [ | split ].
  - split; [ exact H1 | ].
    destruct (skill_target_is_never_negative "shoot 4 or 2" a)
      as (n & Hrun & _ & Hfirst & _).
    rewrite Hrun, (Hfirst H1). reflexivity.
  - split; [ exact H2 | ].
    destruct (skill_target_is_never_negative reply a) as (n & Hrun & _ & _ & Hzero).
    rewrite Hrun, (Hzero H2). reflexivity.
  - split; [ exact H3 | ].
    destruct (skill_target_is_never_negative long_reply a)
      as (n & Hrun & _ & _ & Hzero).
    rewrite Hrun, (Hzero H3). reflexivity.
Defined.

(** X19. A vote read in a reply.  When the reply has an all-digit token and
    every such token is one that [int] converts (decimal digits only, at
    most 4300 of them), the vote is the first of them, taken as it is: no
    call, no draw, and no check that the id is in the roster or differs
    from the agent's own.  When [int] refuses some token that [isdigit]
    accepts, because it is not a decimal number or because it has more
    than 4300 digits, the reply is treated like a reply without any text,
    even if a number came first. *)
Theorem vote_parse_takes_first_number (reply : string) (a : Agent) :
  (digit_tokens_convert reply = true ->
   existsb PyStr.isdigit (PyStr.split reply) = true ->
   _parse_vote_decision reply a = Ret (Returned (first_number reply), a)) /\
  (digit_tokens_convert reply = false ->
   _parse_vote_decision reply a = _parse_vote_decision EmptyString a).
Proof.
  unfold digit_tokens_convert, first_number. split.
  - intros Hdec Hsome.
    unfold _parse_vote_decision, try_catch_value_error, bind.
    rewrite int_tokens_run, (parsed_tokens_convert _ Hdec). cbn [pbind fst snd ret].
    destruct (List.filter PyStr.isdigit (PyStr.split reply)) as [ | s l] eqn:E.
    + exfalso. clear -Hsome E. induction (PyStr.split reply) as [ | t ts IH];
        simpl in *; [ discriminate | ].
      destruct (PyStr.isdigit t); [ discriminate | auto ].
    + reflexivity.
  - intros Hdec.
    unfold _parse_vote_decision, try_catch_value_error, bind.
    rewrite !int_tokens_run.
    destruct (parsed_tokens (PyStr.split reply)) as [numbers | e] eqn:E.
    + rewrite (parsed_tokens_returned_convert _ _ E) in Hdec. discriminate.
    + cbn [pbind fst snd]. rewrite (parsed_tokens_value_error _ _ E). reflexivity.
Qed.

Lemma vote_parse_takes_first_number_witness :
  let a := with_roster [1; 2; 3] (new_agent 7 SEER None) in
  let long_reply := ("I vote 7 not " +:+ ones 4301)%string in
  ((digit_tokens_convert "I vote 7 not 2" = true /\
    existsb PyStr.isdigit (PyStr.split "I vote 7 not 2") = true) /\
   _parse_vote_decision "I vote 7 not 2" a = Ret (Returned 7, a)) /\
  (digit_tokens_convert long_reply = false /\
   run quiet_world (_parse_vote_decision long_reply a) tt
   = run quiet_world (_parse_vote_decision EmptyString a) tt).
Proof.
  intros a long_reply.
  assert (H1 : digit_tokens_convert "I vote 7 not 2" = true) by (vm_compute; reflexivity).
  assert (H2 : existsb PyStr.isdigit (PyStr.split "I vote 7 not 2") = true)
    by (vm_compute; reflexivity).
  assert (H3 : digit_tokens_convert long_reply = false) by (vm_compute; reflexivity).
  split.
  - split; [ split; assumption | ].
    exact (proj1 (vote_parse_takes_first_number "I vote 7 not 2" a) H1 H2).
  - split; [ exact H3 | ].
    rewrite (proj2 (vote_parse_takes_first_number long_reply a) H3). reflexivity.
Defined.

(** ** Computations and the calls they make *)

Lemma traced_mono {A : Type} (ok : reply_ok) (P Q : list call -> A -> Prop) (p : prog A) :
  (forall tr a, P tr a -> Q tr a) -> traced ok P p -> traced ok Q p.
Proof.
  revert P Q. induction p as [a | c k IH | n k IH]; simpl; intros P Q HPQ.
  - apply HPQ.
  - intros Hk r Hr. eapply IH; [ | apply Hk, Hr ]. intros tr a. apply HPQ.
  - intros Hk i. eapply IH; [ | apply Hk ]. exact HPQ.
Qed.

Lemma traced_pbind {A B : Type} (ok : reply_ok) (Q : list call -> B -> Prop)
  (p : prog A) (f : A -> prog B) :
  traced ok (fun tr1 a => traced ok (fun tr2 b => Q (tr1 ++ tr2) b) (f a)) p ->
  traced ok Q (pbind p f).
Proof.
  revert Q. induction p as [a | c k IH | n k IH]; simpl; intros Q.
  - trivial.
  - intros Hk r Hr. apply IH. apply Hk, Hr.
  - intros Hk i. apply IH, Hk.
Qed.

Lemma run_traced {A : Type} (ok : reply_ok) (W : World) (P : list call -> A -> Prop)
  (p : prog A) :
  world_obeys ok W -> traced ok P p ->
  forall w, P (snd (run W p w)) (fst (fst (run W p w))).
Proof.
  intros HW. revert P. induction p as [a | c k IH | n k IH]; simpl; intros P Hp w.
  - exact Hp.
  - apply (IH _ (fun tr => P (c :: tr))). apply Hp, HW.
  - apply IH, Hp.
Qed.

(** A computation that makes no call. *)
Lemma traced_silent {A : Type} (ok : reply_ok) (P : A -> Prop) (p : prog A) :
  calls_within (fun _ => false) p -> leaves ok P p ->
  traced ok (fun tr a => tr = [] /\ P a) p.
Proof.
  induction p as [a | c k IH | n k IH]; simpl.
  - auto.
  - intros [Hc _]. discriminate Hc.
  - intros Hq Hl i. apply IH; [ apply Hq | apply Hl ].
Qed.

Lemma traced_bind {S A B : Type} (ok : reply_ok) (m : M S A) (f : A -> M S B) (s : S)
  (Q : list call -> outcome B * S -> Prop) :
  traced ok (fun tr1 r =>
               match fst r with
               | Returned v => traced ok (fun tr2 r2 => Q (tr1 ++ tr2) r2) (f v (snd r))
               | Raised e => Q tr1 (Raised e, snd r)
               end) (m s) ->
  traced ok Q (bind m f s).
Proof.
  intros H. unfold bind. apply traced_pbind.
  eapply traced_mono; [ | exact H ].
  intros tr [[v | e] s'] Hr; cbn [fst snd] in *; [ exact Hr | ].
  simpl. rewrite app_nil_r. exact Hr.
Qed.

Lemma traced_try_catch {S A : Type} (ok : reply_ok) (body : M S A)
  (handler : exn -> M S A) (s : S) (Q : list call -> outcome A * S -> Prop) :
  traced ok (fun tr1 r =>
               match fst r with
               | Returned v => Q tr1 (Returned v, snd r)
               | Raised e => traced ok (fun tr2 r2 => Q (tr1 ++ tr2) r2) (handler e (snd r))
               end) (body s) ->
  traced ok Q (try_catch body handler s).
Proof.
  intros H. unfold try_catch. apply traced_pbind.
  eapply traced_mono; [ | exact H ].
  intros tr [[v | e] s'] Hr; cbn [fst snd] in *; [ | exact Hr ].
  simpl. rewrite app_nil_r. exact Hr.
Qed.

(** ** The calls of the building blocks *)

Lemma same_but_knowledge_refl (a : Agent) : same_but_knowledge a a.
Proof. destruct a; reflexivity. Qed.

Lemma same_but_knowledge_set (a s : Agent) (kb : KnowledgeBase) :
  same_but_knowledge a s -> same_but_knowledge a (set_knowledge_base kb s).
Proof. unfold same_but_knowledge. intros ->. destruct a; reflexivity. Qed.

Lemma same_but_knowledge_fields (a s : Agent) :
  same_but_knowledge a s ->
  player_id s = player_id a /\ role s = role a /\ api_client s = api_client a /\
  is_alive s = is_alive a /\ vote_target s = vote_target a /\
  skill_used s = skill_used a.
Proof. unfold same_but_knowledge. intros ->. repeat split. Qed.

Lemma get_current_state_traced (ok : reply_ok) (a s : Agent) :
  same_but_knowledge a s ->
  traced ok (fun tr r => tr = [GetGameState (player_id a)] /\ is_returned (fst r) /\
                         same_but_knowledge a (snd r))
    (get_current_state s).
Proof.
  intros Hs. destruct (same_but_knowledge_fields a s Hs) as (Hpid & _).
  unfold get_current_state, try_catch, bind, gets, perform, modify, ret.
  cbn [pbind fst snd traced]. rewrite Hpid. intros [e | state] _; cbn.
  - repeat split. exact Hs.
  - repeat split. repeat apply same_but_knowledge_set. exact Hs.
Qed.

Lemma get_history_speeches_traced (ok : reply_ok) (a s : Agent) :
  same_but_knowledge a s ->
  traced ok (fun tr r => tr = [GetSpeechHistory (player_id a)] /\ is_returned (fst r) /\
                         same_but_knowledge a (snd r))
    (get_history_speeches s).
Proof.
  intros Hs. destruct (same_but_knowledge_fields a s Hs) as (Hpid & _).
  unfold get_history_speeches, try_catch, bind, gets, perform, modify, ret.
  cbn [pbind fst snd traced]. rewrite Hpid. intros [e | history] _; cbn.
  - repeat split. exact Hs.
  - repeat split. apply same_but_knowledge_set. exact Hs.
Qed.

Lemma _simulate_ai_response_traced (ok : reply_ok) (prompt : string)
  (context : Context) (a : Agent) :
  traced ok (fun tr r => tr = [] /\ snd r = a /\
                         exists reply, fst r = Returned reply /\
                                       is_simulated a prompt context reply)
    (_simulate_ai_response prompt context a).
Proof.
  apply traced_silent.
  - apply _simulate_ai_response_calls.
  - apply _simulate_ai_response_spec.
Qed.

Lemma interact_with_ai_traced
  (json_dumps : string -> Z -> KnowledgeBase -> Context -> string)
  (ok : reply_ok) (prompt : string) (context : Context) (a : Agent) :
  traced ok (fun tr r => snd r = a /\ is_returned (fst r) /\ asks_at_most_once a tr)
    (interact_with_ai json_dumps prompt context a).
Proof.
  unfold interact_with_ai, bind, gets. cbn [pbind fst snd].
  destruct (api_client a) as [cl | ] eqn:E.
  - unfold try_catch, _construct_full_prompt, bind, gets, perform, ret.
    cbn [pbind fst snd traced]. intros [e | reply] _; cbn [pbind fst snd].
    + eapply traced_mono; [ | apply _simulate_ai_response_traced ].
      intros tr [o s] (-> & Hs & reply & Ho & _). cbn [fst snd] in *. subst.
      repeat split. right. exists cl. eexists. split; [ exact E | reflexivity ].
    + cbn. repeat split. right. exists cl. eexists. split; [ exact E | reflexivity ].
  - eapply traced_mono; [ | apply _simulate_ai_response_traced ].
    intros tr [o s] (-> & Hs & reply & Ho & _). cbn [fst snd] in *. subst.
    repeat split. left. reflexivity.
Qed.

Lemma _parse_vote_decision_calls (response : string) :
  quiet (fun _ => false) (_parse_vote_decision response).
Proof. unfold _parse_vote_decision. repeat quiet_step. Qed.

Lemma _parse_vote_decision_traced (ok : reply_ok) (response : string) (a : Agent) :
  traced ok (fun tr r => tr = [] /\ snd r = a /\ is_returned (fst r))
    (_parse_vote_decision response a).
Proof.
  eapply traced_mono;
    [ | apply traced_silent;
        [ apply _parse_vote_decision_calls
        | apply (safe__parse_vote_decision ok (fun s => s = a) response a eq_refl) ] ].
  intros tr [o s] (-> & Hs & Ho). cbn [fst snd] in *. auto.
Qed.

Ltac traced_read :=
  apply traced_bind;
  cbn [gets ret index_key traced fst snd
       ctx_game_phase ctx_alive_players ctx_speech_type].

Lemma asks_at_most_once_same (a s : Agent) (asked : list call) :
  same_but_knowledge a s -> asks_at_most_once s asked -> asks_at_most_once a asked.
Proof.
  intros Hs [-> | (cl & p & Hcl & ->)]; [ left; reflexivity | ].
  destruct (same_but_knowledge_fields a s Hs) as (_ & _ & Hclient & _).
  right. exists cl, p. split; [ congruence | reflexivity ].
Qed.

(** ** The calls of [speak] and [vote] *)





(** ** When [use_skill] can raise *)

Lemma safe__simulate_ai_response (ok : reply_ok) (I : Agent -> Prop)
  (prompt : string) (context : Context) :
  safe ok I (_simulate_ai_response prompt context).
Proof. unfold _simulate_ai_response. repeat safe_step. Qed.

Lemma safe_interact_with_ai_always
  (json_dumps : string -> Z -> KnowledgeBase -> Context -> string)
  (ok : reply_ok) (I : Agent -> Prop) (prompt : string) (context : Context) :
  safe ok I (interact_with_ai json_dumps prompt context).
Proof.
  pose proof (safe__simulate_ai_response ok I prompt context).
  unfold interact_with_ai, _construct_full_prompt. repeat safe_step; assumption.
Qed.

Lemma safe_resolve_target_always
  (json_dumps : string -> Z -> KnowledgeBase -> Context -> string)
  (ok : reply_ok) (I : Agent -> Prop) (skill_params : SkillParams) (prompt : string) :
  safe ok I (resolve_target json_dumps skill_params prompt).
Proof.
  unfold resolve_target, _get_skill_context.
  repeat safe_step;
    first [ apply safe_interact_with_ai_always
          | apply safe__parse_number_from_response ].
Qed.

Lemma safe_targeted_handlers
  (json_dumps : string -> Z -> KnowledgeBase -> Context -> string)
  (ok : reply_ok) (I : Agent -> Prop) (skill_params : SkillParams) :
  safe ok I (_use_werewolf_skill json_dumps skill_params) /\
  safe ok I (_use_seer_skill json_dumps skill_params) /\
  safe ok I (_use_hunter_skill json_dumps skill_params).
Proof.
  unfold _use_werewolf_skill, _use_seer_skill, _use_hunter_skill, hunter_shoot_at.
  repeat split;
    repeat first [ apply safe_resolve_target_always | safe_step ].
Qed.

Lemma safe_witch_with_action
  (json_dumps : string -> Z -> KnowledgeBase -> Context -> string)
  (ok : reply_ok) (I : Agent -> Prop) (skill_params : SkillParams) (action : string) :
  sk_action skill_params = Some action ->
  safe ok I (_use_witch_skill json_dumps skill_params).
Proof.
  intros Haction. unfold _use_witch_skill, _get_skill_context. rewrite Haction.
  repeat safe_step.
Qed.



(** ** Status updates, composed *)

(** X21. Two status updates in a row amount to one update with the union of
    the two dictionaries in which the later one wins on a common key; in
    particular an update applied twice is the update applied once. *)
Theorem update_status_composes (a : Agent) (first second : gmap string pyval) :
  bind (update_status first) (fun _ => update_status second) a =
  update_status (second ∪ first) a /\
  bind (update_status first) (fun _ => update_status first) a = update_status first a.
Proof.
  unfold bind. rewrite !update_status_run. cbn [pbind fst snd].
  rewrite !update_status_run. cbn [player_id role api_client is_alive vote_target
                                     skill_used knowledge_base].
  rewrite !lookup_union.
  split.
  - destruct (first !! "is_alive"%string), (second !! "is_alive"%string),
      (first !! "skill_used"%string), (second !! "skill_used"%string); reflexivity.
  - destruct (first !! "is_alive"%string), (first !! "skill_used"%string); reflexivity.
Qed.

(** X22. A status update that resets [skill_used] gives the skill back: a
    hunter whose skill was used and who is given target 0 succeeds
    again after [update_status] with a false [skill_used]. *)
Theorem status_update_reopens_the_skill
  (json_dumps : string -> Z -> KnowledgeBase -> Context -> string)
  (a : Agent) (new_status : gmap string pyval) (v : pyval) :
  is_alive a = true -> role a = HUNTER ->
  new_status !! "is_alive"%string = None ->
  new_status !! "skill_used"%string = Some v -> truthy v = false ->
  bind (update_status new_status)
       (fun _ => use_skill json_dumps (Some (mkSkillParams None (Some 0)))) a =
  Ret (Returned (mkSkillResult true "Hunter chose not to shoot" None None),
       set_skill_used true a).
Proof.
  intros Halive Hrole Hkey1 Hkey2 Hv.
  unfold bind. rewrite update_status_run, Hkey1, Hkey2. cbn [pbind fst snd from_option].
  rewrite Hv. rewrite hunter_explicit_zero_target
    by (cbn; first [ assumption | reflexivity ]).
  destruct a; reflexivity.
Qed.

Lemma status_update_reopens_the_skill_witness :
  let a := set_skill_used true (new_agent 6 HUNTER None) in
  let new_status : gmap string pyval := <["skill_used"%string := PyInt 0]> ∅ in
  (is_alive a = true /\ role a = HUNTER /\
   new_status !! "is_alive"%string = None /\
   new_status !! "skill_used"%string = Some (PyInt 0) /\ truthy (PyInt 0) = false) /\
  bind (update_status new_status)
       (fun _ => use_skill sample_json_dumps (Some (mkSkillParams None (Some 0)))) a =
  Ret (Returned (mkSkillResult true "Hunter chose not to shoot" None None),
       set_skill_used true a).
Proof.
  intros a new_status.
  assert (H1 : new_status !! "is_alive"%string = None) by (vm_compute; reflexivity).
  assert (H2 : new_status !! "skill_used"%string = Some (PyInt 0))
    by (vm_compute; reflexivity).
  split; [ repeat split; assumption | ].
  exact (status_update_reopens_the_skill sample_json_dumps a new_status (PyInt 0)
           eq_refl eq_refl H1 H2 eq_refl).
Defined.

(** ** The report of [act] *)

Lemma traced_within {A : Type} (ok : reply_ok) (allowed : call -> bool)
  (P : A -> Prop) (p : prog A) :
  calls_within allowed p -> leaves ok P p ->
  traced ok (fun tr a => forallb allowed tr = true /\ P a) p.
Proof.
  induction p as [a | c k IH | n k IH]; simpl.
  - auto.
  - intros [Hc Hk] Hl r Hr.
    eapply traced_mono; [ | apply IH; [ apply Hk | apply Hl, Hr ] ].
    intros tr a [Htr Ha]. simpl. rewrite Hc, Htr. auto.
  - intros Hq Hl i. apply IH; [ apply Hq | apply Hl ].
Qed.

Lemma quiet_index_key {A : Type} (allowed : call -> bool) (key : string) (o : option A) :
  quiet allowed (index_key key o).
Proof. destruct o; [ apply quiet_ret | apply quiet_raise ]. Qed.

#[export] Hint Resolve quiet_index_key : quiet.

Lemma interact_with_ai_never_reports
  (json_dumps : string -> Z -> KnowledgeBase -> Context -> string)
  (prompt : string) (context : Context) :
  quiet not_report (interact_with_ai json_dumps prompt context).
Proof.
  pose proof (_simulate_ai_response_calls not_report prompt context).
  unfold interact_with_ai, _construct_full_prompt. repeat quiet_step; assumption.
Qed.

Lemma methods_never_report
  (json_dumps : string -> Z -> KnowledgeBase -> Context -> string) :
  (forall speech_type, quiet not_report (speak json_dumps speech_type)) /\
  (forall target_id, quiet not_report (vote json_dumps target_id)) /\
  (forall skill_params, quiet not_report (use_skill json_dumps skill_params)).
Proof.
  pose proof (interact_with_ai_never_reports json_dumps) as Hask.
  repeat split; intros x.
  - unfold speak, get_current_state, get_history_speeches, _construct_speech_prompt.
    repeat first [ apply Hask | quiet_step ].
  - unfold vote, _construct_vote_prompt, _parse_vote_decision.
    repeat first [ apply Hask | quiet_step ].
  - unfold use_skill, _use_werewolf_skill, _use_witch_skill, _use_seer_skill,
      _use_hunter_skill, hunter_shoot_at, resolve_target, _get_skill_context,
      _parse_number_from_response, _parse_witch_decision.
    repeat first [ apply Hask | quiet_step ].
Qed.

Lemma player_id_stable (pid : Z) : stable (fun a => player_id a = pid).
Proof. repeat split; intros; assumption. Qed.

Lemma traced_with_local {L A : Type} (ok : reply_ok) (init : L)
  (m : M (Agent * L) A) (a : Agent) (Q : list call -> outcome A * Agent -> Prop) :
  traced ok (fun tr r => Q tr (fst r, fst (snd r))) (m (a, init)) ->
  traced ok Q (with_local init m a).
Proof.
  intros H. unfold with_local. apply traced_pbind.
  eapply traced_mono; [ | exact H ].
  intros tr r Hr. simpl. rewrite app_nil_r. exact Hr.
Qed.

(** A method of the agent run inside [act]: it makes no report, keeps
    the player id, and leaves the local result alone. *)
Lemma lifted_method_traced {V : Type} (ok : reply_ok) (m : M Agent V)
  (a : Agent) (init : ActionResult) :
  quiet not_report m ->
  keeps ok (fun s => player_id s = player_id a) m ->
  traced ok (fun tr r => existsb is_report tr = false /\
                         player_id (fst (snd r)) = player_id a /\
                         snd (snd r) = init)
    (lift m (a, init)).
Proof.
  intros Hquiet Hkeeps. unfold lift. apply traced_pbind. cbn [fst snd].
  eapply traced_mono; [ | apply (traced_within ok not_report _ _ (Hquiet a)
                                   (Hkeeps a eq_refl)) ].
  intros tr [o s] [Htr Hs]. simpl. rewrite app_nil_r. repeat split; [ | exact Hs ].
  clear -Htr. induction tr as [ | c tr IH]; simpl in *; [ reflexivity | ].
  apply andb_prop in Htr. destruct Htr as [Hc Htr]. rewrite (IH Htr).
  unfold not_report in Hc. destruct (is_report c); [ discriminate | reflexivity ].
Qed.

Lemma act_branch_traced
  (json_dumps : string -> Z -> KnowledgeBase -> Context -> string)
  (ok : reply_ok) (a : Agent) (action_type : string) (kwargs : Kwargs) :
  let init := mkActionResult action_type false None None None in
  traced ok (fun tr r => existsb is_report tr = false /\
                         player_id (fst (snd r)) = player_id a /\
                         match fst r with
                         | Returned _ => ar_action_type (snd (snd r)) = action_type
                         | Raised _ => snd (snd r) = init
                         end)
    ((if String.eqb action_type "speak" then
        let speech_type := default "normal"%string (kw_speech_type kwargs) in
        let! content := lift (speak json_dumps speech_type) in
        let! _ := update_result (ar_set_success true) in
        update_result (ar_set_content content)
      else if String.eqb action_type "vote" then
        let target_id := kw_target_id kwargs in
        let! target := lift (vote json_dumps target_id) in
        let! _ := update_result (ar_set_success true) in
        update_result (ar_set_vote_target target)
      else if String.eqb action_type "use_skill" then
        let skill_params := default empty_skill_params (kw_skill_params kwargs) in
        let! skill_result := lift (use_skill json_dumps (Some skill_params)) in
        let! _ := update_result (ar_set_success (sr_success skill_result)) in
        update_result (ar_set_message (sr_message skill_result))
      else ret tt) (a, init)).
Proof.
  intros init.
  destruct (methods_never_report json_dumps) as (Hspeak & Hvote & Hskill).
  pose proof (player_id_stable (player_id a)) as Hstable.
  destruct (String.eqb action_type "speak");
    [ | destruct (String.eqb action_type "vote");
        [ | destruct (String.eqb action_type "use_skill") ] ];
    cbv zeta.
  4: { cbn. repeat split. }
  all: apply traced_bind;
    (eapply traced_mono;
     [ | apply lifted_method_traced;
         [ first [ apply Hspeak | apply Hvote | apply Hskill ]
         | first [ apply keeps_speak | apply keeps_vote | apply keeps_use_skill ];
           exact Hstable ] ]);
    intros tr [[v | e] [s r]] (Htr & Hpid & Hr); cbn [fst snd] in *; subst r;
    [ unfold bind, update_result, modify; cbn; rewrite app_nil_r; repeat split; assumption
    | repeat split; assumption ].
Qed.

(** X15. [act] never raises and returns a result that carries the action
    type it was given.  The report to the backend is made at most once,
    as the last call, for the player of the agent; what is reported is
    what [act] returns, with the message of the exception added when the
    report itself raised.  When the action raised instead, no report is
    made and the result is a failure with the message of the
    exception. *)
Theorem act_reports_once_and_last
  (json_dumps : string -> Z -> KnowledgeBase -> Context -> string)
  (W : World) (w : wstate W) (a : Agent) (action_type : string) (kwargs : Kwargs) :
  let t := run W (act json_dumps action_type kwargs a) w in
  exists (r : ActionResult) (inner : list call),
    result_of t = Returned r /\
    ar_action_type r = action_type /\
    existsb is_report inner = false /\
    ((calls_of t = inner /\ ar_success r = false /\
      exists e : exn, ar_message r = Some ("Action failed: " +:+ exn_msg e)%string)
     \/
     (exists reported : ActionResult,
        calls_of t = inner ++ [UpdateAgentAction (player_id a) reported] /\
        ar_action_type reported = action_type /\
        after_report reported r)).
Proof.
  cbv zeta.
  apply (run_traced any_reply W
           (fun tr res =>
              exists r inner,
                fst res = Returned r /\ ar_action_type r = action_type /\
                existsb is_report inner = false /\
                ((tr = inner /\ ar_success r = false /\
                  exists e : exn, ar_message r = Some ("Action failed: " +:+ exn_msg e)%string)
                 \/
                 (exists reported,
                    tr = inner ++ [UpdateAgentAction (player_id a) reported] /\
                    ar_action_type reported = action_type /\
                    after_report reported r)))
           _ (world_obeys_any W)).
  unfold act. apply traced_with_local. apply traced_bind. apply traced_try_catch.
  apply traced_bind.
  eapply traced_mono; [ | apply (act_branch_traced json_dumps any_reply a action_type kwargs) ].
  intros tr [[[] | e] [s r]] (Htr & Hpid & Hr); cbn [fst snd] in *.
  - unfold bind, gets, perform, ret, update_result, modify. cbn [pbind fst snd traced].
    rewrite Hpid. intros [e | []] _; cbn.
    + exists (ar_set_message ("Action failed: " +:+ exn_msg e) r), tr.
      rewrite !app_nil_r. repeat split; try assumption.
      right. exists r. repeat split; try assumption. right. exists e. reflexivity.
    + exists r, tr. rewrite !app_nil_r. repeat split; try assumption.
      right. exists r. repeat split; try assumption. left. reflexivity.
  - subst r. unfold update_result, modify, gets. cbn.
    exists (ar_set_message ("Action failed: " +:+ exn_msg e)
              (mkActionResult action_type false None None None)), tr.
    rewrite !app_nil_r. repeat split; try assumption.
    left. repeat split. exists e. reflexivity.
Qed.

(** ** An agent without a generator *)

Lemma interact_without_client
  (json_dumps : string -> Z -> KnowledgeBase -> Context -> string)
  (prompt : string) (context : Context) (a : Agent) :
  api_client a = None ->
  interact_with_ai json_dumps prompt context a = _simulate_ai_response prompt context a.
Proof.
  intros Hnone. unfold interact_with_ai, bind, gets. cbn [pbind fst snd].
  rewrite Hnone. reflexivity.
Qed.

Lemma no_number_in_skill_response (a : Agent) :
  _parse_number_from_response skill_response a = Ret (Returned 0, a).
Proof. rewrite _parse_number_from_response_run. vm_compute. reflexivity. Qed.

Lemma resolve_target_unassisted
  (json_dumps : string -> Z -> KnowledgeBase -> Context -> string)
  (ok : reply_ok) (a : Agent) (prompt : string) :
  api_client a = None ->
  PyStr.contains "speech" (PyStr.lower prompt)
  || PyStr.contains "speak" (PyStr.lower prompt) = false ->
  PyStr.contains "vote" (PyStr.lower prompt) = false ->
  traced ok (fun tr r => tr = [] /\ r = (Returned 0, a))
    (resolve_target json_dumps empty_skill_params prompt a).
Proof.
  intros Hnone Hspeech Hvote. unfold resolve_target. cbn [sk_target_id empty_skill_params].
  unfold _get_skill_context. do 4 traced_read.
  apply traced_bind. rewrite interact_without_client by assumption.
  eapply traced_mono; [ | apply _simulate_ai_response_traced ].
  intros tr [o s] (-> & Hs & reply & Ho & Hreply). cbn [fst snd] in *. subst s o.
  unfold is_simulated in Hreply. rewrite Hspeech, Hvote in Hreply. subst reply.
  rewrite no_number_in_skill_response. cbn. split; reflexivity.
Qed.



Lemma contains_app_r (needle a b : string) :
  PyStr.contains needle b = true -> PyStr.contains needle (a +:+ b) = true.
Proof.
  intros Hb. induction a as [ | c a IH]; [ exact Hb | ].
  change (String c a +:+ b)%string with (String c (a +:+ b)).
  cbn [PyStr.contains]. rewrite IH. apply orb_true_r.
Qed.

Lemma lower_app (a b : string) :
  PyStr.lower (a +:+ b) = (PyStr.lower a +:+ PyStr.lower b)%string.
Proof.
  induction a as [ | c a IH]; [ reflexivity | ].
  change (String c a +:+ b)%string with (String c (a +:+ b)).
  cbn [PyStr.lower]. rewrite IH. reflexivity.
Qed.

Lemma contains_lower_app_r (needle a b : string) :
  PyStr.contains needle (PyStr.lower b) = true ->
  PyStr.contains needle (PyStr.lower (a +:+ b)) = true.
Proof. intros Hb. rewrite lower_app. apply contains_app_r, Hb. Qed.

(** Every speech prompt mentions "speech", whatever is written into
    it. *)
Lemma speech_prompt_mentions_speech (context : Context) (a s : Agent) (prompt : string) :
  _construct_speech_prompt context a = Ret (Returned prompt, s) ->
  PyStr.contains "speech" (PyStr.lower prompt) = true.
Proof.
  unfold _construct_speech_prompt, bind, gets, index_key, ret, raise.
  cbn [pbind fst snd].
  destruct (ctx_game_phase context) as [game_phase | ]; cbn [pbind fst snd];
    [ | discriminate ].
  destruct (ctx_alive_players context) as [alive_players | ]; cbn [pbind fst snd];
    [ | discriminate ].
  destruct (ctx_speech_type context) as [speech_type | ]; cbn [pbind fst snd];
    [ | discriminate ].
  intros H. injection H as <- _.
  repeat first [ solve [ vm_compute; reflexivity ] | apply contains_lower_app_r ].
Qed.



(** ** Writing a player id and reading it back *)

Lemma digits_value_uint_acc (d : Decimal.uint) (acc : positive) :
  PyStr.digits_value (NilEmpty.string_of_uint d) (Z.pos acc)
  = Z.pos (Pos.of_uint_acc d acc).
Proof.
  revert acc. induction d; intros acc; cbn [NilEmpty.string_of_uint PyStr.digits_value
                                            Pos.of_uint_acc];
    [ reflexivity | .. ];
    match goal with
    | |- PyStr.digits_value _ ?v = _ =>
        match goal with
        | |- _ = Z.pos (Pos.of_uint_acc _ ?acc') =>
            replace v with (Z.pos acc') by (vm_compute PyStr.ord; lia)
        end
    end; apply IHd.
Qed.

Lemma digits_value_uint (d : Decimal.uint) :
  PyStr.digits_value (NilEmpty.string_of_uint d) 0 = Z.of_N (Pos.of_uint d).
Proof.
  induction d; cbn [NilEmpty.string_of_uint PyStr.digits_value Pos.of_uint];
    [ reflexivity | exact IHd | .. ];
    match goal with
    | |- PyStr.digits_value _ ?v = Z.of_N (N.pos (Pos.of_uint_acc _ ?acc')) =>
        change v with (Z.pos acc')
    end; apply digits_value_uint_acc.
Qed.

Lemma string_of_uint_decimal (d : Decimal.uint) :
  PyStr.all_chars PyStr.isdecimal_char (NilEmpty.string_of_uint d) = true.
Proof. induction d; cbn [NilEmpty.string_of_uint PyStr.all_chars]; auto. Qed.

Lemma decimal_char_is_digit_not_space (c : ascii) :
  PyStr.isdecimal_char c = true ->
  PyStr.isdigit_char c = true /\ PyStr.isspace_char c = false.
Proof.
  destruct c as [[] [] [] [] [] [] [] []]; vm_compute; intros H;
    first [ discriminate H | split; reflexivity ].
Qed.

Lemma split_go_no_space (s : string) (cur : list ascii) :
  PyStr.all_chars PyStr.isdecimal_char s = true ->
  PyStr.split_go s cur = PyStr.flush (rev (list_ascii_of_string s) ++ cur) [].
Proof.
  revert cur. induction s as [ | c s IH]; intros cur Hs; [ reflexivity | ].
  cbn [PyStr.all_chars] in Hs. apply andb_prop in Hs. destruct Hs as [Hc Hs].
  cbn [PyStr.split_go list_ascii_of_string rev].
  rewrite (proj2 (decimal_char_is_digit_not_space c Hc)), (IH _ Hs), <- app_assoc.
  reflexivity.
Qed.

Lemma decimal_text_parses (s : string) :
  int_accepts s = true ->
  parsed_tokens (PyStr.split s) = Returned [PyStr.digits_value s 0].
Proof.
  intros Hok. pose proof Hok as Hdec. unfold int_accepts in Hdec.
  apply andb_prop in Hdec. destruct Hdec as [Hdec _].
  pose proof (isdecimal_all_chars s Hdec) as Hall.
  unfold PyStr.split. rewrite (split_go_no_space s [] Hall), app_nil_r.
  destruct s as [ | c s]; [ discriminate Hdec | ].
  assert (Hflush : PyStr.flush (rev (list_ascii_of_string (String c s))) []
                   = [String c s]).
  { unfold PyStr.flush.
    destruct (rev (list_ascii_of_string (String c s))) as [ | x l] eqn:E.
    - apply (f_equal (@List.length ascii)) in E. rewrite length_rev in E. discriminate E.
    - rewrite <- E, rev_involutive, string_of_list_ascii_of_string. reflexivity. }
  rewrite Hflush. cbn [parsed_tokens]. rewrite (int_of_digits_accepted _ Hok).
  assert (Hdigit : PyStr.isdigit (String c s) = true).
  { clear -Hall. unfold PyStr.isdigit. revert Hall. generalize (String c s).
    induction s0 as [ | x t IH]; cbn [PyStr.all_chars]; [ reflexivity | ].
    intros H. apply andb_prop in H. destruct H as [Hx Ht].
    rewrite (proj1 (decimal_char_is_digit_not_space x Hx)), (IH Ht). reflexivity. }
  rewrite Hdigit. reflexivity.
Qed.

Lemma string_of_pos_text (q : positive) :
  NilZero.string_of_uint (Pos.to_uint q) = NilEmpty.string_of_uint (Pos.to_uint q).
Proof.
  pose proof (DecimalPos.Unsigned.to_uint_nonnil q) as Hnil.
  unfold NilZero.string_of_uint. destruct (Pos.to_uint q); [ contradiction | reflexivity .. ].
Qed.

Lemma str_of_Z_decimal (p : Z) :
  0 <= p ->
  PyStr.isdecimal (PyStr.str_of_Z p) = true /\
  PyStr.digits_value (PyStr.str_of_Z p) 0 = p.
Proof.
  intros Hp. destruct p as [ | q | q]; [ split; reflexivity | | lia ].
  unfold PyStr.str_of_Z. cbn [Z.to_int NilZero.string_of_int].
  pose proof (DecimalPos.Unsigned.to_uint_nonnil q) as Hnil.
  rewrite string_of_pos_text. split.
  - pose proof (string_of_uint_decimal (Pos.to_uint q)) as Hall.
    unfold PyStr.isdecimal.
    destruct (NilEmpty.string_of_uint (Pos.to_uint q)) eqn:E; [ | exact Hall ].
    destruct (Pos.to_uint q); [ contradiction | discriminate E .. ].
  - rewrite digits_value_uint, DecimalPos.Unsigned.of_to. reflexivity.
Qed.

(** The text of a positive number starts with a digit that is not 0, so a
    text of [n + 1] digits stands for a number of at least [10 ^ n]. *)
Lemma pos_text_lower_bound (q : positive) :
  10 ^ Z.of_nat (String.length (NilEmpty.string_of_uint (Pos.to_uint q)))
  <= 10 * PyStr.digits_value (NilEmpty.string_of_uint (Pos.to_uint q)) 0.
Proof.
  pose proof (DecimalPos.Unsigned.to_of (Pos.to_uint q)) as Hnorm.
  rewrite DecimalPos.Unsigned.of_to in Hnorm. cbn [N.to_uint] in Hnorm.
  pose proof (DecimalPos.Unsigned.to_uint_nonnil q) as Hnil.
  pose proof (DecimalPos.Unsigned.to_uint_nonzero q) as Hnz.
  destruct (Pos.to_uint q) as [ | d | d | d | d | d | d | d | d | d | d ];
    [ contradiction | | .. ].
  1: { exfalso. unfold Decimal.unorm in Hnorm. cbn [Decimal.nzhead] in Hnorm.
       destruct (Decimal.nzhead d) eqn:E; try discriminate Hnorm.
       - injection Hnorm as Hd. apply Hnz. rewrite <- Hd. reflexivity.
       - exact (DecimalFacts.nzhead_nonzero d _ E). }
  all: cbn [NilEmpty.string_of_uint String.length PyStr.digits_value];
    match goal with
    | |- context [PyStr.digits_value (NilEmpty.string_of_uint ?u) ?v] =>
        let k := eval vm_compute in v in
        change v with k;
        pose proof (digits_value_bounds (NilEmpty.string_of_uint u) k
                      (string_of_uint_decimal u) ltac:(lia)) as Hb
    end;
    rewrite Nat2Z.inj_succ, Z.pow_succ_r by lia; lia.
Qed.

(** A number below [10 ^ n] is written with at most [n] digits. *)
Lemma str_of_Z_length (p : Z) (n : nat) :
  (1 <= n)%nat -> 0 <= p < 10 ^ Z.of_nat n ->
  (String.length (PyStr.str_of_Z p) <= n)%nat.
Proof.
  intros Hn [Hp Hlt]. destruct p as [ | q | q]; [ exact Hn | | lia ].
  pose proof (proj2 (str_of_Z_decimal (Z.pos q) Hp)) as Hval.
  unfold PyStr.str_of_Z in *. cbn [Z.to_int NilZero.string_of_int] in *.
  rewrite string_of_pos_text in *.
  pose proof (pos_text_lower_bound q) as Hlow. rewrite Hval in Hlow.
  set (len := String.length (NilEmpty.string_of_uint (Pos.to_uint q))) in *.
  destruct (Nat.le_gt_cases len n) as [Hle | Hgt]; [ exact Hle | exfalso ].
  assert (Hpow : 10 ^ Z.of_nat (S n) <= 10 ^ Z.of_nat len)
    by (apply Z.pow_le_mono_r; lia).
  rewrite Nat2Z.inj_succ, Z.pow_succ_r in Hpow by lia. lia.
Qed.

Lemma str_of_Z_accepted (p : Z) :
  0 <= p < 10 ^ Z.of_nat PyStr.max_str_digits -> int_accepts (PyStr.str_of_Z p) = true.
Proof.
  intros Hp. unfold int_accepts.
  rewrite (proj1 (str_of_Z_decimal p (proj1 Hp))). apply Nat.leb_le.
  apply str_of_Z_length; [ | exact Hp ].
  unfold PyStr.max_str_digits. apply Nat.leb_le. reflexivity.
Qed.

(** X20. The id that the simulated vote writes is the id that the vote parse
    and the skill parse read back, for every id that is not negative and
    has at most 4300 digits (an id below [10 ^ 4300]: the numbers that
    [str] writes and [int] converts); a negative id is written with a
    sign, is not all digits, and sends the vote parse to its fallback. *)
Theorem player_id_text_round_trip (p : Z) (a : Agent) :
  (0 <= p < 10 ^ Z.of_nat PyStr.max_str_digits ->
   _parse_vote_decision (PyStr.str_of_Z p) a = Ret (Returned p, a) /\
   _parse_number_from_response (PyStr.str_of_Z p) a = Ret (Returned p, a)) /\
  (- 10 ^ Z.of_nat PyStr.max_str_digits < p < 0 ->
   _parse_vote_decision (PyStr.str_of_Z p) a = _parse_vote_decision EmptyString a /\
   _parse_number_from_response (PyStr.str_of_Z p) a = Ret (Returned 0, a)).
Proof.
  split.
  - intros Hp. pose proof (str_of_Z_accepted p Hp) as Hok.
    pose proof (decimal_text_parses _ Hok) as Hparse.
    rewrite (proj2 (str_of_Z_decimal p (proj1 Hp))) in Hparse.
    split.
    + unfold _parse_vote_decision, try_catch_value_error, bind.
      rewrite int_tokens_run, Hparse. reflexivity.
    + rewrite _parse_number_from_response_run, Hparse. reflexivity.
  - intros [_ Hp]. destruct p as [ | q | q]; try lia.
    assert (Hparse : parsed_tokens (PyStr.split (PyStr.str_of_Z (Z.neg q))) = Returned []).
    { unfold PyStr.str_of_Z. cbn [Z.to_int NilZero.string_of_int].
      rewrite string_of_pos_text. unfold PyStr.split.
      change (PyStr.split_go (String "-" (NilEmpty.string_of_uint (Pos.to_uint q))) [])
        with (PyStr.split_go (NilEmpty.string_of_uint (Pos.to_uint q)) ["-"%char]).
      rewrite split_go_no_space by apply string_of_uint_decimal.
      unfold PyStr.flush.
      destruct (rev (list_ascii_of_string (NilEmpty.string_of_uint (Pos.to_uint q)))
                ++ ["-"%char]) as [ | x l] eqn:E.
      - destruct (rev (list_ascii_of_string (NilEmpty.string_of_uint (Pos.to_uint q))));
          discriminate E.
      - rewrite <- E, rev_app_distr, rev_involutive. cbn [rev app parsed_tokens].
        reflexivity. }
    split.
    + unfold _parse_vote_decision, try_catch_value_error, bind.
      rewrite !int_tokens_run, Hparse. reflexivity.
    + rewrite _parse_number_from_response_run, Hparse. reflexivity.
Qed.

Lemma player_id_text_round_trip_witness :
  (0 <= 12 < 10 ^ Z.of_nat PyStr.max_str_digits /\
   - 10 ^ Z.of_nat PyStr.max_str_digits < -3 < 0) /\
  _parse_vote_decision (PyStr.str_of_Z 12) (new_agent 1 SEER None)
  = Ret (Returned 12, new_agent 1 SEER None) /\
  _parse_number_from_response (PyStr.str_of_Z (-3)) (new_agent 1 SEER None)
  = Ret (Returned 0, new_agent 1 SEER None).
Proof.
  assert (Hpow : 100 <= 10 ^ Z.of_nat PyStr.max_str_digits)
    by (change 100 with (10 ^ 2); apply Z.pow_le_mono_r; [ lia | ];
        unfold PyStr.max_str_digits; lia).
  assert (H1 : 0 <= 12 < 10 ^ Z.of_nat PyStr.max_str_digits) by lia.
  assert (H2 : - 10 ^ Z.of_nat PyStr.max_str_digits < -3 < 0) by lia.
  split; [ split; assumption | ].
  split.
  - exact (proj1 (proj1 (player_id_text_round_trip 12 (new_agent 1 SEER None)) H1)).
  - exact (proj2 (proj2 (player_id_text_round_trip (-3) (new_agent 1 SEER None)) H2)).
Defined.

(** ** [act] as a wrapper of the three methods *)

Lemma run_pbind_from {A B : Type} (W : World) (p : prog A) (f : A -> prog B)
  (w w1 : wstate W) (v : A) (tr : list call) :
  run W p w = (v, w1, tr) ->
  run W (pbind p f) w =
  (fst (fst (run W (f v) w1)), snd (fst (run W (f v) w1)), tr ++ snd (run W (f v) w1)).
Proof. intros H. rewrite run_pbind, H. reflexivity. Qed.

Lemma methods_keep_player_id
  (json_dumps : string -> Z -> KnowledgeBase -> Context -> string)
  (W : World) (w : wstate W) (a : Agent) :
  (forall speech_type,
     player_id (agent_after (run W (speak json_dumps speech_type a) w)) = player_id a) /\
  (forall target_id,
     player_id (agent_after (run W (vote json_dumps target_id a) w)) = player_id a) /\
  (forall skill_params,
     player_id (agent_after (run W (use_skill json_dumps skill_params a) w)) = player_id a).
Proof.
  pose proof (player_id_stable (player_id a)) as Hstable.
  pose proof (world_obeys_any W) as HW.
  repeat split; intros x.
  - exact (run_leaves any_reply W _ _ HW
             (keeps_speak json_dumps any_reply _ Hstable x a eq_refl) w).
  - exact (run_leaves any_reply W _ _ HW
             (keeps_vote json_dumps any_reply _ Hstable x a eq_refl) w).
  - exact (run_leaves any_reply W _ _ HW
             (keeps_use_skill json_dumps any_reply _ Hstable x a eq_refl) w).
Qed.

Lemma run_bind_returned {S A B : Type} (W : World) (m : M S A) (f : A -> M S B)
  (s s1 : S) (w w1 : wstate W) (v : A) (tr : list call) :
  run W (m s) w = ((Returned v, s1), w1, tr) ->
  run W (bind m f s) w =
  (fst (fst (run W (f v s1) w1)), snd (fst (run W (f v s1) w1)),
   tr ++ snd (run W (f v s1) w1)).
Proof. intros H. unfold bind. rewrite (run_pbind_from _ _ _ _ _ _ _ H). reflexivity. Qed.

Lemma run_bind_raised {S A B : Type} (W : World) (m : M S A) (f : A -> M S B)
  (s s1 : S) (w w1 : wstate W) (e : exn) (tr : list call) :
  run W (m s) w = ((Raised e, s1), w1, tr) ->
  run W (bind m f s) w = ((Raised e, s1), w1, tr).
Proof.
  intros H. unfold bind. rewrite (run_pbind_from _ _ _ _ _ _ _ H).
  cbn. rewrite app_nil_r. reflexivity.
Qed.

Lemma run_try_catch_returned {S A : Type} (W : World) (body : M S A)
  (handler : exn -> M S A) (s s1 : S) (w w1 : wstate W) (v : A) (tr : list call) :
  run W (body s) w = ((Returned v, s1), w1, tr) ->
  run W (try_catch body handler s) w = ((Returned v, s1), w1, tr).
Proof.
  intros H. unfold try_catch. rewrite (run_pbind_from _ _ _ _ _ _ _ H).
  cbn. rewrite app_nil_r. reflexivity.
Qed.

Lemma run_try_catch_raised {S A : Type} (W : World) (body : M S A)
  (handler : exn -> M S A) (s s1 : S) (w w1 : wstate W) (e : exn) (tr : list call) :
  run W (body s) w = ((Raised e, s1), w1, tr) ->
  run W (try_catch body handler s) w =
  (fst (fst (run W (handler e s1) w1)), snd (fst (run W (handler e s1) w1)),
   tr ++ snd (run W (handler e s1) w1)).
Proof.
  intros H. unfold try_catch. rewrite (run_pbind_from _ _ _ _ _ _ _ H). reflexivity.
Qed.

Lemma run_lift {L A : Type} (W : World) (m : M Agent A) (a s : Agent) (l : L)
  (w w1 : wstate W) (o : outcome A) (tr : list call) :
  run W (m a) w = ((o, s), w1, tr) ->
  run W (lift m (a, l)) w = ((o, (s, l)), w1, tr).
Proof.
  intros H. unfold lift. cbn [fst snd]. rewrite (run_pbind_from _ _ _ _ _ _ _ H).
  cbn. rewrite app_nil_r. reflexivity.
Qed.

Lemma run_with_local {L A : Type} (W : World) (init : L) (m : M (Agent * L) A)
  (a s : Agent) (l : L) (w w1 : wstate W) (o : outcome A) (tr : list call) :
  run W (m (a, init)) w = ((o, (s, l)), w1, tr) ->
  run W (with_local init m a) w = ((o, s), w1, tr).
Proof.
  intros H. unfold with_local. rewrite (run_pbind_from _ _ _ _ _ _ _ H).
  cbn. rewrite app_nil_r. reflexivity.
Qed.

(** The tail of [act]: the report of the local result, the handler of
    the [try], and the return of the local result. *)
Lemma act_tail_run {A : Type} (W : World) (branch : M (Agent * ActionResult) A)
  (a s : Agent) (init reported : ActionResult) (w w1 : wstate W) (o : outcome A)
  (tr : list call) :
  run W (branch (a, init)) w = ((o, (s, reported)), w1, tr) ->
  let answer := answer_call W w1 (UpdateAgentAction (player_id s) reported) in
  run W
    (with_local init
       (let! _ :=
          try_catch
            (let! _ := branch in
             let! pid := gets (fun st => player_id (fst st)) in
             let! result := gets snd in
             let! _ := perform (UpdateAgentAction pid result) in
             ret tt)
            (fun e => update_result (ar_set_message ("Action failed: " +:+ exn_msg e))) in
        gets snd) a) w =
  match o with
  | Returned _ =>
      ((Returned (match fst answer with
                  | inl e => ar_set_message ("Action failed: " +:+ exn_msg e) reported
                  | inr _ => reported
                  end), s),
       snd answer, tr ++ [UpdateAgentAction (player_id s) reported])
  | Raised e =>
      ((Returned (ar_set_message ("Action failed: " +:+ exn_msg e) reported), s), w1, tr)
  end.
Proof.
  intros Hbranch answer. subst answer.
  match goal with
  | |- run W (with_local init
                (bind (try_catch (bind branch ?report) ?handler) ?last) a) w = _ =>
      destruct o as [v | e];
      [ pose proof (run_bind_returned W branch report _ _ _ _ _ _ Hbranch) as H1;
        cbn in H1;
        destruct (answer_call W w1 (UpdateAgentAction (player_id s) reported))
          as [[e | []] w2]; cbn in H1;
        [ pose proof (run_try_catch_raised W _ handler _ _ _ _ _ _ H1) as H2
        | pose proof (run_try_catch_returned W _ handler _ _ _ _ _ _ H1) as H2 ]
      | pose proof (run_bind_raised W branch report _ _ _ _ _ _ Hbranch) as H1;
        pose proof (run_try_catch_raised W _ handler _ _ _ _ _ _ H1) as H2 ];
      cbn in H2; rewrite ?app_nil_r in H2;
      pose proof (run_bind_returned W _ last _ _ _ _ _ _ H2) as H3;
      cbn in H3; rewrite ?app_nil_r in H3;
      exact (run_with_local W init _ a _ _ w _ _ _ H3)
  end.
Qed.

(** X14. [act] is its method followed by one report.  For ["speak"] and
    ["vote"] the agent, the world and the calls are those of the method
    with the report added, and the result reports a success with the
    text or the target the method returned; the same holds for
    ["use_skill"] with the success flag and the message of the skill
    result.  When [use_skill] raises, nothing is reported and the result
    is a failure with the message of the exception. *)
Theorem act_wraps_the_method
  (json_dumps : string -> Z -> KnowledgeBase -> Context -> string)
  (W : World) (w : wstate W) (a : Agent) (kwargs : Kwargs) :
  let spoken :=
    run W (speak json_dumps (default "normal"%string (kw_speech_type kwargs)) a) w in
  let voted := run W (vote json_dumps (kw_target_id kwargs) a) w in
  let skilled :=
    run W (use_skill json_dumps
             (Some (default empty_skill_params (kw_skill_params kwargs))) a) w in
  (forall content, result_of spoken = Returned content ->
     run W (act json_dumps "speak" kwargs a) w =
     reported_run W a spoken (mkActionResult "speak" true None (Some content) None)) /\
  (forall target, result_of voted = Returned target ->
     run W (act json_dumps "vote" kwargs a) w =
     reported_run W a voted (mkActionResult "vote" true None None (Some target))) /\
  (forall r, result_of skilled = Returned r ->
     run W (act json_dumps "use_skill" kwargs a) w =
     reported_run W a skilled
       (mkActionResult "use_skill" (sr_success r) (Some (sr_message r)) None None)) /\
  (forall e, result_of skilled = Raised e ->
     run W (act json_dumps "use_skill" kwargs a) w =
     ((Returned (mkActionResult "use_skill" false
                   (Some ("Action failed: " +:+ exn_msg e)%string) None None),
       agent_after skilled),
      world_after skilled, calls_of skilled)).
Proof.
  intros spoken voted skilled.
  destruct (methods_keep_player_id json_dumps W w a) as (Hspeak & Hvote & Hskill).
  specialize (Hspeak (default "normal"%string (kw_speech_type kwargs))).
  specialize (Hvote (kw_target_id kwargs)).
  specialize (Hskill (Some (default empty_skill_params (kw_skill_params kwargs)))).
  fold spoken in Hspeak. fold voted in Hvote. fold skilled in Hskill.
  unfold reported_run, result_of, agent_after, world_after, calls_of in *.
  repeat split.
  - intros content Hcontent.
    destruct spoken as [[[o s] w1] tr] eqn:E. cbn [fst snd] in *. subst o.
    unfold act. change (String.eqb "speak" "speak") with true. cbv iota zeta.
    match goal with
    | |- run W (with_local _ (bind (try_catch (bind ?branch _) _) _) a) w = _ =>
        assert (Hbranch :
                  run W (branch (a, mkActionResult "speak" false None None None)) w
                  = ((Returned tt,
                      (s, mkActionResult "speak" true None (Some content) None)), w1, tr))
          by (erewrite run_bind_returned by (apply run_lift; exact E);
              cbn; rewrite app_nil_r; reflexivity);
        rewrite (act_tail_run W branch _ _ _ _ _ _ _ _ Hbranch)
    end.
    rewrite Hspeak. reflexivity.
  - intros target Htarget.
    destruct voted as [[[o s] w1] tr] eqn:E. cbn [fst snd] in *. subst o.
    unfold act. change (String.eqb "vote" "speak") with false.
    change (String.eqb "vote" "vote") with true. cbv iota zeta.
    match goal with
    | |- run W (with_local _ (bind (try_catch (bind ?branch _) _) _) a) w = _ =>
        assert (Hbranch :
                  run W (branch (a, mkActionResult "vote" false None None None)) w
                  = ((Returned tt,
                      (s, mkActionResult "vote" true None None (Some target))), w1, tr))
          by (erewrite run_bind_returned by (apply run_lift; exact E);
              cbn; rewrite app_nil_r; reflexivity);
        rewrite (act_tail_run W branch _ _ _ _ _ _ _ _ Hbranch)
    end.
    rewrite Hvote. reflexivity.
  - intros r Hr.
    destruct skilled as [[[o s] w1] tr] eqn:E. cbn [fst snd] in *. subst o.
    unfold act. change (String.eqb "use_skill" "speak") with false.
    change (String.eqb "use_skill" "vote") with false.
    change (String.eqb "use_skill" "use_skill") with true. cbv iota zeta.
    match goal with
    | |- run W (with_local _ (bind (try_catch (bind ?branch _) _) _) a) w = _ =>
        assert (Hbranch :
                  run W (branch (a, mkActionResult "use_skill" false None None None)) w
                  = ((Returned tt,
                      (s, mkActionResult "use_skill" (sr_success r)
                            (Some (sr_message r)) None None)), w1, tr))
          by (erewrite run_bind_returned by (apply run_lift; exact E);
              cbn; rewrite app_nil_r; reflexivity);
        rewrite (act_tail_run W branch _ _ _ _ _ _ _ _ Hbranch)
    end.
    rewrite Hskill. reflexivity.
  - intros e He.
    destruct skilled as [[[o s] w1] tr] eqn:E. cbn [fst snd] in *. subst o.
    unfold act. change (String.eqb "use_skill" "speak") with false.
    change (String.eqb "use_skill" "vote") with false.
    change (String.eqb "use_skill" "use_skill") with true. cbv iota zeta.
    match goal with
    | |- run W (with_local _ (bind (try_catch (bind ?branch _) _) _) a) w = _ =>
        assert (Hbranch :
                  run W (branch (a, mkActionResult "use_skill" false None None None)) w
                  = ((@Raised unit e,
                      (s, mkActionResult "use_skill" false None None None)), w1, tr))
          by (apply run_bind_raised, run_lift; exact E);
        rewrite (act_tail_run W branch _ _ _ _ _ _ _ _ Hbranch)
    end.
    reflexivity.
Qed.

Lemma act_wraps_the_method_witness :
  let a := new_agent 2 VILLAGER None in
  let kwargs := mkKwargs None (Some 4) None in
  let voted := run report_fails_world (vote sample_json_dumps (Some 4) a) tt in
  result_of voted = Returned 4 /\
  run report_fails_world (act sample_json_dumps "vote" kwargs a) tt =
  ((Returned (mkActionResult "vote" true (Some "Action failed: boom"%string) None (Some 4)),
    set_vote_target (Some 4) a),
   tt, [SubmitVote 2 4; UpdateAgentAction 2 (mkActionResult "vote" true None None (Some 4))]).
Proof.
  intros a kwargs voted.
  assert (H : result_of voted = Returned 4) by reflexivity.
  split; [ exact H | ].
  destruct (act_wraps_the_method sample_json_dumps report_fails_world tt a kwargs)
    as (_ & Hvote & _).
  rewrite (Hvote 4 H). reflexivity.
Defined.

(** ** What normal play never changes *)

Lemma identity_stable (a : Agent) :
  stable (fun s => player_id s = player_id a /\ role s = role a /\
                   api_client s = api_client a /\ is_alive s = is_alive a).
Proof. repeat split; intros; intuition. Qed.

(** X23. No sequence of plays, in any world, changes the player id, the
    role, the generator client or the alive flag of the agent: of the
    methods of the agent, only [update_status] can kill or revive it. *)
Theorem play_keeps_identity_and_life
  (json_dumps : string -> Z -> KnowledgeBase -> Context -> string)
  (W : World) (w : wstate W) (a : Agent) (plays : list play) :
  let s := agent_after (run W (session json_dumps plays a) w) in
  player_id s = player_id a /\ role s = role a /\
  api_client s = api_client a /\ is_alive s = is_alive a.
Proof.
  cbv zeta.
  apply (run_leaves any_reply W
           (fun r => player_id (snd r) = player_id a /\ role (snd r) = role a /\
                     api_client (snd r) = api_client a /\ is_alive (snd r) = is_alive a)
           _ (world_obeys_any W)).
  apply (keeps_session json_dumps any_reply _ (identity_stable a) plays a).
  repeat split.
Qed.

(** ** The cached roster *)

Section RosterKept.

Variable json_dumps : string -> Z -> KnowledgeBase -> Context -> string.
Variable ok : reply_ok.

Lemma roster_get_current_state : keeps ok has_roster get_current_state.
Proof.
  intros s Hs. unfold get_current_state, try_catch, bind, gets, perform, modify, ret.
  cbn [pbind fst snd leaves]. intros [e | state] _; cbn; [ exact Hs | discriminate ].
Qed.

Lemma roster_get_history_speeches : keeps ok has_roster get_history_speeches.
Proof.
  intros s Hs. unfold get_history_speeches, try_catch, bind, gets, perform, modify, ret.
  cbn [pbind fst snd leaves]. intros [e | history] _; cbn; exact Hs.
Qed.

Lemma roster_speak (speech_type : string) :
  keeps ok has_roster (speak json_dumps speech_type).
Proof.
  pose proof roster_get_current_state. pose proof roster_get_history_speeches.
  unfold speak, _construct_speech_prompt.
  repeat keeps_step; try assumption; apply keeps_interact_with_ai.
Qed.

Lemma roster_vote (target_id : option Z) :
  keeps ok has_roster (vote json_dumps target_id).
Proof.
  assert (Hvote : forall t s, has_roster s -> has_roster (set_vote_target t s))
    by (intros t s Hs; exact Hs).
  unfold vote, _construct_vote_prompt.
  repeat keeps_step;
    first [ apply keeps_interact_with_ai | apply keeps__parse_vote_decision ].
Qed.

Lemma roster_use_skill (skill_params : option SkillParams) :
  keeps ok has_roster (use_skill json_dumps skill_params).
Proof.
  assert (Hlatch : forall s, has_roster s -> has_roster (set_skill_used true s))
    by (intros s Hs; exact Hs).
  unfold use_skill, _use_werewolf_skill, _use_witch_skill, _use_seer_skill,
    _use_hunter_skill, hunter_shoot_at, _get_skill_context.
  repeat keeps_step;
    first [ apply keeps_resolve_target | apply keeps_interact_with_ai
          | apply keeps__parse_witch_decision ].
Qed.

Lemma roster_act (action_type : string) (kwargs : Kwargs) :
  keeps ok has_roster (act json_dumps action_type kwargs).
Proof.
  unfold act.
  repeat keeps_step;
    first [ apply roster_speak | apply roster_vote | apply roster_use_skill ].
Qed.

Lemma roster_session (plays : list play) :
  keeps ok has_roster (session json_dumps plays).
Proof.
  induction plays as [ | p rest IH]; simpl.
  - apply keeps_ret.
  - apply keeps_bind; [ | intros _; exact IH ].
    apply keeps_try_catch; [ | intros e; apply keeps_ret ].
    destruct p; unfold play_one; repeat keeps_step;
      first [ apply roster_speak | apply roster_vote | apply roster_use_skill
            | apply roster_act | apply roster_get_current_state
            | apply roster_get_history_speeches | apply keeps_interact_with_ai ].
Qed.

End RosterKept.

(** X24. Once an alive roster is cached it stays cached through any sequence
    of plays, in any world: a state fetch that fails keeps the old one
    and one that succeeds stores a new one.  So the ids 1 to 9 can only
    serve as vote candidates before the first successful state fetch. *)
Theorem roster_stays_cached
  (json_dumps : string -> Z -> KnowledgeBase -> Context -> string)
  (W : World) (w : wstate W) (a : Agent) (plays : list play) :
  kb_alive_players (knowledge_base a) <> None ->
  let s := agent_after (run W (session json_dumps plays a) w) in
  exists alive_players,
    kb_alive_players (knowledge_base s) = Some alive_players /\
    vote_candidates s = other_players_of (player_id a) alive_players.
Proof.
  intros Ha. cbv zeta.
  pose proof (run_leaves any_reply W _ _ (world_obeys_any W)
                (roster_session json_dumps any_reply plays a Ha) w) as Hs.
  pose proof (run_leaves any_reply W _ _ (world_obeys_any W)
                (keeps_session json_dumps any_reply _ (player_id_stable (player_id a))
                   plays a eq_refl) w) as Hpid.
  cbn beta in Hpid.
  cbn beta in Hs. unfold has_roster, agent_after in *.
  destruct (kb_alive_players
              (knowledge_base (snd (fst (fst (run W (session json_dumps plays a) w))))))
    as [alive_players | ] eqn:E; [ | contradiction ].
  exists alive_players. split; [ reflexivity | ].
  unfold vote_candidates. rewrite E, Hpid. reflexivity.
Qed.

Lemma roster_stays_cached_witness :
  let a := with_roster [1; 2; 3] (new_agent 2 SEER None) in
  let plays := [PlayVote None; PlayRefreshHistory; PlayAct "vote" (mkKwargs None None None)] in
  let s := agent_after (run report_fails_world (session sample_json_dumps plays a) tt) in
  kb_alive_players (knowledge_base a) <> None /\
  exists alive_players,
    kb_alive_players (knowledge_base s) = Some alive_players /\
    vote_candidates s = other_players_of 2 alive_players.
Proof.
  intros a plays s.
  assert (H : kb_alive_players (knowledge_base a) <> None) by discriminate.
  split; [ exact H | ].
  exact (roster_stays_cached sample_json_dumps report_fails_world tt a plays H).
Defined.

(** ** A generator that raises *)



Lemma witch_decision_on_decimal_tokens_witness :
  let a := new_agent 4 WITCH None in
  let long_reply := ("save " +:+ ones 4301)%string in
  (digit_tokens_convert "I will POISON player 3 tonight" = true /\
   _parse_witch_decision "I will POISON player 3 tonight" a
   = Ret (Returned ("poison"%string, 3), a)) /\
  ((digit_tokens_convert long_reply = false /\
    PyStr.contains "save" (PyStr.lower long_reply)
    || PyStr.contains "poison" (PyStr.lower long_reply) = true) /\
   exists e : exn,
     _parse_witch_decision long_reply a = Ret (Raised e, a) /\
     is_value_error e = true).
Proof.
  intros a long_reply.
  assert (H1 : digit_tokens_convert "I will POISON player 3 tonight" = true)
    by (vm_compute; reflexivity).
  assert (H2 : digit_tokens_convert long_reply = false) by (vm_compute; reflexivity).
  assert (H3 : PyStr.contains "save" (PyStr.lower long_reply)
               || PyStr.contains "poison" (PyStr.lower long_reply) = true)
    by (vm_compute; reflexivity).
  split.
  - split; [ exact H1 | ].
    exact (proj1 (witch_decision_on_decimal_tokens "I will POISON player 3 tonight" a) H1).
  - split; [ split; assumption | ].
    exact (proj2 (witch_decision_on_decimal_tokens long_reply a) H2 H3).
Defined.
